(** * miniapp_api: the signed-payload check, the price rule, the balance
      and payment operations and the routes of the Mini App backend

    The development embeds [src/miniapp_api.py] function by function.
    Python text (`str`) is a list of Unicode code points, `bytes` a list of
    [byte]; exceptions are values of [exn] carried by [result]; the SQLite
    tables are finite maps keyed by their primary key. *)

From Stdlib Require Import ZArith NArith List Ascii String SpecFloat Bool Lia DecimalString.
From Stdlib.Strings Require Import Byte.
From stdpp Require Import gmap list sorting.
Import ListNotations.

Local Open Scope Z_scope.

(** ** Python values: text, bytes, exceptions *)

(** A `str` is a sequence of code points. *)
Abbreviation str := (list N).

(** A literal of the source, code point by code point. *)
Definition py (s : string) : str := map N_of_ascii (list_ascii_of_string s).

Abbreviation bytes := (list byte).

Inductive exn :=
| HTTPException (status_code : Z) (detail : string)
| TypeError
| KeyError
| UnicodeEncodeError
| OverflowError
| ValueError
| OperationalError.

Inductive result (A : Type) :=
| Ok (a : A)
| Raise (e : exn).
Arguments Ok {A} a.
Arguments Raise {A} e.

(** Sequencing: the first exception raised ends the computation. *)
#[global] Instance result_bind : MBind result := fun A B k r =>
  match r with
  | Ok a => k a
  | Raise e => Raise e
  end.

Definition byte_of_Z (z : Z) : byte :=
  match Byte.of_N (Z.to_N (z mod 256)) with
  | Some b => b
  | None => x00
  end.

Definition Z_of_byte (b : byte) : Z := Z.of_N (Byte.to_N b).

(** ** hashlib.sha256 and hmac (FIPS 180-4, RFC 2104) *)

Module Sha256.

Definition mask32 : Z := 2 ^ 32 - 1.
Definition add32 (x y : Z) : Z := (x + y) mod 2 ^ 32.
Definition rotr (n x : Z) : Z :=
  Z.lor (Z.shiftr x n) (Z.land (Z.shiftl x (32 - n)) mask32).

Definition Ch (x y z : Z) : Z :=
  Z.lxor (Z.land x y) (Z.land (Z.lxor x mask32) z).
Definition Maj (x y z : Z) : Z :=
  Z.lxor (Z.lxor (Z.land x y) (Z.land x z)) (Z.land y z).
Definition bsig0 (x : Z) : Z := Z.lxor (Z.lxor (rotr 2 x) (rotr 13 x)) (rotr 22 x).
Definition bsig1 (x : Z) : Z := Z.lxor (Z.lxor (rotr 6 x) (rotr 11 x)) (rotr 25 x).
Definition ssig0 (x : Z) : Z := Z.lxor (Z.lxor (rotr 7 x) (rotr 18 x)) (Z.shiftr x 3).
Definition ssig1 (x : Z) : Z := Z.lxor (Z.lxor (rotr 17 x) (rotr 19 x)) (Z.shiftr x 10).

(** The round constants are the first 32 fractional bits of the cube roots
    of the first 64 primes, the initial state those of the square roots of
    the first 8. *)
Definition is_prime (n : nat) : bool :=
  forallb (fun d => negb (Nat.eqb (Nat.modulo n d) 0)) (seq 2 (n - 2)).
Definition primes64 : list Z :=
  Eval vm_compute in map Z.of_nat (filter is_prime (seq 2 310)).

(** Largest r with r^3 <= n, searched over the low [bits] bits. *)
Fixpoint icbrt (bits : nat) (n r : Z) : Z :=
  match bits with
  | O => r
  | S b =>
      let r' := r + 2 ^ Z.of_nat b in
      icbrt b n (if r' * r' * r' <=? n then r' else r)
  end.

Definition K256 : list Z :=
  Eval vm_compute in map (fun p => icbrt 40 (p * 2 ^ 96) 0 mod 2 ^ 32) primes64.
Definition H256 : list Z :=
  Eval vm_compute in map (fun p => Z.sqrt (p * 2 ^ 64) mod 2 ^ 32) (firstn 8 primes64).

(** Message schedule, newest word first. *)
Fixpoint schedule (n : nat) (rw : list Z) : list Z :=
  match n with
  | O => rw
  | S n' =>
      let w := add32 (add32 (add32 (ssig1 (nth 1 rw 0)) (nth 6 rw 0))
                            (ssig0 (nth 14 rw 0))) (nth 15 rw 0) in
      schedule n' (w :: rw)
  end.

Definition regs := (Z * Z * Z * Z * Z * Z * Z * Z)%type.

Definition step (s : regs) (kw : Z * Z) : regs :=
  let '(a, b, c, d, e, f, g, h) := s in
  let t1 := add32 (add32 (add32 (add32 h (bsig1 e)) (Ch e f g)) (fst kw)) (snd kw) in
  let t2 := add32 (bsig0 a) (Maj a b c) in
  (add32 t1 t2, a, b, c, add32 d t1, e, f, g).

Fixpoint be_words (n : nat) (l : list Z) : list Z :=
  match n, l with
  | S n', b0 :: b1 :: b2 :: b3 :: tl =>
      (((b0 * 256 + b1) * 256 + b2) * 256 + b3) :: be_words n' tl
  | _, _ => []
  end.

Definition compress (s : regs) (block : list Z) : regs :=
  let w := rev (schedule 48 (rev (be_words 16 block))) in
  let '(a, b, c, d, e, f, g, h) := s in
  let '(a', b', c', d', e', f', g', h') := fold_left step (combine K256 w) s in
  (add32 a a', add32 b b', add32 c c', add32 d d',
   add32 e e', add32 f f', add32 g g', add32 h h').

Fixpoint be_bytes (n : nat) (x : Z) : list Z :=
  match n with
  | O => []
  | S n' => (Z.shiftr x (8 * Z.of_nat n') mod 256) :: be_bytes n' x
  end.

Definition pad (msg : list Z) : list Z :=
  let len := Z.of_nat (length msg) in
  msg ++ [128] ++ repeat 0 (Z.to_nat ((55 - len) mod 64)) ++ be_bytes 8 (8 * len).

Fixpoint blocks (n : nat) (s : regs) (l : list Z) : regs :=
  match n with
  | O => s
  | S n' => blocks n' (compress s (firstn 64 l)) (skipn 64 l)
  end.

Definition init : regs :=
  (nth 0 H256 0, nth 1 H256 0, nth 2 H256 0, nth 3 H256 0,
   nth 4 H256 0, nth 5 H256 0, nth 6 H256 0, nth 7 H256 0).

Definition digest_words (s : regs) : list Z :=
  let '(a, b, c, d, e, f, g, h) := s in [a; b; c; d; e; f; g; h].

Definition sha256 (msg : bytes) : bytes :=
  let m := pad (map Z_of_byte msg) in
  let s := blocks (length m / 64) init m in
  map byte_of_Z (concat (map (be_bytes 4) (digest_words s))).

Definition block_size : nat := 64.

Definition xor_pad (c : Z) (k : bytes) : bytes :=
  map (fun b => byte_of_Z (Z.lxor (Z_of_byte b) c)) k.

(** hmac.new(key, msg, hashlib.sha256).digest() *)
Definition hmac (key msg : bytes) : bytes :=
  let k0 := if (block_size <? length key)%nat then sha256 key else key in
  let k := k0 ++ repeat x00 (block_size - length k0) in
  sha256 (xor_pad 92 k ++ sha256 (xor_pad 54 k ++ msg)).

Definition hexdigit (d : Z) : N := Z.to_N (if d <? 10 then 48 + d else 87 + d).

(** bytes.hex(): two lower-case digits per byte *)
Fixpoint hex (b : bytes) : str :=
  match b with
  | [] => []
  | x :: tl => hexdigit (Z_of_byte x / 16) :: hexdigit (Z_of_byte x mod 16) :: hex tl
  end.

Definition hexdigest (key msg : bytes) : str := hex (hmac key msg).

End Sha256.

(** str.encode(): UTF-8; a surrogate has no encoding *)
Definition encode_char (c : N) : result (list Z) :=
  let z := Z.of_N c in
  if z <? 128 then Ok [z]
  else if z <? 2048 then Ok [192 + z / 64; 128 + z mod 64]
  else if (55296 <=? z) && (z <=? 57343) then Raise UnicodeEncodeError
  else if z <? 65536 then Ok [224 + z / 4096; 128 + (z / 64) mod 64; 128 + z mod 64]
  else if z <? 1114112 then
    Ok [240 + z / 262144; 128 + (z / 4096) mod 64; 128 + (z / 64) mod 64; 128 + z mod 64]
  else Raise UnicodeEncodeError.

Fixpoint encode (s : str) : result bytes :=
  match s with
  | [] => Ok []
  | c :: tl =>
      bs ← encode_char c;
      rest ← encode tl;
      Ok (map byte_of_Z bs ++ rest)
  end.

(** ** urllib.parse: percent-decoding and parse_qsl *)

Module Urllib.

Definition replacement : N := 65533.

Definition hexval (c : N) : option Z :=
  let z := Z.of_N c in
  if (48 <=? z) && (z <=? 57) then Some (z - 48)
  else if (65 <=? z) && (z <=? 70) then Some (z - 55)
  else if (97 <=? z) && (z <=? 102) then Some (z - 87)
  else None.

(** unquote_to_bytes on ASCII text: `%` followed by two hex digits is one
    byte, any other `%` stands for itself. *)
Fixpoint unquote_to_bytes (s : str) : list Z :=
  match s with
  | [] => []
  | c :: tl =>
      if (c =? 37)%N then
        match tl with
        | a :: b :: rest =>
            match hexval a, hexval b with
            | Some x, Some y => (16 * x + y) :: unquote_to_bytes rest
            | _, _ => 37 :: unquote_to_bytes tl
            end
        | _ => 37 :: unquote_to_bytes tl
        end
      else Z.of_N c :: unquote_to_bytes tl
  end.

Definition cont (c : Z) : bool := (128 <=? c) && (c <? 192).

(** bytes.decode('utf-8', 'replace'): each ill-formed run becomes U+FFFD
    and decoding resumes after it. *)
Fixpoint decode (bs : list Z) : str :=
  match bs with
  | [] => []
  | c :: t1 =>
      if c <? 128 then Z.to_N c :: decode t1
      else if c <? 194 then replacement :: decode t1
      else if c <? 224 then
        match t1 with
        | [] => [replacement]
        | c2 :: t2 =>
            if cont c2 then Z.to_N ((c - 192) * 64 + (c2 - 128)) :: decode t2
            else replacement :: decode t1
        end
      else if c <? 240 then
        match t1 with
        | [] => [replacement]
        | c2 :: t2 =>
            if negb (cont c2) || (if c2 <? 160 then c =? 224 else c =? 237)
            then replacement :: decode t1
            else
              match t2 with
              | [] => [replacement]
              | c3 :: t3 =>
                  if cont c3
                  then Z.to_N (((c - 224) * 64 + (c2 - 128)) * 64 + (c3 - 128)) :: decode t3
                  else replacement :: decode t2
              end
        end
      else if c <? 245 then
        match t1 with
        | [] => [replacement]
        | c2 :: t2 =>
            if negb (cont c2) || (if c2 <? 144 then c =? 240 else c =? 244)
            then replacement :: decode t1
            else
              match t2 with
              | [] => [replacement]
              | c3 :: t3 =>
                  if negb (cont c3) then replacement :: decode t2
                  else
                    match t3 with
                    | [] => [replacement]
                    | c4 :: t4 =>
                        if cont c4
                        then Z.to_N ((((c - 240) * 64 + (c2 - 128)) * 64 + (c3 - 128)) * 64
                                     + (c4 - 128)) :: decode t4
                        else replacement :: decode t3
                    end
              end
        end
      else replacement :: decode t1
  end.

(** The ASCII runs of the text are decoded one by one; the characters
    between them are kept. [run] is the current run, newest first. *)
Fixpoint unquote_runs (run : str) (s : str) : str :=
  match s with
  | [] => decode (unquote_to_bytes (rev run))
  | c :: tl =>
      if (c <? 128)%N then unquote_runs (c :: run) tl
      else decode (unquote_to_bytes (rev run)) ++ c :: unquote_runs [] tl
  end.

Definition unquote (s : str) : str :=
  if existsb (N.eqb 37) s then unquote_runs [] s else s.

(** s.split(sep); [cur] is the current piece, newest first. *)
Fixpoint split (sep : N) (cur : str) (s : str) : list str :=
  match s with
  | [] => [rev cur]
  | c :: tl =>
      if (c =? sep)%N then rev cur :: split sep [] tl
      else split sep (c :: cur) tl
  end.

(** name_value.split('=', 1), with '' appended when there is no `=` *)
Fixpoint split_eq (name : str) (s : str) : str * str :=
  match s with
  | [] => (rev name, [])
  | c :: tl => if (c =? 61)%N then (rev name, tl) else split_eq (c :: name) tl
  end.

Definition plus_to_space (s : str) : str :=
  map (fun c => if (c =? 43)%N then 32%N else c) s.

(** parse_qsl(qs, keep_blank_values=True) *)
Definition parse_qsl (qs : str) : list (str * str) :=
  let query_args := match qs with [] => [] | _ => split 38 [] qs end in
  flat_map (fun name_value =>
    match name_value with
    | [] => []
    | _ =>
        let nv := split_eq [] name_value in
        [(unquote (plus_to_space (fst nv)), unquote (plus_to_space (snd nv)))]
    end) query_args.

End Urllib.

(** ** dict, sorted, join *)

(** dict(pairs): a later pair replaces an earlier one with the same key. *)
Definition dict (pairs : list (str * str)) : gmap str str :=
  foldl (fun m kv => <[kv.1 := kv.2]> m) ∅ pairs.

(** Order of `str`: by code point, a proper prefix first. *)
Fixpoint str_compare (a b : str) : comparison :=
  match a, b with
  | [], [] => Eq
  | [], _ :: _ => Lt
  | _ :: _, [] => Gt
  | x :: a', y :: b' =>
      match N.compare x y with
      | Eq => str_compare a' b'
      | c => c
      end
  end.

(** Order of the tuples (k, v). *)
Definition item_ltb (x y : str * str) : bool :=
  match str_compare x.1 y.1 with
  | Lt => true
  | Gt => false
  | Eq => match str_compare x.2 y.2 with Lt => true | _ => false end
  end.

Fixpoint insert_sorted (x : str * str) (l : list (str * str)) : list (str * str) :=
  match l with
  | [] => [x]
  | y :: tl => if item_ltb y x then y :: insert_sorted x tl else x :: l
  end.

(** sorted(data.items()) *)
Definition sorted_items (data : gmap str str) : list (str * str) :=
  foldr insert_sorted [] (map_to_list data).

(** sep.join(parts) *)
Fixpoint join (sep : str) (parts : list str) : str :=
  match parts with
  | [] => []
  | [x] => x
  | x :: tl => x ++ sep ++ join sep tl
  end.

(** ** json values and subscripting *)

#[local] Unset Elimination Schemes.
Inductive json :=
| JNull
| JBool (b : bool)
| JInt (z : Z)
| JFloat (f : spec_float)
| JStr (s : str)
| JList (l : list json)
| JDict (items : list (str * json)).
#[local] Set Elimination Schemes.

(** d[k] on a decoded dict: the last item with that key (json.loads keeps
    the last of repeated names). *)
Fixpoint dict_get (items : list (str * json)) (k : str) : option json :=
  match items with
  | [] => None
  | (k', v) :: tl =>
      match dict_get tl k with
      | Some v' => Some v'
      | None => if decide (k' = k) then Some v else None
      end
  end.

(** u[k] with a `str` subscript: only a dict holding k has one. *)
Definition getitem (u : json) (k : str) : result json :=
  match u with
  | JDict items =>
      match dict_get items k with
      | Some v => Ok v
      | None => Raise KeyError
      end
  | _ => Raise TypeError
  end.

(** ** auth: verify initData *)

Definition is_ascii (s : str) : bool := forallb (fun c => (c <? 128)%N) s.

(** hmac.compare_digest on two `str`: only ASCII text is compared. *)
Definition compare_digest (a b : str) : result bool :=
  if is_ascii a && is_ascii b then Ok (bool_decide (a = b)) else Raise TypeError.

(** data.get("user", "{}") or "{}" *)
Definition user_text (data : gmap str str) : str :=
  match data !! py "user" with
  | None | Some [] => py "{}"
  | Some user => user
  end.

(** The hex signature of the check-string [msg] under the bot secret:
    secret_key = HMAC(b"WebAppData", token), calc_hash = HMAC(secret_key, msg). *)
Definition calc_hash (token msg : bytes) : str :=
  let secret_key := Sha256.hmac (list_byte_of_string "WebAppData") token in
  Sha256.hexdigest secret_key msg.

Definition data_check_string (data : gmap str str) : str :=
  join [10%N] (map (fun kv => kv.1 ++ py "=" ++ kv.2) (sorted_items data)).

Section Auth.

(** The bot secret read from the environment, and json.loads. *)
Variable BOT_TOKEN : str.
Variable json_loads : str -> result json.

Definition verify_init_data (init_data : str) : result json :=
  match init_data with
  | [] => Raise (HTTPException 401 "no initData")
  | _ =>
      let data := dict (Urllib.parse_qsl init_data) in
      let hash_recv := data !! py "hash" in
      let data := delete (py "hash") data in
      match hash_recv with
      | None | Some [] => Raise (HTTPException 401 "no hash")
      | Some hash_recv =>
          let dcs := data_check_string data in
          token ← encode BOT_TOKEN;
          msg ← encode dcs;
          same ← compare_digest (calc_hash token msg) hash_recv;
          if negb same then Raise (HTTPException 401 "bad signature")
          else json_loads (user_text data)
      end
  end.

(** The routes' `u["id"]` on the identity verify returned. *)
Definition identity_id (init_data : str) : result json :=
  u ← verify_init_data init_data;
  getitem u (py "id").

End Auth.

(** ** float: IEEE 754 binary64, as Python has it *)

Module Float.

Definition prec : Z := 53.
Definition emax : Z := 1024.

(** int -> float, as done by an arithmetic operator with a float operand:
    round to nearest, ties to even; too large an int does not convert. *)
Definition of_int (n : Z) : result spec_float :=
  match binary_normalize prec emax n 0 false with
  | S754_infinity _ => Raise OverflowError
  | f => Ok f
  end.

Definition mul : spec_float -> spec_float -> spec_float := SFmul prec emax.
Definition sub : spec_float -> spec_float -> spec_float := SFsub prec emax.
Definition div : spec_float -> spec_float -> spec_float := SFdiv prec emax.

(** The literal n/d of the source text, d a power of ten. *)
Definition literal (n d : Z) : spec_float :=
  div (binary_normalize prec emax n 0 false) (binary_normalize prec emax d 0 false).

(** Nearest integer to m/d (d > 0), a tie going to the even one. *)
Definition round_half_even (m d : Z) : Z :=
  let q := m / d in
  let r := m mod d in
  if 2 * r <? d then q
  else if d <? 2 * r then q + 1
  else if Z.even q then q else q + 1.

(** round(x) with one argument *)
Definition round (x : spec_float) : result Z :=
  match x with
  | S754_zero _ => Ok 0
  | S754_infinity _ => Raise OverflowError
  | S754_nan => Raise ValueError
  | S754_finite s m e =>
      let v := if 0 <=? e then Z.pos m * 2 ^ e
               else round_half_even (Z.pos m) (2 ^ (- e)) in
      Ok (if s then - v else v)
  end.

End Float.

(** ** Pricing *)

Definition BASE_PRICE_30 : Z := 75.

Definition DISCOUNT_BY_DAYS : gmap Z spec_float :=
  <[30 := Float.literal 0 100]> (<[60 := Float.literal 5 100]>
    (<[90 := Float.literal 10 100]> ∅)).

Definition calc_amount (days seats : Z) : result Z :=
  base ← Float.of_int BASE_PRICE_30;
  let per_day := Float.div base (Float.literal 300 10) in
  d ← Float.of_int days;
  s ← Float.of_int seats;
  let subtotal := Float.mul (Float.mul per_day d) s in
  let disc := default (Float.literal 0 10) (DISCOUNT_BY_DAYS !! days) in
  Float.round (Float.mul subtotal (Float.sub (Float.literal 10 10) disc)).

(** The price in exact arithmetic, to compare [calc_amount] with: the
    discount in percent, and the test that r is the integer nearest to
    num/den (den > 0), the even one in case of a tie. *)
Definition discount_percent (days : Z) : Z :=
  if days =? 60 then 5 else if days =? 90 then 10 else 0.

Definition is_nearest_even (num den r : Z) : bool :=
  let err := Z.abs (den * r - num) in
  (2 * err <? den) || ((2 * err =? den) && Z.even r).

Definition exact_price (days seats r : Z) : bool :=
  is_nearest_even (BASE_PRICE_30 * days * seats * (100 - discount_percent days)) (30 * 100) r.

Definition exact_on (calc : Z -> Z -> result Z) (days seats : Z) : bool :=
  match calc days seats with
  | Ok r => exact_price days seats r
  | Raise _ => false
  end.

(** calc_amount with its constants evaluated: per_day is 2.5 and 1.0 - disc
    one of three doubles. *)
Definition one_minus (days : Z) : spec_float :=
  if days =? 60 then S754_finite false 0x1e666666666666 (-53)
  else if days =? 90 then S754_finite false 0x1ccccccccccccd (-53)
  else S754_finite false 4503599627370496 (-52).

Definition calc_amount_evaluated (days seats : Z) : result Z :=
  d ← Float.of_int days;
  s ← Float.of_int seats;
  Float.round
    (Float.mul (Float.mul (Float.mul (S754_finite false 5629499534213120 (-51)) d) s)
               (one_minus days)).

(** The integers lo, lo + 1, ..., hi. *)
Definition range (lo hi : Z) : list Z :=
  map (fun i => lo + Z.of_nat i) (seq 0 (Z.to_nat (hi - lo + 1))).

(** ** The store: tables users and payments

    A table is a finite map from its INTEGER PRIMARY KEY to the other
    columns, with the schema of the CREATE TABLE statements of the source.
    The balance days_left holds an INTEGER of 64 bits, or a REAL once an
    expression has left that range; the other integer columns are never
    computed on and hold an integer. Both tables exist. A function that runs
    its statements inside `with db() as conn` returns the committed store, and
    raises with nothing written when a statement raises (the connection rolls
    back). The user_id of get_or_create_user, get_user and list_payments and
    the username of get_or_create_user are those of the verified identity:
    their binding is taken to succeed. *)

(** The range of an SQLite INTEGER. *)
Definition int64 (z : Z) : bool := (- 2 ^ 63 <=? z) && (z <? 2 ^ 63).

(** A value of a column of INTEGER affinity. A REAL is never NaN: SQLite
    keeps NULL for it. *)
Inductive value :=
| INTEGER (z : Z)
| REAL (x : spec_float).

Coercion INTEGER : Z >-> value.

(** sqlite3 binds a Python int as an INTEGER, and raises OverflowError for
    one outside the 64-bit range before the statement runs. *)
Definition bind_int (z : Z) : result Z :=
  if int64 z then Ok z else Raise OverflowError.

(** It binds None as NULL and a `str` as its UTF-8 TEXT. *)
Definition bind_text (s : option str) : result (option str) :=
  match s with
  | None => Ok None
  | Some t => _ ← encode t; Ok (Some t)
  end.

Module Sql.

Definition add : spec_float -> spec_float -> spec_float := SFadd Float.prec Float.emax.

(** The double of an INTEGER, as the C cast gives it. *)
Definition real_of_int (z : Z) : spec_float :=
  binary_normalize Float.prec Float.emax z 0 false.

Definition real (v : value) : spec_float :=
  match v with
  | INTEGER z => real_of_int z
  | REAL x => x
  end.

(** An INTEGER against a REAL: the exact values are compared. *)
Definition compare_int_real (z : Z) (x : spec_float) : comparison :=
  match x with
  | S754_zero _ => z ?= 0
  | S754_infinity s => if s then Gt else Lt
  | S754_nan => Gt
  | S754_finite s m e =>
      let v := if s then Z.neg m else Z.pos m in
      if 0 <=? e then z ?= v * 2 ^ e else z * 2 ^ (- e) ?= v
  end.

Definition ltb (v w : value) : bool :=
  match v, w with
  | INTEGER a, INTEGER b => a <? b
  | INTEGER a, REAL y => match compare_int_real a y with Lt => true | _ => false end
  | REAL x, INTEGER b => match compare_int_real b x with Gt => true | _ => false end
  | REAL x, REAL y => match SFcompare x y with Some Lt => true | _ => false end
  end.

(** a + b and a - b: on two INTEGERs the exact result when it is one of 64
    bits; otherwise the operation on the doubles of the operands (a NaN,
    which SQLite turns into NULL, does not come of a balance and a bound
    int). *)
Definition plus (a b : value) : value :=
  match a, b with
  | INTEGER x, INTEGER y =>
      if int64 (x + y) then INTEGER (x + y) else REAL (add (real_of_int x) (real_of_int y))
  | _, _ => REAL (add (real a) (real b))
  end.

Definition minus (a b : value) : value :=
  match a, b with
  | INTEGER x, INTEGER y =>
      if int64 (x - y) then INTEGER (x - y) else REAL (Float.sub (real_of_int x) (real_of_int y))
  | _, _ => REAL (Float.sub (real a) (real b))
  end.

(** The integer a double is, when it is one. *)
Definition integral (x : spec_float) : option Z :=
  match x with
  | S754_zero _ => Some 0
  | S754_finite s m e =>
      let sign z := if s then - z else z in
      if 0 <=? e then Some (sign (Z.pos m * 2 ^ e))
      else if Z.pos m mod 2 ^ (- e) =? 0 then Some (sign (Z.pos m / 2 ^ (- e)))
      else None
  | S754_infinity _ | S754_nan => None
  end.

(** What a column of INTEGER affinity stores for a value: a REAL that is an
    integer strictly between the least and the greatest INTEGER is stored
    as that INTEGER. *)
Definition affinity (v : value) : value :=
  match v with
  | INTEGER _ => v
  | REAL x =>
      match integral x with
      | Some z => if (- 2 ^ 63 <? z) && (z <? 2 ^ 63 - 1) then INTEGER z else v
      | None => v
      end
  end.

End Sql.

Module users.
(** A row of `users`, without its key user_id. *)
Record row := {
  username : option str;
  days_left : value;
  reminder_sent3 : Z;
  user_comment : option str;
  seats_default : Z;
  expired_since : option str;
  is_admin : Z;
  created_at : option str;
  updated_at : option str }.

(** The row with another days_left. *)
Definition with_days_left (v : value) (r : row) : row :=
  {| username := username r;
     days_left := v;
     reminder_sent3 := reminder_sent3 r;
     user_comment := user_comment r;
     seats_default := seats_default r;
     expired_since := expired_since r;
     is_admin := is_admin r;
     created_at := created_at r;
     updated_at := updated_at r |}.
End users.

Module payments.
(** A row of `payments`, without its key payment_id. *)
Record row := {
  user_id : Z;
  days : Z;
  seats : Z;
  amount : Z;
  status : str;
  comment : option str;
  created_at : option str }.

(** The row with another status. *)
Definition with_status (v : str) (p : row) : row :=
  {| user_id := user_id p;
     days := days p;
     seats := seats p;
     amount := amount p;
     status := v;
     comment := comment p;
     created_at := created_at p |}.
End payments.

Record db := {
  db_users : gmap Z users.row;
  db_payments : gmap Z payments.row }.

(** SQL scalar functions of the statements below; MAX(x, y) is x unless y
    is greater. *)
Definition COALESCE (x : option value) (y : value) : value := default y x.
Definition MAX (x y : value) : value := if Sql.ltb x y then y else x.

(** INSERT INTO users(user_id, username) VALUES(?,?)
    ON CONFLICT(user_id) DO UPDATE SET username=excluded.username,
    updated_at=datetime('now'); [now] is the value of datetime('now'). *)
Definition get_or_create_user (now : str) (uid : Z) (username : option str) (d : db) : db :=
  let r :=
    match db_users d !! uid with
    | None =>
        {| users.username := username;
           users.days_left := 0;
           users.reminder_sent3 := 0;
           users.user_comment := None;
           users.seats_default := 1;
           users.expired_since := None;
           users.is_admin := 0;
           users.created_at := Some now;
           users.updated_at := Some now |}
    | Some old =>
        {| users.username := username;
           users.days_left := users.days_left old;
           users.reminder_sent3 := users.reminder_sent3 old;
           users.user_comment := users.user_comment old;
           users.seats_default := users.seats_default old;
           users.expired_since := users.expired_since old;
           users.is_admin := users.is_admin old;
           users.created_at := users.created_at old;
           users.updated_at := Some now |}
    end in
  {| db_users := <[uid := r]> (db_users d); db_payments := db_payments d |}.

Definition get_user (uid : Z) (d : db) : option users.row := db_users d !! uid.

(** UPDATE users SET days_left=<f(days_left)> WHERE user_id=?, the
    parameters bound: the column stores the value with its affinity. *)
Definition update_days_left (f : value -> value) (uid : Z) (d : db) : db :=
  {| db_users :=
       alter (fun r => users.with_days_left (Sql.affinity (f (users.days_left r))) r)
             uid (db_users d);
     db_payments := db_payments d |}.

Definition add_days (uid days : Z) (d : db) : result db :=
  days ← bind_int days;
  uid ← bind_int uid;
  Ok (update_days_left
        (fun days_left => Sql.plus (MAX 0 (COALESCE (Some days_left) 0)) (INTEGER days)) uid d).

Definition sub_days (uid days : Z) (d : db) : result db :=
  days ← bind_int days;
  uid ← bind_int uid;
  Ok (update_days_left
        (fun days_left => Sql.minus (MAX 0 (COALESCE (Some days_left) 0)) (INTEGER days)) uid d).

Definition set_days (uid days : Z) (d : db) : result db :=
  days ← bind_int days;
  uid ← bind_int uid;
  Ok (update_days_left (fun _ => INTEGER days) uid d).

(** The rows of WHERE user_id=? AND status='pending' *)
Definition pending_of (uid : Z) (pays : gmap Z payments.row) : list (Z * payments.row) :=
  filter (fun kp => payments.user_id kp.2 = uid ∧ payments.status kp.2 = py "pending")
         (map_to_list pays).

(** ORDER BY payment_id DESC LIMIT 1 *)
Definition first_desc (rows : list (Z * payments.row)) : option (Z * payments.row) :=
  foldr (fun kp best =>
           match best with
           | Some kq => if kq.1 <? kp.1 then Some kp else best
           | None => Some kp
           end) None rows.

(** UPDATE payments SET status='paid' WHERE payment_id=? *)
Definition mark_paid (payment_id : Z) (pays : gmap Z payments.row) : gmap Z payments.row :=
  alter (payments.with_status (py "paid")) payment_id pays.

Definition confirm_last_payment (uid : Z) (d : db) : result (db * bool) :=
  uid ← bind_int uid;
  match first_desc (pending_of uid (db_payments d)) with
  | None => Ok (d, false)
  | Some r =>
      payment_id ← bind_int r.1;
      let d1 := {| db_users := db_users d;
                   db_payments := mark_paid payment_id (db_payments d) |} in
      days ← bind_int (payments.days r.2);
      uid ← bind_int uid;
      Ok (update_days_left
            (fun days_left => Sql.plus (MAX 0 (COALESCE (Some days_left) 0)) (INTEGER days))
            uid d1,
          true)
  end.

(** ** admin *)

(** The identities written into [ensure_admin]. *)
Definition bootstrap_admins : gset Z := {[ 251385778 ]}.

Definition ensure_admin (uid : Z) (d : db) : result unit :=
  match get_user uid d with
  | None => Raise (HTTPException 403 "forbidden")
  | Some row =>
      if (users.is_admin row =? 1) || bool_decide (uid ∈ bootstrap_admins)
      then Ok tt
      else Raise (HTTPException 403 "forbidden")
  end.

(** ** payments: create and list *)

(** The greatest key of a table. *)
Definition max_key {A} (m : gmap Z A) : option Z :=
  foldr (fun kp best =>
           match best with
           | Some k => Some (Z.max k kp.1)
           | None => Some kp.1
           end) None (map_to_list m).

(** The rowid an INSERT gives to an INTEGER PRIMARY KEY AUTOINCREMENT
    column: one more than the greatest rowid of the table (1 for an empty
    table) and more than [seq], the greatest rowid the table ever had as
    sqlite_sequence records it. *)
Definition next_rowid {A} (seq : Z) (m : gmap Z A) : Z :=
  Z.max (match max_key m with Some k => k + 1 | None => 1 end) (seq + 1).

(** INSERT INTO payments(user_id, days, seats, amount, comment)
    VALUES(?,?,?,?,?); the result is the store, the new sqlite_sequence and
    cur.lastrowid. The parameters are bound in their order; with no rowid
    of 64 bits left the INSERT fails (SQLITE_FULL). The foreign key is not
    enforced (SQLite's default). *)
Definition create_payment (now : str) (uid days seats amount : Z) (comment : option str)
           (d : db) (seq : Z) : result (db * Z * Z) :=
  uid ← bind_int uid;
  days ← bind_int days;
  seats ← bind_int seats;
  amount ← bind_int amount;
  comment ← bind_text comment;
  let payment_id := next_rowid seq (db_payments d) in
  let r := {| payments.user_id := uid;
              payments.days := days;
              payments.seats := seats;
              payments.amount := amount;
              payments.status := py "pending";
              payments.comment := comment;
              payments.created_at := Some now |} in
  if int64 payment_id
  then Ok ({| db_users := db_users d; db_payments := <[payment_id := r]> (db_payments d) |},
           payment_id, payment_id)
  else Raise OperationalError.

Module item.
(** A dict of list_payments: the six selected columns. *)
Record t := {
  payment_id : Z;
  days : Z;
  seats : Z;
  amount : Z;
  status : str;
  created_at : option str }.
End item.

Definition item_of (kp : Z * payments.row) : item.t :=
  {| item.payment_id := kp.1;
     item.days := payments.days kp.2;
     item.seats := payments.seats kp.2;
     item.amount := payments.amount kp.2;
     item.status := payments.status kp.2;
     item.created_at := payments.created_at kp.2 |}.

(** ORDER BY <key> DESC and ORDER BY <key> on the rows of a table *)
Fixpoint insert_desc {A} (x : Z * A) (l : list (Z * A)) : list (Z * A) :=
  match l with
  | [] => [x]
  | y :: tl => if x.1 <? y.1 then y :: insert_desc x tl else x :: l
  end.

Definition order_desc {A} (rows : list (Z * A)) : list (Z * A) :=
  foldr insert_desc [] rows.

Fixpoint insert_asc {A} (x : Z * A) (l : list (Z * A)) : list (Z * A) :=
  match l with
  | [] => [x]
  | y :: tl => if y.1 <? x.1 then y :: insert_asc x tl else x :: l
  end.

Definition order_asc {A} (rows : list (Z * A)) : list (Z * A) :=
  foldr insert_asc [] rows.

(** SELECT payment_id, days, seats, amount, status, created_at FROM payments
    WHERE user_id=? ORDER BY payment_id DESC LIMIT 50 *)
Definition list_payments (uid : Z) (d : db) : list item.t :=
  item_of <$>
    take 50 (order_desc (filter (fun kp => payments.user_id kp.2 = uid)
                                (map_to_list (db_payments d)))).

(** ** users: profile and CSV export *)

(** UPDATE users SET username=COALESCE(?,username), user_comment=?
    WHERE user_id=?, the statement of the profile route *)
Definition update_profile (username comment : option str) (uid : Z) (d : db) : result db :=
  username ← bind_text username;
  comment ← bind_text comment;
  uid ← bind_int uid;
  Ok
  {| db_users :=
       alter (fun r =>
                {| users.username :=
                     match username with Some _ => username | None => users.username r end;
                   users.days_left := users.days_left r;
                   users.reminder_sent3 := users.reminder_sent3 r;
                   users.user_comment := comment;
                   users.seats_default := users.seats_default r;
                   users.expired_since := users.expired_since r;
                   users.is_admin := users.is_admin r;
                   users.created_at := users.created_at r;
                   users.updated_at := users.updated_at r |}) uid (db_users d);
     db_payments := db_payments d |}.

(** str(n) for an int, as an f-string formats it *)
Definition str_of_int (n : Z) : str :=
  py (DecimalString.NilZero.string_of_int (Z.to_int n)).

(** str(x) for a float x, as an f-string formats it: the shortest decimal
    that reads back as x, in the layout of repr *)
Module Repr.

(** The double nearest to c * 10^k (c > 0), as float() reads a decimal. *)
Definition of_decimal (c k : Z) : spec_float :=
  if 0 <=? k then binary_normalize Float.prec Float.emax (c * 10 ^ k) 0 false
  else Float.div (S754_finite false (Z.to_pos c) 0)
                 (S754_finite false (Z.to_pos (10 ^ (- k))) 0).

(** The same double, bit for bit. *)
Definition same (x y : spec_float) : bool :=
  match x, y with
  | S754_zero a, S754_zero b | S754_infinity a, S754_infinity b => eqb a b
  | S754_nan, S754_nan => true
  | S754_finite a m e, S754_finite b m' e' => eqb a b && (m =? m')%positive && (e =? e')
  | _, _ => false
  end.

(** The number of decimal digits of z > 0. *)
Definition digits10 (z : Z) : Z := Z.of_nat (length (str_of_int z)).

(** floor(log10(n/d)) for n, d > 0. *)
Definition log10_floor (n d : Z) : Z :=
  if d <=? n then digits10 (n / d) - 1
  else let k := digits10 (d / n) - 1 in
       if d <=? n * 10 ^ k then - k else - (k + 1).

(** floor(n/d / 10^k) *)
Definition scaled (n d k : Z) : Z :=
  if 0 <=? k then n / (d * 10 ^ k) else (n * 10 ^ (- k)) / d.

(** The candidates with [digits] digits for n/d, below and above, that read
    back as x; the nearer one first. *)
Definition candidates (x : spec_float) (n d p : Z) (digits : Z) : list (Z * Z) :=
  let k := p - digits + 1 in
  let lo := scaled n d k in
  (* distances to n/d in units of 10^k/d', both scaled alike *)
  let '(below, above) :=
    if 0 <=? k then (n - lo * (d * 10 ^ k), (lo + 1) * (d * 10 ^ k) - n)
    else (n * 10 ^ (- k) - lo * d, (lo + 1) * d - n * 10 ^ (- k)) in
  let ordered := if below <=? above then [lo; lo + 1] else [lo + 1; lo] in
  (fun c => (c, k)) <$> filter (fun c => (0 <? c) && same (of_decimal c k) x) ordered.

Fixpoint shortest (x : spec_float) (n d p : Z) (digits : Z) (fuel : nat) : option (Z * Z) :=
  match fuel with
  | O => None
  | S fuel' =>
      match candidates x n d p digits with
      | ck :: _ => Some ck
      | [] => shortest x n d p (digits + 1) fuel'
      end
  end.

Fixpoint rstrip0 (rev_digits : str) : str :=
  match rev_digits with
  | c :: tl => if (c =? 48)%N then rstrip0 tl else rev_digits
  | [] => []
  end.

Definition zeros (n : Z) : str := replicate (Z.to_nat n) 48%N.

(** The text of a positive finite double m * 2^e. *)
Definition of_finite (m : positive) (e : Z) : str :=
  let x := S754_finite false m e in
  let n := if 0 <=? e then Z.pos m * 2 ^ e else Z.pos m in
  let d := if 0 <=? e then 1 else 2 ^ (- e) in
  let p := log10_floor n d in
  match shortest x n d p 1 17 with
  | None => []
  | Some (c, k) =>
      let all := str_of_int c in
      let decpt := Z.of_nat (length all) + k in
      let ds := rev (rstrip0 (rev all)) in
      let len := Z.of_nat (length ds) in
      if (decpt <=? -4) || (16 <? decpt) then
        let exp := decpt - 1 in
        take 1 ds ++ (match drop 1 ds with [] => [] | rest => py "." ++ rest end)
        ++ py "e" ++ (if exp <? 0 then py "-" else py "+")
        ++ (if Z.abs exp <? 10 then py "0" else []) ++ str_of_int (Z.abs exp)
      else if decpt <=? 0 then py "0." ++ zeros (- decpt) ++ ds
      else if len <=? decpt then ds ++ zeros (decpt - len) ++ py ".0"
      else take (Z.to_nat decpt) ds ++ py "." ++ drop (Z.to_nat decpt) ds
  end.

Definition of_float (x : spec_float) : str :=
  match x with
  | S754_zero s => if s then py "-0.0" else py "0.0"
  | S754_infinity s => if s then py "-inf" else py "inf"
  | S754_nan => py "nan"
  | S754_finite s m e => (if s then py "-" else []) ++ of_finite m e
  end.

End Repr.

(** str(v) for a value of the balance column, read as an int or a float *)
Definition str_of_value (v : value) : str :=
  match v with
  | INTEGER z => str_of_int z
  | REAL x => Repr.of_float x
  end.

(** s.replace(",", " ") *)
Definition replace_commas (s : str) : str :=
  map (fun c => if (c =? 44)%N then 32%N else c) s.

Definition csv_header : str := py "user_id,username,days_left".

(** f"{u[0]},{u[1]},{u[2]}" with u[1] = (username or "").replace(",", " ") *)
Definition csv_line (kp : Z * users.row) : str :=
  str_of_int kp.1 ++ py "," ++ replace_commas (default [] (users.username kp.2))
  ++ py "," ++ str_of_value (users.days_left kp.2).

(** The three fields of a row of the export. *)
Definition csv_fields (kp : Z * users.row) : list str :=
  [str_of_int kp.1; replace_commas (default [] (users.username kp.2));
   str_of_value (users.days_left kp.2)].

Definition export_users_csv (d : db) : str :=
  join [10%N] (csv_header :: map csv_line (order_asc (map_to_list (db_users d)))).

(** ** users: search *)

(** s.lstrip('@') *)
Fixpoint lstrip_at (s : str) : str :=
  match s with
  | [] => []
  | c :: tl => if (c =? 64)%N then lstrip_at tl else s
  end.

(** LIMIT n as the number of rows to deliver: a negative n is no limit. *)
Definition limit_of (n : Z) : option nat :=
  if n <? 0 then None else Some (Z.to_nat n).

Definition limit_reached (n : option nat) : bool :=
  match n with Some O => true | _ => false end.

Section Search.

(** str.isdigit, int() on a `str`, and the LIKE operator of SQLite, given
    the pattern and the column value (NULL is None); LIKE raises on a
    pattern beyond its length limit. *)
Variable isdigit : str -> bool.
Variable int_of_str : str -> result Z.
Variable like : str -> option str -> result bool.

(** WHERE username LIKE ? ... LIMIT ?, on the rows in the order of the
    scan: a row is tested only while the limit is not reached. *)
Fixpoint select_like (pattern : str) (n : option nat) (rows : list (Z * users.row))
  : result (list (Z * users.row)) :=
  match rows with
  | [] => Ok []
  | kp :: tl =>
      if limit_reached n then Ok []
      else
        matches ← like pattern (users.username kp.2);
        if (matches : bool)
        then rest ← select_like pattern (Nat.pred <$> n) tl; Ok (kp :: rest)
        else select_like pattern n tl
  end.

Definition search_users (q : option str) (limit : Z) (d : db)
  : result (list (Z * users.row)) :=
  let by_id_desc := order_desc (map_to_list (db_users d)) in
  match q with
  | None | Some [] =>
      Ok (match limit_of limit with Some n => take n by_id_desc | None => by_id_desc end)
  | Some q =>
      if isdigit (lstrip_at q) then
        uid ← int_of_str (lstrip_at q);
        uid ← bind_int uid;
        Ok (match db_users d !! uid with Some r => [(uid, r)] | None => [] end)
      else
        select_like (py "%" ++ lstrip_at q ++ py "%") (limit_of limit) by_id_desc
  end.

End Search.

(** ** routes *)

(** int(x) for a float x: towards zero; no int for an infinity or NaN *)
Definition int_of_float (x : spec_float) : result Z :=
  match x with
  | S754_zero _ => Ok 0
  | S754_infinity _ => Raise OverflowError
  | S754_nan => Raise ValueError
  | S754_finite s m e =>
      let v := if 0 <=? e then Z.pos m * 2 ^ e else Z.pos m / 2 ^ (- e) in
      Ok (if s then - v else v)
  end.

Module routes.
Section Routes.

(** The bot secret, json.loads, int() on a `str`, str.isdigit and SQLite's
    LIKE. *)
Variable BOT_TOKEN : str.
Variable json_loads : str -> result json.
Variable int_of_str : str -> result Z.
Variable isdigit : str -> bool.
Variable like : str -> option str -> result bool.

(** int(v) for a decoded JSON value *)
Definition int (v : json) : result Z :=
  match v with
  | JInt z => Ok z
  | JBool b => Ok (if b then 1 else 0)
  | JFloat x => int_of_float x
  | JStr s => int_of_str s
  | JNull | JList _ | JDict _ => Raise TypeError
  end.

(** u = verify_init_data(x_init); uid = int(u["id"]) *)
Definition caller (x_init : str) : result Z :=
  u ← verify_init_data BOT_TOKEN json_loads x_init;
  id ← getitem u (py "id");
  int id.

(** POST /api/calc: the amount *)
Definition calc (days seats : Z) (x_init : str) : result Z :=
  _ ← verify_init_data BOT_TOKEN json_loads x_init;
  calc_amount days seats.

(** POST /api/payment/create: the store, sqlite_sequence, payment_id and
    amount *)
Definition payment_create (now : str) (days seats : Z) (comment : option str)
           (x_init : str) (d : db) (seq : Z) : result (db * Z * Z * Z) :=
  uid ← caller x_init;
  amount ← calc_amount days seats;
  '(d', seq', pid) ← create_payment now uid days seats amount comment d seq;
  Ok (d', seq', pid, amount).

(** GET /api/payments: the items *)
Definition payments (x_init : str) (d : db) : result (list item.t) :=
  uid ← caller x_init;
  Ok (list_payments uid d).

(** POST /api/profile *)
Definition profile (username comment : option str) (x_init : str) (d : db) : result db :=
  uid ← caller x_init;
  update_profile username comment uid d.

(** u = verify_init_data(x_init); ensure_admin(int(u["id"])) *)
Definition admin (x_init : str) (d : db) : result unit :=
  uid ← caller x_init;
  ensure_admin uid d.

(** POST /api/admin/user/{user_id}/add, /sub, /set *)
Definition admin_add (user_id days : Z) (x_init : str) (d : db) : result db :=
  _ ← admin x_init d;
  add_days user_id days d.

Definition admin_sub (user_id days : Z) (x_init : str) (d : db) : result db :=
  _ ← admin x_init d;
  sub_days user_id days d.

Definition admin_set (user_id days : Z) (x_init : str) (d : db) : result db :=
  _ ← admin x_init d;
  set_days user_id days d.

(** POST /api/admin/user/{user_id}/confirm_last_payment: the store and `ok` *)
Definition admin_confirm (user_id : Z) (x_init : str) (d : db) : result (db * bool) :=
  _ ← admin x_init d;
  confirm_last_payment user_id d.

(** GET /api/admin/export: the csv *)
Definition admin_export (x_init : str) (d : db) : result str :=
  _ ← admin x_init d;
  Ok (export_users_csv d).

(** GET /api/admin/users?q=: user_id, username and days_left of the rows *)
Definition admin_users (q : option str) (x_init : str) (d : db)
  : result (list (Z * option str * value)) :=
  _ ← admin x_init d;
  items ← search_users isdigit int_of_str like q 20 d;
  Ok (map (fun kp => (kp.1, users.username kp.2, users.days_left kp.2)) items).

End Routes.
End routes.

(** ** The writes of the module as one type *)

(** One value per function of the source that writes to the store, with its
    arguments; [run] applies it to the store and sqlite_sequence, which stay
    as they are when the function raises. *)
Inductive write :=
| GetOrCreateUser (now : str) (uid : Z) (username : option str)
| AddDays (uid days : Z)
| SubDays (uid days : Z)
| SetDays (uid days : Z)
| UpdateProfile (username comment : option str) (uid : Z)
| CreatePayment (now : str) (uid days seats amount : Z) (comment : option str)
| ConfirmLastPayment (uid : Z).

Definition committed (r : result db) (s : db * Z) : db * Z :=
  match r with
  | Ok d => (d, s.2)
  | Raise _ => s
  end.

Definition run (w : write) (s : db * Z) : db * Z :=
  match w with
  | GetOrCreateUser now uid username => (get_or_create_user now uid username s.1, s.2)
  | AddDays uid days => committed (add_days uid days s.1) s
  | SubDays uid days => committed (sub_days uid days s.1) s
  | SetDays uid days => committed (set_days uid days s.1) s
  | UpdateProfile username comment uid => committed (update_profile username comment uid s.1) s
  | CreatePayment now uid days seats amount comment =>
      match create_payment now uid days seats amount comment s.1 s.2 with
      | Ok (d, seq, _) => (d, seq)
      | Raise _ => s
      end
  | ConfirmLastPayment uid =>
      match confirm_last_payment uid s.1 with
      | Ok (d, _) => (d, s.2)
      | Raise _ => s
      end
  end.

(** What may become of a payment: nothing changes but a `pending` status,
    which may become `paid`. *)
Definition payment_evolves (p p' : payments.row) : Prop :=
  payments.user_id p' = payments.user_id p
  /\ payments.days p' = payments.days p
  /\ payments.seats p' = payments.seats p
  /\ payments.amount p' = payments.amount p
  /\ payments.comment p' = payments.comment p
  /\ payments.created_at p' = payments.created_at p
  /\ (payments.status p' = payments.status p
      \/ (payments.status p = py "pending" /\ payments.status p' = py "paid")).

(** ** Concrete data for the examples *)

Module Examples.

(** The default of os.getenv("BOT_TOKEN", ...). *)
Definition default_token : str := py "PASTE_YOUR_TOKEN_HERE".

(** The `user` document of [signed], as parse_qsl delivers it. *)
Definition alice_text : str :=
  Urllib.unquote (py "%7B%22id%22%3A42%2C%22username%22%3A%22alice%22%7D").

Definition alice : json :=
  JDict [(py "id", JInt 42); (py "username", JStr (py "alice"))].

(** json.loads on the two documents the examples decode; a document it
    cannot decode raises JSONDecodeError, a ValueError. *)
Definition json_loads (s : str) : result json :=
  if decide (s = py "{}") then Ok (JDict [])
  else if decide (s = alice_text) then Ok alice
  else Raise ValueError.

(** A payload signed with [default_token]. *)
Definition signed : str :=
  py "query_id=AAHdF6IQAAAAAN0XohDhrOrc&user=%7B%22id%22%3A42%2C%22username%22%3A%22alice%22%7D&auth_date=1700000000&hash=c0d43f5598edf54f2d74b44c767c6a238c3a68afef0259684ea7cf7dd5a8ec83".

(** The same with the first character of `hash` changed. *)
Definition forged : str :=
  py "query_id=AAHdF6IQAAAAAN0XohDhrOrc&user=%7B%22id%22%3A42%2C%22username%22%3A%22alice%22%7D&auth_date=1700000000&hash=d0d43f5598edf54f2d74b44c767c6a238c3a68afef0259684ea7cf7dd5a8ec83".

(** A signed payload without a `user` field. *)
Definition signed_no_user : str :=
  py "auth_date=1700000000&hash=c853b70463ca09b2ad9034c2d187463e31cb4ba37afbd66b3049efc85401ecfa".

Definition signed_hash : str :=
  py "c0d43f5598edf54f2d74b44c767c6a238c3a68afef0259684ea7cf7dd5a8ec83".

Definition signed_no_user_hash : str :=
  py "c853b70463ca09b2ad9034c2d187463e31cb4ba37afbd66b3049efc85401ecfa".

Definition token_bytes : bytes := list_byte_of_string "PASTE_YOUR_TOKEN_HERE".

(** The encoded check-string of a payload. *)
Definition check_bytes (init_data : str) : bytes :=
  match encode (data_check_string (delete (py "hash") (dict (Urllib.parse_qsl init_data)))) with
  | Ok m => m
  | Raise _ => []
  end.

(** A store with one user, 7, whose balance is -5 and who has the paid
    payment 1 and the pending payments 2 and 3, and a pending payment 4 of
    user 8, who has no row. *)
Definition user7 : users.row :=
  {| users.username := Some (py "alice");
     users.days_left := -5;
     users.reminder_sent3 := 0;
     users.user_comment := None;
     users.seats_default := 1;
     users.expired_since := None;
     users.is_admin := 0;
     users.created_at := Some (py "2024-01-01 00:00:00");
     users.updated_at := Some (py "2024-01-01 00:00:00") |}.

Definition payment (uid days amount : Z) (status : string) : payments.row :=
  {| payments.user_id := uid;
     payments.days := days;
     payments.seats := 1;
     payments.amount := amount;
     payments.status := py status;
     payments.comment := None;
     payments.created_at := Some (py "2024-01-02 00:00:00") |}.

Definition store : db :=
  {| db_users := {[ 7 := user7 ]};
     db_payments :=
       <[1 := payment 7 30 75 "paid"]> (<[2 := payment 7 60 142 "pending"]>
         (<[3 := payment 7 90 202 "pending"]> {[ 4 := payment 8 30 75 "pending" ]})) |}.


(** A payload whose `hash` is the single character U+00E9. *)
Definition non_ascii_hash : str := py "hash=%C3%A9".

End Examples.

(** ** Concrete data for the routes and the search *)

Module Samples.

(** str.isdigit on ASCII text: not empty and digits only. *)
Definition isdigit (s : str) : bool :=
  match s with
  | [] => false
  | _ => forallb (fun c => (48 <=? c)%N && (c <=? 57)%N) s
  end.

(** int() on a `str` of ASCII digits; anything else raises ValueError. *)
Definition int_of_str (s : str) : result Z :=
  if isdigit s
  then Ok (fold_left (fun acc c => 10 * acc + (Z.of_N c - 48)) s 0)
  else Raise ValueError.

Definition lower (c : N) : N :=
  if (65 <=? c)%N && (c <=? 90)%N then (c + 32)%N else c.

Fixpoint starts_with (prefix s : str) : bool :=
  match prefix, s with
  | [], _ => true
  | _ :: _, [] => false
  | a :: prefix', b :: s' => (lower a =? lower b)%N && starts_with prefix' s'
  end.

Fixpoint contains (needle s : str) : bool :=
  starts_with needle s
  || match s with
     | [] => false
     | _ :: s' => contains needle s'
     end.

(** LIKE for the patterns `%text%` with no wildcard inside text: text is
    found in the value, ASCII letters compared without case; NULL matches
    nothing. *)
Definition like (pattern : str) (value : option str) : result bool :=
  match value with
  | None => Ok false
  | Some s => Ok (contains (removelast (tail pattern)) s)
  end.

(** The row of the caller of [Examples.signed], an administrator. *)
Definition user42 : users.row :=
  {| users.username := Some (py "Alice,A");
     users.days_left := 0;
     users.reminder_sent3 := 0;
     users.user_comment := None;
     users.seats_default := 1;
     users.expired_since := None;
     users.is_admin := 1;
     users.created_at := Some (py "2024-01-01 00:00:00");
     users.updated_at := Some (py "2024-01-01 00:00:00") |}.

(** [Examples.store] with that row besides. *)
Definition store : db :=
  {| db_users := <[42 := user42]> (db_users Examples.store);
     db_payments := db_payments Examples.store |}.

(** A store whose user 9 holds the greatest INTEGER balance and has the
    pending payment 1, of 2 days. *)
Definition user9 : users.row :=
  {| users.username := Some (py "ivan");
     users.days_left := 2 ^ 63 - 1;
     users.reminder_sent3 := 0;
     users.user_comment := None;
     users.seats_default := 1;
     users.expired_since := None;
     users.is_admin := 0;
     users.created_at := Some (py "2024-01-01 00:00:00");
     users.updated_at := Some (py "2024-01-01 00:00:00") |}.

Definition store_full : db :=
  {| db_users := {[ 9 := user9 ]};
     db_payments := {[ 1 := Examples.payment 9 2 5 "pending" ]} |}.

(** The fields of [Examples.signed] without `hash`, and the `hash` field. *)
Definition signed_fields : str :=
  py "query_id=AAHdF6IQAAAAAN0XohDhrOrc&user=%7B%22id%22%3A42%2C%22username%22%3A%22alice%22%7D&auth_date=1700000000".

Definition signed_hash_field : str := py "hash=" ++ Examples.signed_hash.

Definition now : str := py "2024-03-01 12:00:00".

End Samples.

(** * Properties *)

(** ** The hash functions agree with the published test vectors *)

Example sha256_abc :
  Sha256.hex (Sha256.sha256 (list_byte_of_string "abc"))
  = py "ba7816bf8f01cfea414140de5dae2223b00361a396177a9cb410ff61f20015ad".
Proof. vm_compute. reflexivity. Qed.

Example hmac_sha256_fox :
  Sha256.hexdigest (list_byte_of_string "key")
    (list_byte_of_string "The quick brown fox jumps over the lazy dog")
  = py "f7bc83f430538424b13298e6aa6fb143ef4d59a14946175997479dbc2d1a3cd8".
Proof. vm_compute. reflexivity. Qed.

(** The round constants as FIPS 180-4 prints them. *)
Example sha256_constants :
  firstn 2 Sha256.K256 = [0x428a2f98; 0x71374491] /\ last Sha256.K256 = Some 0xc67178f2
  /\ firstn 2 Sha256.H256 = [0x6a09e667; 0xbb67ae85] /\ length Sha256.K256 = 64%nat.
Proof. vm_compute. repeat split. Qed.

Example parse_qsl_blank_and_repeated :
  Urllib.parse_qsl (py "a=1&&b&c=%41+%zz&a=2=3")
  = [(py "a", py "1"); (py "b", []); (py "c", py "A %zz"); (py "a", py "2=3")].
Proof. vm_compute. reflexivity. Qed.

Example verify_signed_example :
  verify_init_data Examples.default_token Examples.json_loads Examples.signed
  = Ok Examples.alice.
Proof. vm_compute. reflexivity. Qed.

Example verify_forged_example :
  verify_init_data Examples.default_token Examples.json_loads Examples.forged
  = Raise (HTTPException 401 "bad signature").
Proof. vm_compute. reflexivity. Qed.

(** ** The check-string lists the fields by increasing key *)

Lemma str_compare_Eq (a b : str) : str_compare a b = Eq -> a = b.
Proof.
  revert b. induction a as [|x a IH]; intros [|y b]; cbn; try done.
  destruct (N.compare_spec x y) as [-> | |]; try done.
  intros H. f_equal. exact (IH b H).
Qed.

Lemma str_compare_opp (a b : str) : str_compare b a = CompOpp (str_compare a b).
Proof.
  revert b. induction a as [|x a IH]; intros [|y b]; cbn; try done.
  rewrite (N.compare_antisym x y).
  destruct (x ?= y)%N; cbn; [apply IH | done | done].
Qed.

Lemma str_compare_Lt_trans (a b c : str) :
  str_compare a b = Lt -> str_compare b c = Lt -> str_compare a c = Lt.
Proof.
  revert b c. induction a as [|x a IH]; intros [|y b] [|z c]; cbn; try done.
  destruct (N.compare_spec x y) as [-> | Hxy | Hxy]; try done.
  - destruct (z ?= y)%N eqn:E; rewrite N.compare_antisym, E; cbn; try done.
    apply IH.
  - intros _. destruct (N.compare_spec y z) as [-> | Hyz | Hyz]; try done.
    + intros _. apply N.compare_lt_iff in Hxy. rewrite Hxy. done.
    + intros _. assert (Hxz : (x < z)%N) by lia.
      apply N.compare_lt_iff in Hxz. rewrite Hxz. done.
Qed.

Lemma insert_sorted_perm (x : str * str) (l : list (str * str)) :
  insert_sorted x l ≡ₚ x :: l.
Proof.
  induction l as [|y tl IH]; cbn; [done|].
  destruct (item_ltb y x); [|done].
  rewrite IH. apply Permutation_swap.
Qed.

Lemma item_ltb_key_lt (x y : str * str) :
  x.1 <> y.1 -> item_ltb x y = true -> str_compare x.1 y.1 = Lt.
Proof.
  unfold item_ltb. intros Hne.
  destruct (str_compare x.1 y.1) eqn:E; try done.
  apply str_compare_Eq in E. done.
Qed.

Lemma item_ltb_false_key_lt (x y : str * str) :
  x.1 <> y.1 -> item_ltb y x = false -> str_compare x.1 y.1 = Lt.
Proof.
  unfold item_ltb. intros Hne. rewrite (str_compare_opp x.1 y.1).
  destruct (str_compare x.1 y.1) eqn:E; cbn; try done.
  apply str_compare_Eq in E. done.
Qed.

Lemma insert_sorted_keys (x : str * str) (l : list (str * str)) :
  x.1 ∉ l.*1 ->
  StronglySorted (fun a b => str_compare a.1 b.1 = Lt) l ->
  StronglySorted (fun a b => str_compare a.1 b.1 = Lt) (insert_sorted x l).
Proof.
  induction l as [|y tl IH]; intros Hx Hs; cbn.
  - repeat constructor.
  - rewrite fmap_cons, not_elem_of_cons in Hx. destruct Hx as [Hxy Hx].
    apply StronglySorted_inv in Hs as [Hs Hy].
    destruct (item_ltb y x) eqn:E.
    + constructor; [apply IH; assumption|].
      rewrite insert_sorted_perm. constructor; [|exact Hy].
      apply item_ltb_key_lt; [congruence | exact E].
    + pose proof (item_ltb_false_key_lt x y Hxy E) as Hlt.
      constructor; [constructor; assumption|].
      constructor; [exact Hlt|].
      eapply Forall_impl; [exact Hy|]. cbn. intros z Hz.
      eapply str_compare_Lt_trans; eassumption.
Qed.

(** sorted(data.items()) holds the items of data, each once, by strictly
    increasing key. *)
Lemma sorted_items_spec (data : gmap str str) :
  sorted_items data ≡ₚ map_to_list data
  /\ StronglySorted (fun a b => str_compare a.1 b.1 = Lt) (sorted_items data).
Proof.
  unfold sorted_items.
  pose proof (NoDup_fst_map_to_list data) as Hnd.
  induction (map_to_list data) as [|x l IH]; cbn; [split; [done | constructor]|].
  rewrite fmap_cons in Hnd. apply NoDup_cons in Hnd as [Hx Hnd].
  destruct (IH Hnd) as [Hp Hs]. split.
  - rewrite insert_sorted_perm, Hp. done.
  - apply insert_sorted_keys; [|exact Hs]. rewrite Hp. exact Hx.
Qed.

Example data_check_string_example :
  data_check_string (dict [(py "user", py "u"); (py "auth_date", py "1");
                           (py "query_id", py "q"); (py "auth_date", py "2")])
  = py "auth_date=2" ++ [10%N] ++ py "query_id=q" ++ [10%N] ++ py "user=u".
Proof. vm_compute. reflexivity. Qed.

(** ** Signatures are non-empty ASCII text *)

Lemma Z_of_byte_range (b : byte) : 0 <= Z_of_byte b < 256.
Proof.
  unfold Z_of_byte. pose proof (Byte.to_N_bounded b). lia.
Qed.

Lemma hexdigit_ascii (d : Z) : 0 <= d < 16 -> (Sha256.hexdigit d <? 128)%N = true.
Proof.
  intros Hd. unfold Sha256.hexdigit. apply N.ltb_lt.
  destruct (d <? 10) eqn:E; lia.
Qed.

Lemma hex_ascii (b : bytes) : is_ascii (Sha256.hex b) = true.
Proof.
  induction b as [|x tl IH]; [reflexivity|].
  pose proof (Z_of_byte_range x) as Hx.
  cbn [Sha256.hex is_ascii forallb].
  rewrite !hexdigit_ascii.
  - exact IH.
  - apply Z.mod_pos_bound. lia.
  - split; [apply Z.div_pos; lia | apply Z.div_lt_upper_bound; lia].
Qed.

Lemma hex_length (b : bytes) : length (Sha256.hex b) = (2 * length b)%nat.
Proof. induction b as [|x tl IH]; cbn [Sha256.hex length]; lia. Qed.

Lemma sha256_length (msg : bytes) : length (Sha256.sha256 msg) = 32%nat.
Proof.
  unfold Sha256.sha256.
  destruct (Sha256.blocks _ _ _) as [[[[[[[a b] c] d] e] f] g] h].
  reflexivity.
Qed.

Lemma calc_hash_length (token msg : bytes) : length (calc_hash token msg) = 64%nat.
Proof.
  unfold calc_hash, Sha256.hexdigest, Sha256.hmac.
  rewrite hex_length, sha256_length. reflexivity.
Qed.

Lemma calc_hash_ascii (token msg : bytes) : is_ascii (calc_hash token msg) = true.
Proof. apply hex_ascii. Qed.

Lemma is_ascii_insert (h : str) (i : nat) (c : N) :
  is_ascii h = true -> (i < length h)%nat ->
  is_ascii (<[i := c]> h) = (c <? 128)%N.
Proof.
  unfold is_ascii. revert i.
  induction h as [|x h IH]; intros i Hh Hi; [cbn in Hi; lia|].
  cbn in Hh. apply andb_prop in Hh as [Hx Hh].
  destruct i as [|i]; cbn.
  - rewrite Hh. apply andb_true_r.
  - rewrite Hx, IH; [reflexivity | exact Hh | cbn in Hi; lia].
Qed.

(** ** verify_init_data *)

Section AuthProperties.

Variable BOT_TOKEN : str.
Variable json_loads : str -> result json.

Abbreviation verify := (verify_init_data BOT_TOKEN json_loads).

Lemma verify_empty : verify [] = Raise (HTTPException 401 "no initData").
Proof. reflexivity. Qed.

Lemma parsed_hash_nonempty (init_data h : str) :
  dict (Urllib.parse_qsl init_data) !! py "hash" = Some h -> init_data <> [].
Proof. intros H ->. discriminate H. Qed.

(** Past the two guards, verify is the comparison followed by json.loads. *)
Lemma verify_past_guards (init_data h : str) (token msg : bytes) :
  dict (Urllib.parse_qsl init_data) !! py "hash" = Some h ->
  h <> [] ->
  encode BOT_TOKEN = Ok token ->
  encode (data_check_string (delete (py "hash") (dict (Urllib.parse_qsl init_data))))
    = Ok msg ->
  verify init_data =
    (same ← compare_digest (calc_hash token msg) h;
     if negb same then Raise (HTTPException 401 "bad signature")
     else json_loads (user_text (delete (py "hash") (dict (Urllib.parse_qsl init_data))))).
Proof.
  intros Hh Hne Htok Hmsg.
  pose proof (parsed_hash_nonempty _ _ Hh) as Hp.
  unfold verify_init_data.
  destruct init_data as [|c0 rest]; [congruence|].
  cbv beta iota zeta. rewrite Hh.
  destruct h as [|c h]; [congruence|].
  rewrite Htok. cbn [mbind result_bind]. rewrite Hmsg. reflexivity.
Qed.

Lemma user_text_present (data : gmap str str) (user : str) :
  data !! py "user" = Some user -> user <> [] ->
  user_text (delete (py "hash") data) = user.
Proof.
  intros Hu Hne. unfold user_text.
  rewrite lookup_delete_ne by discriminate. rewrite Hu.
  destruct user; congruence.
Qed.

Lemma user_text_absent (data : gmap str str) :
  data !! py "user" = None \/ data !! py "user" = Some [] ->
  user_text (delete (py "hash") data) = py "{}".
Proof.
  intros Hu. unfold user_text.
  rewrite lookup_delete_ne by discriminate.
  destruct Hu as [-> | ->]; reflexivity.
Qed.

(** A payload carrying its own signature passes the comparison. *)
Lemma verify_signed (init_data : str) (token msg : bytes) :
  let data := dict (Urllib.parse_qsl init_data) in
  data !! py "hash" = Some (calc_hash token msg) ->
  encode BOT_TOKEN = Ok token ->
  encode (data_check_string (delete (py "hash") data)) = Ok msg ->
  verify init_data = json_loads (user_text (delete (py "hash") data)).
Proof.
  intros data Hh Htok Hmsg. subst data.
  assert (Hne : calc_hash token msg <> []).
  { intros E. pose proof (calc_hash_length token msg) as L.
    rewrite E in L. discriminate L. }
  rewrite (verify_past_guards _ _ token msg Hh Hne Htok Hmsg).
  unfold compare_digest. rewrite calc_hash_ascii. cbn [andb mbind result_bind].
  rewrite bool_decide_eq_true_2 by reflexivity. reflexivity.
Qed.

(** Any other `hash` of the same fields fails the comparison: with 401
    when it is ASCII text, with TypeError when it is not. *)
Lemma verify_other_hash (init_data : str) (data : gmap str str) (h : str)
      (token msg : bytes) :
  dict (Urllib.parse_qsl init_data) = <[py "hash" := h]> data ->
  h <> [] ->
  h <> calc_hash token msg ->
  encode BOT_TOKEN = Ok token ->
  encode (data_check_string (delete (py "hash") data)) = Ok msg ->
  verify init_data =
    Raise (if is_ascii h then HTTPException 401 "bad signature" else TypeError).
Proof.
  intros Hd Hne Hdiff Htok Hmsg.
  assert (Hh : dict (Urllib.parse_qsl init_data) !! py "hash" = Some h)
    by (rewrite Hd; apply lookup_insert_eq).
  assert (Hdel : delete (py "hash") (dict (Urllib.parse_qsl init_data))
                 = delete (py "hash") data)
    by (rewrite Hd; apply delete_insert_eq).
  rewrite (verify_past_guards _ _ token msg Hh Hne Htok) by (rewrite Hdel; exact Hmsg).
  unfold compare_digest. rewrite calc_hash_ascii. cbn [andb].
  destruct (is_ascii h); cbn [mbind result_bind]; [|reflexivity].
  rewrite bool_decide_eq_false_2 by congruence. reflexivity.
Qed.

(** C1: a payload whose `hash` field is the hex HMAC-SHA256 of the sorted
    check-string of its other fields, under the key derived from the bot
    secret with "WebAppData", is accepted and verify returns the identity
    decoded from its `user` field; the same fields with one character of
    `hash` changed are refused. *)
Theorem verify_accepts_signed_refuses_altered
        (init_data h user : str) (token msg : bytes) (u : json) :
  let data := dict (Urllib.parse_qsl init_data) in
  data !! py "hash" = Some h ->
  encode BOT_TOKEN = Ok token ->
  encode (data_check_string (delete (py "hash") data)) = Ok msg ->
  h = calc_hash token msg ->
  data !! py "user" = Some user -> user <> [] ->
  json_loads user = Ok u ->
  verify init_data = Ok u
  /\ forall (init_data' : str) (i : nat) (c : N),
       dict (Urllib.parse_qsl init_data') = <[py "hash" := <[i := c]> h]> data ->
       (i < length h)%nat ->
       h !! i <> Some c ->
       verify init_data' =
         Raise (if (c <? 128)%N then HTTPException 401 "bad signature" else TypeError).
Proof.
  intros data Hh Htok Hmsg -> Hu Hne Hj. split.
  - subst data. rewrite (verify_signed _ _ _ Hh Htok Hmsg).
    rewrite (user_text_present _ _ Hu Hne). exact Hj.
  - intros init_data' i c Hd Hi Hc.
    pose proof (calc_hash_length token msg) as L.
    assert (Hdel : delete (py "hash") (<[py "hash" := calc_hash token msg]> data)
                   = delete (py "hash") data).
    { rewrite delete_insert_eq. reflexivity. }
    rewrite <- (is_ascii_insert (calc_hash token msg) i c)
      by (try apply calc_hash_ascii; exact Hi).
    apply (verify_other_hash _ data _ token msg); try assumption.
    + intros E. pose proof (length_insert (calc_hash token msg) i c) as L'.
      rewrite E, L in L'. discriminate L'.
    + intros E. apply Hc. rewrite <- E at 1.
      apply list_lookup_insert_eq. exact Hi.
Qed.

(** C9: a payload that passes the signature comparison and has no `user`
    field, or an empty one, is accepted with the empty object as identity,
    and reading `id` from that identity raises KeyError. *)
Theorem verify_without_user_gives_empty_identity
        (init_data h : str) (token msg : bytes) :
  let data := dict (Urllib.parse_qsl init_data) in
  json_loads (py "{}") = Ok (JDict []) ->
  data !! py "hash" = Some h ->
  encode BOT_TOKEN = Ok token ->
  encode (data_check_string (delete (py "hash") data)) = Ok msg ->
  h = calc_hash token msg ->
  data !! py "user" = None \/ data !! py "user" = Some [] ->
  verify init_data = Ok (JDict [])
  /\ getitem (JDict []) (py "id") = Raise KeyError
  /\ identity_id BOT_TOKEN json_loads init_data = Raise KeyError.
Proof.
  intros data Hj Hh Htok Hmsg -> Hu.
  assert (Hv : verify init_data = Ok (JDict [])).
  { subst data. rewrite (verify_signed _ _ _ Hh Htok Hmsg).
    rewrite (user_text_absent _ Hu). exact Hj. }
  split; [exact Hv|]. split; [reflexivity|].
  unfold identity_id. rewrite Hv. reflexivity.
Qed.

Lemma encode_raises (s : str) (e : exn) : encode s = Raise e -> e = UnicodeEncodeError.
Proof.
  revert e. induction s as [|c tl IH]; intros e; cbn [encode]; [discriminate|].
  unfold encode_char.
  repeat match goal with
         | |- context [if ?b then _ else _] => destruct b
         end; cbn [mbind result_bind];
    try congruence;
    destruct (encode tl) as [rest|e']; cbn [mbind result_bind];
    try discriminate; intros [= <-]; apply IH; reflexivity.
Qed.

(** When verify answers 401: the payload is empty, `hash` is absent or
    empty, or `hash` is ASCII text other than the computed signature.
    json.loads raises no HTTPException. *)
Lemma verify_unauthenticated_iff (init_data : str) :
  (forall s sc d, json_loads s <> Raise (HTTPException sc d)) ->
  let data := dict (Urllib.parse_qsl init_data) in
  (exists d, verify init_data = Raise (HTTPException 401 d)) <->
  init_data = []
  \/ data !! py "hash" = None
  \/ data !! py "hash" = Some []
  \/ exists h token msg,
       data !! py "hash" = Some h
       /\ encode BOT_TOKEN = Ok token
       /\ encode (data_check_string (delete (py "hash") data)) = Ok msg
       /\ is_ascii h = true
       /\ h <> calc_hash token msg.
Proof.
  intros Hjson data. subst data. split.
  - intros [d Hv].
    destruct init_data as [|c0 rest]; [left; reflexivity | right].
    destruct (dict (Urllib.parse_qsl (c0 :: rest)) !! py "hash") as [h|] eqn:Hh;
      [|left; reflexivity].
    right. destruct h as [|c h]; [left; reflexivity | right].
    revert Hv. unfold verify_init_data. cbv beta iota zeta. rewrite Hh.
    destruct (encode BOT_TOKEN) as [token|e] eqn:Htok; cbn [mbind result_bind];
      [|intros [= ->]; apply encode_raises in Htok; discriminate].
    destruct (encode (data_check_string _)) as [msg|e] eqn:Hmsg; cbn [mbind result_bind];
      [|intros [= ->]; apply encode_raises in Hmsg; discriminate].
    unfold compare_digest. rewrite calc_hash_ascii. cbn [andb].
    destruct (is_ascii (c :: h)) eqn:Hasc; cbn [mbind result_bind]; [|discriminate].
    case_bool_decide as Heq; cbn [negb].
    + intros Hv. exfalso. exact (Hjson _ _ _ Hv).
    + intros _. exists (c :: h), token, msg. repeat split; try assumption. congruence.
  - intros [-> | [Hh | [Hh | (h & token & msg & Hh & Htok & Hmsg & Hasc & Hne)]]].
    + eexists. reflexivity.
    + pose proof Hh as Hh'. unfold verify_init_data.
      destruct init_data; [eexists; reflexivity|].
      cbv beta iota zeta. rewrite Hh. eexists. reflexivity.
    + unfold verify_init_data.
      destruct init_data; [eexists; reflexivity|].
      cbv beta iota zeta. rewrite Hh. eexists. reflexivity.
    + destruct (decide (h = [])) as [-> | Hnil].
      * unfold verify_init_data.
        destruct init_data; [eexists; reflexivity|].
        cbv beta iota zeta. rewrite Hh. eexists. reflexivity.
      * rewrite (verify_past_guards _ _ token msg Hh Hnil Htok Hmsg).
        unfold compare_digest. rewrite calc_hash_ascii, Hasc. cbn [andb mbind result_bind].
        rewrite bool_decide_eq_false_2 by congruence. eexists. reflexivity.
Qed.

End AuthProperties.

(** C2: the payload `hash=%C3%A9` is not empty, has a `hash` field, and that
    field differs from the computed signature, yet verify raises TypeError
    from the comparison instead of 401. *)
Theorem verify_non_ascii_hash_raises_TypeError (json_loads : str -> result json) :
  let data := dict (Urllib.parse_qsl Examples.non_ascii_hash) in
  Examples.non_ascii_hash <> []
  /\ data !! py "hash" = Some [233%N]
  /\ calc_hash Examples.token_bytes (Examples.check_bytes Examples.non_ascii_hash)
     <> [233%N]
  /\ verify_init_data Examples.default_token json_loads Examples.non_ascii_hash
     = Raise TypeError.
Proof.
  cbv zeta. split; [discriminate|]. split; [vm_compute; reflexivity|].
  split; [vm_compute; discriminate|]. vm_compute. reflexivity.
Qed.

Lemma verify_accepts_signed_refuses_altered_witness :
  verify_init_data Examples.default_token Examples.json_loads Examples.signed
    = Ok Examples.alice
  /\ verify_init_data Examples.default_token Examples.json_loads Examples.forged
    = Raise (HTTPException 401 "bad signature").
Proof.
  destruct (verify_accepts_signed_refuses_altered
              Examples.default_token Examples.json_loads
              Examples.signed Examples.signed_hash Examples.alice_text
              Examples.token_bytes (Examples.check_bytes Examples.signed)
              Examples.alice) as [Hok Hbad].
  - vm_compute. reflexivity.
  - vm_compute. reflexivity.
  - vm_compute. reflexivity.
  - vm_compute. reflexivity.
  - vm_compute. reflexivity.
  - vm_compute. discriminate.
  - vm_compute. reflexivity.
  - split; [exact Hok|].
    apply (Hbad Examples.forged 0%nat 100%N).
    + vm_compute. reflexivity.
    + vm_compute. lia.
    + vm_compute. discriminate.
Defined.

Lemma verify_without_user_gives_empty_identity_witness :
  verify_init_data Examples.default_token Examples.json_loads Examples.signed_no_user
    = Ok (JDict [])
  /\ getitem (JDict []) (py "id") = Raise KeyError
  /\ identity_id Examples.default_token Examples.json_loads Examples.signed_no_user
    = Raise KeyError.
Proof.
  apply (verify_without_user_gives_empty_identity
           Examples.default_token Examples.json_loads
           Examples.signed_no_user Examples.signed_no_user_hash
           Examples.token_bytes (Examples.check_bytes Examples.signed_no_user)).
  - vm_compute. reflexivity.
  - vm_compute. reflexivity.
  - vm_compute. reflexivity.
  - vm_compute. reflexivity.
  - vm_compute. reflexivity.
  - left. vm_compute. reflexivity.
Defined.

(** ** The store *)

Lemma first_desc_None (rows : list (Z * payments.row)) :
  first_desc rows = None <-> rows = [].
Proof.
  destruct rows as [|kp tl]; [done|].
  cbn [first_desc foldr]. split; [|done].
  destruct (foldr _ _ tl) as [kq|]; [destruct (kq.1 <? kp.1)|]; done.
Qed.

Lemma first_desc_Some (rows : list (Z * payments.row)) (kp : Z * payments.row) :
  first_desc rows = Some kp ->
  kp ∈ rows /\ forall kq, kq ∈ rows -> kq.1 <= kp.1.
Proof.
  revert kp. induction rows as [|k tl IH]; intros kp; [done|].
  cbn [first_desc foldr]. fold (first_desc tl).
  destruct (first_desc tl) as [best|] eqn:Hb.
  - destruct (IH best eq_refl) as [Hin Hmax].
    destruct (best.1 <? k.1) eqn:Hlt; intros [= <-].
    + apply Z.ltb_lt in Hlt. split; [left|].
      intros kq [-> | Hq]%elem_of_cons; [lia|]. specialize (Hmax kq Hq). lia.
    + apply Z.ltb_ge in Hlt. split; [right; exact Hin|].
      intros kq [-> | Hq]%elem_of_cons; [lia | auto].
  - apply first_desc_None in Hb as ->. intros [= <-]. split; [left|].
    intros kq [-> | Hq]%elem_of_cons; [lia|]. by apply elem_of_nil in Hq.
Qed.

Lemma elem_of_pending_of (uid pid : Z) (p : payments.row) (pays : gmap Z payments.row) :
  (pid, p) ∈ pending_of uid pays <->
  pays !! pid = Some p /\ payments.user_id p = uid /\ payments.status p = py "pending".
Proof.
  unfold pending_of. rewrite list_elem_of_filter, elem_of_map_to_list. cbn. tauto.
Qed.

(** The row the SELECT of confirm_last_payment returns. *)
Lemma select_last_pending (uid : Z) (pays : gmap Z payments.row) :
  match first_desc (pending_of uid pays) with
  | None =>
      forall pid p, pays !! pid = Some p -> payments.user_id p = uid ->
                    payments.status p <> py "pending"
  | Some (pid, p) =>
      pays !! pid = Some p /\ payments.user_id p = uid
      /\ payments.status p = py "pending"
      /\ forall pid' p', pays !! pid' = Some p' -> payments.user_id p' = uid ->
                         payments.status p' = py "pending" -> pid' <= pid
  end.
Proof.
  destruct (first_desc _) as [[pid p]|] eqn:Hf.
  - apply first_desc_Some in Hf as [Hin Hmax].
    apply elem_of_pending_of in Hin as (Hp & Hu & Hs).
    repeat split; try assumption.
    intros pid' p' Hp' Hu' Hs'.
    apply (Hmax (pid', p')). apply elem_of_pending_of. auto.
  - apply first_desc_None in Hf.
    intros pid p Hp Hu Hs.
    assert (Hin : (pid, p) ∈ pending_of uid pays) by (apply elem_of_pending_of; auto).
    rewrite Hf in Hin. by apply elem_of_nil in Hin.
Qed.

(** Binding an int that fits, and one that does not. *)
Lemma bind_int_Ok (z : Z) : int64 z = true -> bind_int z = Ok z.
Proof. unfold bind_int. intros ->. reflexivity. Qed.

Lemma bind_int_Raise (z : Z) : int64 z = false -> bind_int z = Raise OverflowError.
Proof. unfold bind_int. intros ->. reflexivity. Qed.

Lemma bind_int_inv (z r : Z) : bind_int z = Ok r -> r = z /\ int64 z = true.
Proof. unfold bind_int. destruct (int64 z); [intros [= <-]; auto | discriminate]. Qed.

Lemma bind_text_inv (s r : option str) : bind_text s = Ok r -> r = s.
Proof.
  destruct s as [t|]; cbn; [|congruence].
  destruct (encode t); cbn; [congruence | discriminate].
Qed.

Lemma bind_Ok {A B} (m : result A) (k : A -> result B) (b : B) :
  m ≫= k = Ok b -> exists a, m = Ok a /\ k a = Ok b.
Proof. destruct m as [a|e]; cbn; [eauto | discriminate]. Qed.

(** Runs the bindings that are known to fit. *)
Ltac bound :=
  repeat first [ rewrite bind_int_Ok by assumption
               | progress cbn [mbind result_bind] ].

Lemma int64_spec (z : Z) : int64 z = true <-> - 2 ^ 63 <= z < 2 ^ 63.
Proof. unfold int64. rewrite andb_true_iff, Z.leb_le, Z.ltb_lt. tauto. Qed.

(** MAX(0, COALESCE(days_left, 0)) on an INTEGER balance. *)
Lemma MAX_0_INTEGER (old : Z) :
  MAX 0 (COALESCE (Some (INTEGER old)) 0) = INTEGER (Z.max 0 old).
Proof.
  unfold MAX, COALESCE. cbn. destruct (Z.ltb_spec 0 old); f_equal; lia.
Qed.

Lemma plus_INTEGER (x y : Z) :
  int64 (x + y) = true -> Sql.plus (INTEGER x) (INTEGER y) = INTEGER (x + y).
Proof. intros H. cbn. rewrite H. reflexivity. Qed.

Lemma minus_INTEGER (x y : Z) :
  int64 (x - y) = true -> Sql.minus (INTEGER x) (INTEGER y) = INTEGER (x - y).
Proof. intros H. cbn. rewrite H. reflexivity. Qed.

(** The row an UPDATE of days_left leaves, column by column. *)
Lemma update_days_left_row (f : value -> value) (uid : Z) (d : db) (row : users.row) :
  db_users d !! uid = Some row ->
  exists row',
    db_users (update_days_left f uid d) !! uid = Some row'
    /\ users.days_left row' = Sql.affinity (f (users.days_left row))
    /\ users.username row' = users.username row
    /\ users.reminder_sent3 row' = users.reminder_sent3 row
    /\ users.user_comment row' = users.user_comment row
    /\ users.seats_default row' = users.seats_default row
    /\ users.expired_since row' = users.expired_since row
    /\ users.is_admin row' = users.is_admin row
    /\ users.created_at row' = users.created_at row
    /\ users.updated_at row' = users.updated_at row.
Proof.
  intros Hrow. cbn. rewrite lookup_alter_eq, Hrow. eexists. split; [reflexivity|].
  repeat split.
Qed.

(** add_days and sub_days touch no other user and no payment. *)
Lemma update_days_left_frame (f : value -> value) (uid uid' : Z) (d : db) :
  uid' <> uid ->
  db_users (update_days_left f uid d) !! uid' = db_users d !! uid'
  /\ db_payments (update_days_left f uid d) = db_payments d.
Proof. intros Hne. split; [|reflexivity]. cbn. apply lookup_alter_ne. congruence. Qed.


Example confirm_last_payment_example :
  exists d',
    confirm_last_payment 7 Examples.store = Ok (d', true)
    /\ payments.status <$> db_payments d' !! 3 = Some (py "paid")
    /\ payments.status <$> db_payments d' !! 2 = Some (py "pending")
    /\ users.days_left <$> db_users d' !! 7 = Some (INTEGER 90).
Proof. eexists. vm_compute. repeat split. Qed.


(** C4 (amended): on an existing user with an INTEGER balance, for a
    user_id and a delta of 64 bits, add_days sets days_left to
    max(0, old) + delta when that is below 2^63 and sub_days to
    max(0, old) - delta when that is below 2^63, the result not being
    floored and nothing else changing: from -5, adding 10 gives 10 (the old
    balance counts as 0); from 2, subtracting 3 gives -1. *)
Theorem add_days_sub_days_clamp_old_balance
        (uid delta old : Z) (d : db) (row : users.row) :
  db_users d !! uid = Some row ->
  users.days_left row = INTEGER old ->
  int64 uid = true ->
  int64 delta = true ->
  (Z.max 0 old + delta < 2 ^ 63 ->
   exists d' row',
     add_days uid delta d = Ok d'
     /\ db_users d' !! uid = Some row'
     /\ users.days_left row' = INTEGER (Z.max 0 old + delta)
     /\ users.username row' = users.username row
     /\ users.reminder_sent3 row' = users.reminder_sent3 row
     /\ users.user_comment row' = users.user_comment row
     /\ users.seats_default row' = users.seats_default row
     /\ users.expired_since row' = users.expired_since row
     /\ users.is_admin row' = users.is_admin row
     /\ users.created_at row' = users.created_at row
     /\ users.updated_at row' = users.updated_at row
     /\ (forall uid', uid' <> uid -> db_users d' !! uid' = db_users d !! uid')
     /\ db_payments d' = db_payments d)
  /\ (Z.max 0 old - delta < 2 ^ 63 ->
      exists d' row',
        sub_days uid delta d = Ok d'
        /\ db_users d' !! uid = Some row'
        /\ users.days_left row' = INTEGER (Z.max 0 old - delta)
        /\ users.username row' = users.username row
        /\ users.reminder_sent3 row' = users.reminder_sent3 row
        /\ users.user_comment row' = users.user_comment row
        /\ users.seats_default row' = users.seats_default row
        /\ users.expired_since row' = users.expired_since row
        /\ users.is_admin row' = users.is_admin row
        /\ users.created_at row' = users.created_at row
        /\ users.updated_at row' = users.updated_at row
        /\ (forall uid', uid' <> uid -> db_users d' !! uid' = db_users d !! uid')
        /\ db_payments d' = db_payments d)
  /\ (old = -5 ->
      exists d', add_days uid 10 d = Ok d'
                 /\ users.days_left <$> db_users d' !! uid = Some (INTEGER 10))
  /\ (old = 2 ->
      exists d', sub_days uid 3 d = Ok d'
                 /\ users.days_left <$> db_users d' !! uid = Some (INTEGER (-1))).
Proof.
  intros Hrow Hold Huid Hdelta.
  pose proof (proj1 (int64_spec delta) Hdelta) as Hd.
  unfold add_days, sub_days.
  rewrite (bind_int_Ok delta Hdelta), (bind_int_Ok uid Huid). cbn [mbind result_bind].
  assert (H10 : bind_int 10 = Ok 10) by reflexivity.
  assert (H3 : bind_int 3 = Ok 3) by reflexivity.
  rewrite H10, H3. cbn [mbind result_bind].
  split; [|split; [|split]].
  - intros Hsum.
    destruct (update_days_left_row
                (fun days_left => Sql.plus (MAX 0 (COALESCE (Some days_left) 0)) (INTEGER delta))
                uid d row Hrow) as (row' & Hrow' & Hbal & Hrest).
    eexists _, row'. split; [reflexivity|]. split; [exact Hrow'|].
    split; [rewrite Hbal, Hold, MAX_0_INTEGER, plus_INTEGER;
            [reflexivity | apply int64_spec; lia]|].
    repeat split; try apply Hrest.
    intros uid' Hne. apply update_days_left_frame. exact Hne.
  - intros Hsum.
    destruct (update_days_left_row
                (fun days_left => Sql.minus (MAX 0 (COALESCE (Some days_left) 0)) (INTEGER delta))
                uid d row Hrow) as (row' & Hrow' & Hbal & Hrest).
    eexists _, row'. split; [reflexivity|]. split; [exact Hrow'|].
    split; [rewrite Hbal, Hold, MAX_0_INTEGER, minus_INTEGER;
            [reflexivity | apply int64_spec; lia]|].
    repeat split; try apply Hrest.
    intros uid' Hne. apply update_days_left_frame. exact Hne.
  - intros ->. eexists. split; [reflexivity|].
    cbn. rewrite lookup_alter_eq, Hrow. cbn. rewrite Hold. reflexivity.
  - intros ->. eexists. split; [reflexivity|].
    cbn. rewrite lookup_alter_eq, Hrow. cbn. rewrite Hold. reflexivity.
Qed.

(** C4 as stated fails: from the balance -5, add_days with 10 leaves 10 and
    not 5. It fails for every delta as well: with the delta 2^63 add_days
    raises OverflowError, and from the greatest INTEGER balance adding 2
    leaves the REAL 2^63, which is not max(0, old) + 2. *)
Lemma add_days_from_minus_5_is_not_5 :
  ~ (forall (uid : Z) (d : db) (row : users.row),
       db_users d !! uid = Some row -> users.days_left row = INTEGER (-5) ->
       exists d', add_days uid 10 d = Ok d'
                  /\ users.days_left <$> db_users d' !! uid = Some (INTEGER 5))
  /\ add_days 7 (2 ^ 63) Examples.store = Raise OverflowError
  /\ (exists d',
        users.days_left <$> db_users Samples.store_full !! 9 = Some (INTEGER (2 ^ 63 - 1))
        /\ add_days 9 2 Samples.store_full = Ok d'
        /\ users.days_left <$> db_users d' !! 9
           = Some (REAL (S754_finite false 4503599627370496 11))
        /\ Sql.compare_int_real (Z.max 0 (2 ^ 63 - 1) + 2)
                                (S754_finite false 4503599627370496 11) = Gt).
Proof.
  split; [|split].
  - intros H. specialize (H 7 Examples.store Examples.user7).
    assert (Hrow : db_users Examples.store !! 7 = Some Examples.user7)
      by (vm_compute; reflexivity).
    destruct (H Hrow eq_refl) as (d' & Hadd & Hbal).
    vm_compute in Hadd. injection Hadd as <-. vm_compute in Hbal. discriminate Hbal.
  - reflexivity.
  - eexists. vm_compute. repeat split.
Qed.




(** ** Pricing *)

Lemma range_In (lo hi x : Z) : lo <= x <= hi -> In x (range lo hi).
Proof.
  intros Hx. unfold range. apply in_map_iff.
  exists (Z.to_nat (x - lo)). split; [lia|].
  apply in_seq. lia.
Qed.

(** The constants of calc_amount: 75 / 30.0 is 2.5, and the literals are
    the doubles nearest to 0.05 and 0.1. *)
Lemma per_day_value :
  (base ← Float.of_int BASE_PRICE_30; Ok (Float.div base (Float.literal 300 10)))
  = Ok (S754_finite false 5629499534213120 (-51)).
Proof. vm_compute. reflexivity. Qed.

Lemma literal_values :
  Float.literal 0 10 = S754_zero false
  /\ Float.literal 0 100 = S754_zero false
  /\ Float.literal 10 10 = S754_finite false 4503599627370496 (-52)
  /\ Float.literal 5 100 = S754_finite false 0x1999999999999a (-57)
  /\ Float.literal 10 100 = S754_finite false 0x1999999999999a (-56).
Proof. vm_compute. repeat split. Qed.

(** DISCOUNT_BY_DAYS.get(days, 0.0): 0.05 at 60, 0.1 at 90, 0.0 elsewhere. *)
Lemma discount_lookup (days : Z) :
  default (Float.literal 0 10) (DISCOUNT_BY_DAYS !! days)
  = if days =? 60 then S754_finite false 0x1999999999999a (-57)
    else if days =? 90 then S754_finite false 0x1999999999999a (-56)
    else S754_zero false.
Proof.
  unfold DISCOUNT_BY_DAYS.
  destruct literal_values as (-> & -> & _ & -> & ->).
  rewrite !lookup_insert, lookup_empty.
  repeat case_decide; subst; try reflexivity;
    repeat match goal with
           | |- context [?x =? ?y] =>
               destruct (Z.eqb_spec x y); try lia; try reflexivity
           end.
Qed.

Lemma calc_amount_evaluated_eq (days seats : Z) :
  calc_amount days seats = calc_amount_evaluated days seats.
Proof.
  unfold calc_amount, calc_amount_evaluated.
  pose proof per_day_value as Hp.
  destruct (Float.of_int BASE_PRICE_30) as [base|e]; [|discriminate Hp].
  cbn [mbind result_bind] in Hp |- *. injection Hp as ->.
  rewrite discount_lookup.
  destruct literal_values as (_ & _ & -> & _ & _).
  unfold one_minus.
  destruct (days =? 60); [reflexivity|]. destruct (days =? 90); reflexivity.
Qed.

Lemma calc_amount_exact_on_grid :
  forallb (fun days => forallb (exact_on calc_amount_evaluated days) (range 0 100))
          (range 0 400) = true.
Proof. vm_compute. reflexivity. Qed.

(** round_half_even gives the nearest integer, the even one on a tie. *)
Lemma round_half_even_nearest (m d : Z) :
  0 < d -> is_nearest_even m d (Float.round_half_even m d) = true.
Proof.
  intros Hd. unfold is_nearest_even, Float.round_half_even.
  pose proof (Z.div_mod m d ltac:(lia)) as Hm.
  pose proof (Z.mod_pos_bound m d Hd) as Hr.
  set (q := m / d) in *. set (r := m mod d) in *.
  apply orb_true_iff.
  destruct (Z.ltb_spec (2 * r) d) as [H1|H1].
  - left. apply Z.ltb_lt. replace (d * q - m) with (- r) by lia. lia.
  - destruct (Z.ltb_spec d (2 * r)) as [H2|H2].
    + left. apply Z.ltb_lt. replace (d * (q + 1) - m) with (d - r) by lia. lia.
    + right. assert (Hhalf : 2 * r = d) by lia.
      destruct (Z.even q) eqn:Hq; apply andb_true_iff; split.
      * apply Z.eqb_eq. replace (d * q - m) with (- r) by lia. lia.
      * exact Hq.
      * apply Z.eqb_eq. replace (d * (q + 1) - m) with (d - r) by lia. lia.
      * rewrite Z.even_add, Hq. reflexivity.
Qed.

(** int -> float never yields NaN. *)
Lemma shr_1_nonneg (mrs : shr_record) : 0 <= shr_m mrs -> 0 <= shr_m (shr_1 mrs).
Proof. destruct mrs as [[|[p|p|]|p] r s]; cbn; lia. Qed.

Lemma iter_shr_1_nonneg (p : positive) (mrs : shr_record) :
  0 <= shr_m mrs -> 0 <= shr_m (SpecFloat.iter_pos shr_1 p mrs).
Proof.
  revert mrs. induction p as [p IH|p IH|]; intros mrs H; cbn [SpecFloat.iter_pos].
  - apply IH, IH, shr_1_nonneg, H.
  - apply IH, IH, H.
  - apply shr_1_nonneg, H.
Qed.

Lemma shr_fexp_nonneg (m e : Z) (l : location) :
  0 <= m -> 0 <= shr_m (fst (shr_fexp Float.prec Float.emax m e l)).
Proof.
  intros Hm. unfold shr_fexp, shr.
  assert (H0 : 0 <= shr_m (shr_record_of_loc m l)) by (destruct l as [|[]]; exact Hm).
  destruct (_ - e) as [|p|p]; cbn [fst]; [exact H0 | | exact H0].
  apply iter_shr_1_nonneg, H0.
Qed.

Lemma binary_round_aux_not_nan (sx : bool) (mx ex : Z) (lx : location) :
  0 <= mx -> binary_round_aux Float.prec Float.emax sx mx ex lx <> S754_nan.
Proof.
  intros Hm. unfold binary_round_aux.
  pose proof (shr_fexp_nonneg mx ex lx Hm) as H1.
  destruct (shr_fexp _ _ mx ex lx) as [mrs' e']. cbn [fst] in H1.
  assert (H2 : 0 <= round_nearest_even (shr_m mrs') (loc_of_shr_record mrs')).
  { unfold round_nearest_even.
    destruct (loc_of_shr_record mrs') as [|[]]; try lia.
    destruct (Z.even (shr_m mrs')); lia. }
  pose proof (shr_fexp_nonneg _ e' loc_Exact H2) as H3.
  destruct (shr_fexp _ _ _ e' loc_Exact) as [mrs'' e'']. cbn [fst] in H3.
  destruct (shr_m mrs'') as [|p|p]; [discriminate | | lia].
  destruct (e'' <=? _); discriminate.
Qed.

Lemma of_int_Ok (n : Z) (x : spec_float) :
  Float.of_int n = Ok x ->
  (exists s, x = S754_zero s) \/ (exists s m e, x = S754_finite s m e).
Proof.
  unfold Float.of_int.
  assert (Hn : binary_normalize Float.prec Float.emax n 0 false <> S754_nan).
  { destruct n as [|p|p]; cbn [binary_normalize]; [discriminate| |];
      unfold binary_round; destruct (shl_align _ _ _) as [mz ez];
      apply binary_round_aux_not_nan; lia. }
  destruct (binary_normalize _ _ n 0 false) as [s|s| |s m e]; intros [= <-]; eauto.
  congruence.
Qed.

Lemma of_int_Raise (n : Z) (e : exn) : Float.of_int n = Raise e -> e = OverflowError.
Proof.
  unfold Float.of_int.
  destruct (binary_normalize _ _ n 0 false); intros [= <-]; reflexivity.
Qed.

(** Zero days cost nothing, whatever the seats convert to. *)
Lemma calc_amount_zero_days (n : Z) :
  calc_amount 0 n = (_ ← Float.of_int n; Ok 0).
Proof.
  rewrite calc_amount_evaluated_eq. unfold calc_amount_evaluated.
  change (Float.of_int 0) with (Ok (S754_zero false)). cbn [mbind result_bind].
  destruct (Float.of_int n) as [x|e] eqn:Hx; cbn [mbind result_bind]; [|reflexivity].
  apply of_int_Ok in Hx as [[s ->] | (s & m & e & ->)]; reflexivity.
Qed.

Lemma discount_table (days : Z) :
  default (Float.literal 0 10) (DISCOUNT_BY_DAYS !! days)
  = if days =? 30 then Float.literal 0 100
    else if days =? 60 then Float.literal 5 100
    else if days =? 90 then Float.literal 10 100
    else Float.literal 0 10.
Proof.
  rewrite discount_lookup.
  destruct literal_values as (-> & -> & _ & -> & ->).
  destruct (Z.eqb_spec days 30) as [->|_]; [reflexivity|].
  destruct (days =? 60); [reflexivity|]. destruct (days =? 90); reflexivity.
Qed.

Lemma is_nearest_even_spec (num den r : Z) :
  is_nearest_even num den r = true <->
  2 * Z.abs (den * r - num) < den
  \/ (2 * Z.abs (den * r - num) = den /\ Z.even r = true).
Proof.
  unfold is_nearest_even.
  rewrite orb_true_iff, andb_true_iff, Z.ltb_lt, Z.eqb_eq. reflexivity.
Qed.

(** C7 (amended): calc_amount evaluates round((75 / 30.0) * days * seats *
    (1.0 - disc)) in double arithmetic, round() taking a tie to the even
    integer and disc being 0.0, 0.05, 0.1 at 30, 60, 90 days and 0.0 at any
    other; for 0 <= days <= 400 and 0 <= seats <= 100 the result is the
    integer nearest to 75 * days * seats * (100 - percent) / 3000, the even
    one on a tie; price(30,1) = 75, price(60,1) = 142, price(90,1) = 202;
    price(0, n) = 0 for every n that converts to a double, and an n that
    does not convert raises OverflowError. *)
Theorem calc_amount_rounds_half_even :
  (forall days seats, calc_amount days seats = calc_amount_evaluated days seats)
  /\ (forall days,
        default (Float.literal 0 10) (DISCOUNT_BY_DAYS !! days)
        = if days =? 30 then Float.literal 0 100
          else if days =? 60 then Float.literal 5 100
          else if days =? 90 then Float.literal 10 100
          else Float.literal 0 10)
  /\ (forall m d, 0 < d ->
        let r := Float.round_half_even m d in
        2 * Z.abs (d * r - m) < d \/ (2 * Z.abs (d * r - m) = d /\ Z.even r = true))
  /\ (forall days seats, 0 <= days <= 400 -> 0 <= seats <= 100 ->
        exists r, calc_amount days seats = Ok r
          /\ let num := 75 * days * seats * (100 - discount_percent days) in
             2 * Z.abs (3000 * r - num) < 3000
             \/ (2 * Z.abs (3000 * r - num) = 3000 /\ Z.even r = true))
  /\ calc_amount 30 1 = Ok 75
  /\ calc_amount 60 1 = Ok 142
  /\ calc_amount 90 1 = Ok 202
  /\ (forall n x, Float.of_int n = Ok x -> calc_amount 0 n = Ok 0)
  /\ (forall n e, Float.of_int n = Raise e -> calc_amount 0 n = Raise OverflowError).
Proof.
  split; [exact calc_amount_evaluated_eq|].
  split; [exact discount_table|].
  split; [intros m d Hd r; apply is_nearest_even_spec, round_half_even_nearest, Hd|].
  split.
  { intros days seats Hd Hs.
    pose proof calc_amount_exact_on_grid as Hgrid.
    rewrite forallb_forall in Hgrid.
    specialize (Hgrid days (range_In _ _ _ Hd)).
    rewrite forallb_forall in Hgrid.
    specialize (Hgrid seats (range_In _ _ _ Hs)).
    unfold exact_on in Hgrid. rewrite <- calc_amount_evaluated_eq in Hgrid.
    destruct (calc_amount days seats) as [r|e]; [|discriminate Hgrid].
    exists r. split; [reflexivity|].
    apply is_nearest_even_spec in Hgrid. exact Hgrid. }
  split; [vm_compute; reflexivity|].
  split; [vm_compute; reflexivity|].
  split; [vm_compute; reflexivity|].
  split.
  - intros n x Hx. rewrite calc_amount_zero_days, Hx. reflexivity.
  - intros n e He. rewrite calc_amount_zero_days, He.
    apply of_int_Raise in He as ->. reflexivity.
Qed.

(** C7 as stated fails: with 2^1024 seats, zero days do not cost 0, the
    call raises OverflowError. *)
Lemma calc_amount_zero_days_overflow :
  calc_amount 0 (2 ^ 1024) = Raise OverflowError
  /\ ~ (forall n, calc_amount 0 n = Ok 0).
Proof.
  assert (H : calc_amount 0 (2 ^ 1024) = Raise OverflowError)
    by (vm_compute; reflexivity).
  split; [exact H|]. intros Hall. rewrite Hall in H. discriminate H.
Qed.

(** Beyond 53 bits the double product is no longer the exact one. *)
Example calc_amount_inexact_beyond_53_bits :
  calc_amount 1 (2 ^ 53 + 1) = Ok 22517998136852480
  /\ exact_price 1 (2 ^ 53 + 1) 22517998136852482 = true.
Proof. vm_compute. split; reflexivity. Qed.

Lemma calc_amount_rounds_half_even_witness :
  (exists r, calc_amount 60 3 = Ok r
     /\ (2 * Z.abs (3000 * r - 75 * 60 * 3 * 95) < 3000
         \/ (2 * Z.abs (3000 * r - 75 * 60 * 3 * 95) = 3000 /\ Z.even r = true)))
  /\ calc_amount 0 5 = Ok 0
  /\ calc_amount 0 (2 ^ 1024) = Raise OverflowError.
Proof.
  destruct calc_amount_rounds_half_even
    as (_ & _ & _ & Hgrid & _ & _ & _ & Hzero & Hover).
  split; [|split].
  - apply (Hgrid 60 3); lia.
  - apply (Hzero 5 (S754_finite false 5629499534213120 (-50))).
    vm_compute. reflexivity.
  - apply (Hover (2 ^ 1024) OverflowError). vm_compute. reflexivity.
Defined.

(** ** Instances on the example store *)


Lemma add_days_sub_days_clamp_old_balance_witness :
  exists d' row',
    add_days 7 10 Examples.store = Ok d'
    /\ db_users d' !! 7 = Some row'
    /\ users.days_left row' = INTEGER 10.
Proof.
  destruct (proj1 (add_days_sub_days_clamp_old_balance
                     7 10 (-5) Examples.store Examples.user7
                     ltac:(vm_compute; reflexivity) eq_refl eq_refl eq_refl))
    as (d' & row' & Hadd & Hrow' & Hbal & _).
  - vm_compute. reflexivity.
  - exists d', row'. auto.
Defined.




(** ** More on verify_init_data *)

Section AuthMore.

Variable BOT_TOKEN : str.
Variable json_loads : str -> result json.

Abbreviation verify := (verify_init_data BOT_TOKEN json_loads).

(** X1: verify returns an identity only for a payload whose `hash` field is the
    computed signature of its other fields, and the identity is what
    json.loads makes of the `user` field (of "{}" without one). *)
Theorem verify_Ok_signed (init_data : str) (u : json) :
  verify init_data = Ok u ->
  let data := dict (Urllib.parse_qsl init_data) in
  exists token msg,
    encode BOT_TOKEN = Ok token
    /\ encode (data_check_string (delete (py "hash") data)) = Ok msg
    /\ data !! py "hash" = Some (calc_hash token msg)
    /\ json_loads (user_text (delete (py "hash") data)) = Ok u.
Proof.
  intros Hv. cbv zeta. revert Hv. unfold verify_init_data.
  destruct init_data as [|c0 rest]; [discriminate|].
  cbv beta iota zeta.
  destruct (dict (Urllib.parse_qsl (c0 :: rest)) !! py "hash") as [[|c h]|] eqn:Hh;
    try discriminate.
  destruct (encode BOT_TOKEN) as [token|e]; cbn [mbind result_bind]; [|discriminate].
  destruct (encode (data_check_string _)) as [msg|e]; cbn [mbind result_bind];
    [|discriminate].
  unfold compare_digest.
  destruct (is_ascii (calc_hash token msg) && is_ascii (c :: h));
    cbn [mbind result_bind]; [|discriminate].
  case_bool_decide as Heq; cbn [negb]; [|discriminate].
  intros Hj. exists token, msg. rewrite Heq. auto.
Qed.

Lemma split_app (sep : N) (cur a b : str) :
  Urllib.split sep cur (a ++ sep :: b) = Urllib.split sep cur a ++ Urllib.split sep [] b.
Proof.
  revert cur. induction a as [|c a IH]; intros cur; cbn.
  - rewrite N.eqb_refl. reflexivity.
  - destruct (c =? sep)%N; cbn; rewrite IH; reflexivity.
Qed.

(** The fields of two payloads joined by `&` are those of the first followed
    by those of the second. *)
Lemma parse_qsl_app (a b : str) :
  Urllib.parse_qsl (a ++ py "&" ++ b) = Urllib.parse_qsl a ++ Urllib.parse_qsl b.
Proof.
  assert (Hall : forall qs, Urllib.parse_qsl qs =
            flat_map (fun name_value =>
              match name_value with
              | [] => []
              | _ => [(Urllib.unquote (Urllib.plus_to_space (Urllib.split_eq [] name_value).1),
                       Urllib.unquote (Urllib.plus_to_space (Urllib.split_eq [] name_value).2))]
              end) (Urllib.split 38 [] qs)).
  { intros [|c qs]; reflexivity. }
  rewrite !Hall. change (py "&" ++ b) with (38%N :: b).
  rewrite split_app, flat_map_app. reflexivity.
Qed.

Lemma dict_foldl (m : gmap str str) (l : list (str * str)) :
  foldl (fun m kv => <[kv.1 := kv.2]> m) m l = dict l ∪ m.
Proof.
  unfold dict. revert m. induction l as [|[k v] l IH]; intros m; cbn.
  - rewrite (left_id_L ∅ (∪)). reflexivity.
  - rewrite IH, (IH (<[k:=v]> ∅)).
    rewrite <- (assoc_L (∪)). f_equal.
    rewrite insert_union_singleton_l, <- insert_union_singleton_l.
    rewrite (insert_union_singleton_l ∅), (right_id_L ∅ (∪)).
    rewrite <- insert_union_singleton_l. reflexivity.
Qed.

Lemma dict_app (l1 l2 : list (str * str)) : dict (l1 ++ l2) = dict l2 ∪ dict l1.
Proof. unfold dict at 1. rewrite foldl_app. apply dict_foldl. Qed.

(** X2: verify does not depend on the order in which fields of different names
    come in the payload. *)
Theorem verify_field_order (a b : str) :
  dict (Urllib.parse_qsl a) ##ₘ dict (Urllib.parse_qsl b) ->
  verify (a ++ py "&" ++ b) = verify (b ++ py "&" ++ a).
Proof.
  intros Hdisj.
  assert (Hd : dict (Urllib.parse_qsl (a ++ py "&" ++ b))
               = dict (Urllib.parse_qsl (b ++ py "&" ++ a))).
  { rewrite !parse_qsl_app, !dict_app. symmetry. apply map_union_comm. exact Hdisj. }
  unfold verify_init_data.
  destruct (a ++ py "&" ++ b) as [|x ab] eqn:Eab.
  { destruct a; discriminate Eab. }
  destruct (b ++ py "&" ++ a) as [|y ba] eqn:Eba.
  { destruct b; discriminate Eba. }
  cbv beta iota zeta. rewrite Hd. reflexivity.
Qed.

(** A field given twice counts with its last value: appending `&hash=h`
    replaces the `hash` of the payload. *)
Lemma dict_app_last (l : list (str * str)) (k v : str) :
  dict (l ++ [(k, v)]) = <[k := v]> (dict l).
Proof. unfold dict. rewrite foldl_app. reflexivity. Qed.

End AuthMore.

(** ** More on calc_amount *)

Lemma binary_round_aux_opp (mx ex : Z) (lx : location) :
  binary_round_aux Float.prec Float.emax true mx ex lx
  = SFopp (binary_round_aux Float.prec Float.emax false mx ex lx).
Proof.
  unfold binary_round_aux.
  destruct (shr_fexp _ _ mx ex lx) as [mrs' e'].
  destruct (shr_fexp _ _ _ e' loc_Exact) as [mrs'' e''].
  destruct (shr_m mrs'') as [|p|p]; [reflexivity| |reflexivity].
  destruct (e'' <=? _); reflexivity.
Qed.

Lemma binary_round_aux_sign (s : bool) (mx ex : Z) (lx : location) :
  binary_round_aux Float.prec Float.emax (negb s) mx ex lx
  = SFopp (binary_round_aux Float.prec Float.emax s mx ex lx).
Proof.
  destruct s; cbn [negb]; [|apply binary_round_aux_opp].
  rewrite binary_round_aux_opp.
  destruct (binary_round_aux _ _ false mx ex lx) as [[]|[]| |[] m e]; reflexivity.
Qed.

Lemma mul_opp_r (x y : spec_float) : Float.mul x (SFopp y) = SFopp (Float.mul x y).
Proof.
  unfold Float.mul.
  destruct x as [sx|sx| |sx mx ex], y as [sy|sy| |sy my ey]; cbn [SFmul SFopp];
    try reflexivity; try (destruct sx, sy; reflexivity).
  rewrite <- binary_round_aux_sign. f_equal. destruct sx, sy; reflexivity.
Qed.

Lemma mul_opp_l (x y : spec_float) : Float.mul (SFopp x) y = SFopp (Float.mul x y).
Proof.
  unfold Float.mul.
  destruct x as [sx|sx| |sx mx ex], y as [sy|sy| |sy my ey]; cbn [SFmul SFopp];
    try reflexivity; try (destruct sx, sy; reflexivity).
  rewrite <- binary_round_aux_sign. f_equal. destruct sx, sy; reflexivity.
Qed.

Lemma round_opp (x : spec_float) :
  Float.round (SFopp x) = match Float.round x with Ok r => Ok (- r) | Raise e => Raise e end.
Proof.
  destruct x as [s|s| |s m e]; cbn [SFopp Float.round]; try reflexivity.
  destruct s; cbn [negb]; f_equal; lia.
Qed.

Lemma of_int_opp (n : Z) :
  n <> 0 ->
  Float.of_int (- n) = match Float.of_int n with Ok x => Ok (SFopp x) | Raise e => Raise e end.
Proof.
  intros Hn. unfold Float.of_int.
  assert (H : binary_normalize Float.prec Float.emax (- n) 0 false
              = SFopp (binary_normalize Float.prec Float.emax n 0 false)).
  { destruct n as [|p|p]; [done| |].
    - change (- Z.pos p) with (Z.neg p). cbn [binary_normalize]. unfold binary_round.
      destruct (shl_align _ _ _) as [mz ez]. apply binary_round_aux_opp.
    - change (- Z.neg p) with (Z.pos p). cbn [binary_normalize]. unfold binary_round.
      destruct (shl_align _ _ _) as [mz ez]. rewrite binary_round_aux_opp.
      destruct (binary_round_aux _ _ false _ ez loc_Exact) as [[]|[]| |[] m e]; reflexivity. }
  rewrite H. destruct (binary_normalize _ _ n 0 false) as [s|s| |s m e]; reflexivity.
Qed.

(** X3: negative seats are not refused: they negate the amount (and an error
    stays the same error). *)
Theorem calc_amount_negative_seats (days seats : Z) :
  calc_amount days (- seats)
  = match calc_amount days seats with Ok r => Ok (- r) | Raise e => Raise e end.
Proof.
  destruct (decide (seats = 0)) as [-> | Hs].
  { change (- 0) with 0. destruct (calc_amount days 0) as [r|e] eqn:E; [|reflexivity].
    f_equal. revert E. rewrite calc_amount_evaluated_eq. unfold calc_amount_evaluated.
    destruct (Float.of_int days) as [d|e]; cbn [mbind result_bind]; [|discriminate].
    change (Float.of_int 0) with (Ok (S754_zero false)). cbn [mbind result_bind].
    destruct (Float.mul _ d) as [s|s| |s m e]; cbn;
      try (destruct (one_minus days) as [s'|s'| |s' m' e']; cbn; intros [= <-]; reflexivity).
    all: destruct (one_minus days) as [s'|s'| |s' m' e']; cbn; try discriminate;
      intros [= <-]; reflexivity. }
  rewrite !calc_amount_evaluated_eq. unfold calc_amount_evaluated.
  destruct (Float.of_int days) as [d|e]; cbn [mbind result_bind]; [|reflexivity].
  rewrite (of_int_opp seats Hs).
  destruct (Float.of_int seats) as [s|e]; cbn [mbind result_bind]; [|reflexivity].
  rewrite mul_opp_r, mul_opp_l, round_opp. reflexivity.
Qed.

(** ** More on the balance operations *)

Lemma db_eq (d d' : db) :
  db_users d = db_users d' -> db_payments d = db_payments d' -> d = d'.
Proof. destruct d, d'; cbn; intros -> ->; reflexivity. Qed.

Lemma alter_missing {A} (f : A -> A) (k : Z) (m : gmap Z A) :
  m !! k = None -> alter f k m = m.
Proof.
  intros H. apply map_eq. intros j. rewrite lookup_alter.
  case_decide as E; [subst; rewrite H|]; reflexivity.
Qed.

(** An UPDATE ... WHERE user_id=? that matches no row. *)
Lemma update_days_left_without_row (f : value -> value) (uid : Z) (d : db) :
  db_users d !! uid = None -> update_days_left f uid d = d.
Proof.
  intros H. unfold update_days_left.
  apply db_eq; cbn; [apply alter_missing; exact H | reflexivity].
Qed.

(** X4: a balance operation raises OverflowError, with nothing written, when
    its user_id or its days is not of 64 bits, whether the user has a row or
    not; with both of 64 bits, on a user without a row it changes nothing:
    it is not an error and creates no row. *)
Theorem days_operations_without_row (uid days : Z) (d : db) :
  (int64 uid && int64 days = false ->
   add_days uid days d = Raise OverflowError
   /\ sub_days uid days d = Raise OverflowError
   /\ set_days uid days d = Raise OverflowError)
  /\ (int64 uid && int64 days = true ->
      db_users d !! uid = None ->
      add_days uid days d = Ok d /\ sub_days uid days d = Ok d /\ set_days uid days d = Ok d).
Proof.
  unfold add_days, sub_days, set_days, bind_int. split.
  - intros H. destruct (int64 days); cbn [mbind result_bind]; [|auto].
    rewrite andb_true_r in H. rewrite H. auto.
  - intros [-> ->]%andb_true_iff Hrow. cbn [mbind result_bind].
    rewrite !update_days_left_without_row by exact Hrow. auto.
Qed.

(** X5: on an INTEGER balance, with user_id, days and the balance of 64 bits
    and max(0, old) - days below 2^63, subtracting and then adding the same
    days leaves max(days, max(0, old)) and the other columns as they were:
    the balance comes back only if it was at least days and not negative. *)
Theorem add_days_after_sub_days (uid days old : Z) (d : db) (row : users.row) :
  db_users d !! uid = Some row ->
  users.days_left row = INTEGER old ->
  int64 uid = true -> int64 days = true -> int64 old = true ->
  Z.max 0 old - days < 2 ^ 63 ->
  exists d1 d2 row2,
    sub_days uid days d = Ok d1
    /\ add_days uid days d1 = Ok d2
    /\ db_users d2 !! uid = Some row2
    /\ users.days_left row2 = INTEGER (Z.max days (Z.max 0 old))
    /\ users.username row2 = users.username row
    /\ users.reminder_sent3 row2 = users.reminder_sent3 row
    /\ users.user_comment row2 = users.user_comment row
    /\ users.seats_default row2 = users.seats_default row
    /\ users.expired_since row2 = users.expired_since row
    /\ users.is_admin row2 = users.is_admin row
    /\ users.created_at row2 = users.created_at row
    /\ users.updated_at row2 = users.updated_at row
    /\ (d2 = d <-> 0 <= old /\ days <= old).
Proof.
  intros Hrow Hold Huid Hdays Hint Hsub.
  apply int64_spec in Hdays as Hd. apply int64_spec in Hint as Ho.
  unfold add_days, sub_days. bound.
  set (minus := fun days_left : value =>
                  Sql.minus (MAX 0 (COALESCE (Some days_left) 0)) (INTEGER days)).
  set (plus := fun days_left : value =>
                 Sql.plus (MAX 0 (COALESCE (Some days_left) 0)) (INTEGER days)).
  destruct (update_days_left_row minus uid d row Hrow) as (row1 & Hrow1 & Hbal1 & Hrest1).
  destruct (update_days_left_row plus uid (update_days_left minus uid d) row1 Hrow1)
    as (row2 & Hrow2 & Hbal2 & Hrest2).
  assert (Hb1 : users.days_left row1 = INTEGER (Z.max 0 old - days)).
  { rewrite Hbal1, Hold. unfold minus. rewrite MAX_0_INTEGER, minus_INTEGER;
      [reflexivity | apply int64_spec; lia]. }
  assert (Hb2 : users.days_left row2 = INTEGER (Z.max days (Z.max 0 old))).
  { rewrite Hbal2, Hb1. unfold plus. rewrite MAX_0_INTEGER, plus_INTEGER;
      [cbn; f_equal; lia | apply int64_spec; lia]. }
  eexists _, _, row2. split; [reflexivity|]. split; [reflexivity|].
  split; [exact Hrow2|]. split; [exact Hb2|].
  destruct Hrest1 as (E1 & E2 & E3 & E4 & E5 & E6 & E7 & E8).
  destruct Hrest2 as (F1 & F2 & F3 & F4 & F5 & F6 & F7 & F8).
  do 8 (split; [congruence|]).
  split.
  - intros Heq. rewrite Heq, Hrow in Hrow2. injection Hrow2 as <-.
    rewrite Hold in Hb2. injection Hb2 as Hb2. lia.
  - intros [H0 Hle]. apply db_eq; [|reflexivity].
    apply map_eq. intros k. destruct (decide (k = uid)) as [-> | Hne].
    + rewrite Hrow2, Hrow. f_equal. destruct row, row2. cbn in *.
      f_equal; try congruence. rewrite Hb2, Hold. f_equal. lia.
    + cbn. rewrite !lookup_alter_ne by congruence. reflexivity.
Qed.

(** affinity makes an INTEGER only strictly below the greatest one. *)
Lemma affinity_REAL_INTEGER (x : spec_float) (z : Z) :
  Sql.affinity (REAL x) = INTEGER z -> - 2 ^ 63 < z < 2 ^ 63 - 1.
Proof.
  unfold Sql.affinity. destruct (Sql.integral x) as [z'|]; [|discriminate].
  destruct (Z.ltb_spec (- 2 ^ 63) z'); cbn [andb]; [|discriminate].
  destruct (Z.ltb_spec z' (2 ^ 63 - 1)); [|discriminate].
  intros [= <-]. lia.
Qed.

(** X6: for a user_id and a value of 64 bits, set_days overwrites: whatever
    was done to the balance before is forgotten, the row holds the value and
    its other columns as they were, and a later add_days of a delta of 64
    bits gives max(0, value) + delta when that is below 2^63; when it is
    not, the balance is not that sum (it is a REAL, or an INTEGER below
    2^63 - 1), and from the greatest INTEGER adding 1 leaves the REAL
    2^63. *)
Theorem set_days_overwrites
        (uid v delta : Z) (f : value -> value) (d : db) (row : users.row) :
  db_users d !! uid = Some row ->
  int64 uid = true -> int64 v = true -> int64 delta = true ->
  set_days uid v (update_days_left f uid d) = set_days uid v d
  /\ exists d1 row1 d2 row2,
       set_days uid v d = Ok d1
       /\ db_users d1 !! uid = Some row1
       /\ users.days_left row1 = INTEGER v
       /\ users.username row1 = users.username row
       /\ users.reminder_sent3 row1 = users.reminder_sent3 row
       /\ users.user_comment row1 = users.user_comment row
       /\ users.seats_default row1 = users.seats_default row
       /\ users.expired_since row1 = users.expired_since row
       /\ users.is_admin row1 = users.is_admin row
       /\ users.created_at row1 = users.created_at row
       /\ users.updated_at row1 = users.updated_at row
       /\ add_days uid delta d1 = Ok d2
       /\ db_users d2 !! uid = Some row2
       /\ (Z.max 0 v + delta < 2 ^ 63 ->
           users.days_left row2 = INTEGER (Z.max 0 v + delta))
       /\ (2 ^ 63 <= Z.max 0 v + delta ->
           forall z, users.days_left row2 = INTEGER z -> z < 2 ^ 63 - 1)
       /\ (v = 2 ^ 63 - 1 -> delta = 1 ->
           users.days_left row2 = REAL (S754_finite false 4503599627370496 11)).
Proof.
  intros Hrow Huid Hv Hdelta.
  apply int64_spec in Hv as Hv'. apply int64_spec in Hdelta as Hd'.
  unfold set_days, add_days. bound. split.
  - f_equal. apply db_eq; [|reflexivity]. cbn.
    apply map_eq. intros k. destruct (decide (k = uid)) as [-> | Hne].
    + rewrite !lookup_alter_eq. destruct (db_users d !! uid); reflexivity.
    + rewrite !lookup_alter_ne by congruence. reflexivity.
  - set (plus := fun days_left : value =>
                   Sql.plus (MAX 0 (COALESCE (Some days_left) 0)) (INTEGER delta)).
    destruct (update_days_left_row (fun _ => INTEGER v) uid d row Hrow)
      as (row1 & Hrow1 & Hbal1 & Hrest1).
    destruct (update_days_left_row plus uid (update_days_left (fun _ => INTEGER v) uid d)
                                   row1 Hrow1)
      as (row2 & Hrow2 & Hbal2 & _).
    cbn [Sql.affinity] in Hbal1.
    eexists _, row1, _, row2. split; [reflexivity|]. split; [exact Hrow1|].
    split; [exact Hbal1|].
    destruct Hrest1 as (E1 & E2 & E3 & E4 & E5 & E6 & E7 & E8).
    do 8 (split; [assumption|]).
    split; [reflexivity|]. split; [exact Hrow2|].
    rewrite Hbal2, Hbal1. unfold plus. rewrite MAX_0_INTEGER.
    split; [|split].
    + intros Hsum. rewrite plus_INTEGER; [reflexivity | apply int64_spec; lia].
    + intros Hsum z. cbn [Sql.plus].
      replace (int64 (Z.max 0 v + delta)) with false.
      * intros Hz%affinity_REAL_INTEGER. lia.
      * symmetry. apply not_true_is_false. rewrite int64_spec. lia.
    + intros -> ->. vm_compute. reflexivity.
Qed.

(** ** ORDER BY on the rows of a table *)

Section Order.
Context {A : Type}.
Implicit Types (x : Z * A) (l : list (Z * A)).

Lemma insert_desc_perm x l : insert_desc x l ≡ₚ x :: l.
Proof.
  induction l as [|y tl IH]; cbn; [done|].
  destruct (x.1 <? y.1); [|done]. rewrite IH. apply Permutation_swap.
Qed.

Lemma order_desc_perm l : order_desc l ≡ₚ l.
Proof.
  induction l as [|x l IH]; [done|].
  change (order_desc (x :: l)) with (insert_desc x (order_desc l)).
  rewrite insert_desc_perm, IH. done.
Qed.

Lemma insert_desc_sorted x l :
  x.1 ∉ l.*1 ->
  StronglySorted (fun a b => b.1 < a.1) l ->
  StronglySorted (fun a b => b.1 < a.1) (insert_desc x l).
Proof.
  induction l as [|y tl IH]; intros Hx Hs; cbn.
  - repeat constructor.
  - rewrite fmap_cons, not_elem_of_cons in Hx. destruct Hx as [Hxy Hx].
    apply StronglySorted_inv in Hs as [Hs Hy].
    destruct (Z.ltb_spec x.1 y.1) as [Hlt|Hge].
    + constructor; [apply IH; assumption|].
      rewrite insert_desc_perm. constructor; assumption.
    + constructor; [constructor; assumption|].
      constructor; [lia|]. eapply Forall_impl; [exact Hy|]. cbn. intros z Hz. lia.
Qed.

Lemma order_desc_sorted l :
  NoDup l.*1 -> StronglySorted (fun a b => b.1 < a.1) (order_desc l).
Proof.
  induction l as [|x l IH]; [constructor|].
  change (order_desc (x :: l)) with (insert_desc x (order_desc l)).
  rewrite fmap_cons, NoDup_cons. intros [Hx Hnd].
  apply insert_desc_sorted; [|auto]. rewrite order_desc_perm. exact Hx.
Qed.

Lemma insert_asc_perm x l : insert_asc x l ≡ₚ x :: l.
Proof.
  induction l as [|y tl IH]; cbn; [done|].
  destruct (y.1 <? x.1); [|done]. rewrite IH. apply Permutation_swap.
Qed.

Lemma order_asc_perm l : order_asc l ≡ₚ l.
Proof.
  induction l as [|x l IH]; [done|].
  change (order_asc (x :: l)) with (insert_asc x (order_asc l)).
  rewrite insert_asc_perm, IH. done.
Qed.

Lemma insert_asc_sorted x l :
  x.1 ∉ l.*1 ->
  StronglySorted (fun a b => a.1 < b.1) l ->
  StronglySorted (fun a b => a.1 < b.1) (insert_asc x l).
Proof.
  induction l as [|y tl IH]; intros Hx Hs; cbn.
  - repeat constructor.
  - rewrite fmap_cons, not_elem_of_cons in Hx. destruct Hx as [Hxy Hx].
    apply StronglySorted_inv in Hs as [Hs Hy].
    destruct (Z.ltb_spec y.1 x.1) as [Hlt|Hge].
    + constructor; [apply IH; assumption|].
      rewrite insert_asc_perm. constructor; assumption.
    + constructor; [constructor; assumption|].
      constructor; [lia|]. eapply Forall_impl; [exact Hy|]. cbn. intros z Hz. lia.
Qed.

Lemma order_asc_sorted l :
  NoDup l.*1 -> StronglySorted (fun a b => a.1 < b.1) (order_asc l).
Proof.
  induction l as [|x l IH]; [constructor|].
  change (order_asc (x :: l)) with (insert_asc x (order_asc l)).
  rewrite fmap_cons, NoDup_cons. intros [Hx Hnd].
  apply insert_asc_sorted; [|auto]. rewrite order_asc_perm. exact Hx.
Qed.

(** The order of the result does not depend on the order of the scan. *)
Lemma order_desc_unique l1 l2 :
  l1 ≡ₚ l2 -> NoDup l1.*1 -> order_desc l1 = order_desc l2.
Proof.
  intros Hp Hnd.
  apply (StronglySorted_unique_strong (fun a b : Z * A => b.1 < a.1)).
  - intros a b _ _ H1 H2. lia.
  - apply order_desc_sorted, Hnd.
  - apply order_desc_sorted. rewrite <- Hp. exact Hnd.
  - rewrite !order_desc_perm. exact Hp.
Qed.

Lemma order_desc_cons_greatest x l :
  (forall y, y ∈ l -> y.1 < x.1) -> order_desc (x :: l) = x :: order_desc l.
Proof.
  intros Hx. change (order_desc (x :: l)) with (insert_desc x (order_desc l)).
  assert (H : forall y, y ∈ order_desc l -> y.1 < x.1)
    by (intros y Hy; apply Hx; rewrite <- order_desc_perm; exact Hy).
  destruct (order_desc l) as [|y tl]; cbn; [done|].
  destruct (Z.ltb_spec x.1 y.1) as [Hlt|]; [|done].
  specialize (H y ltac:(left)). lia.
Qed.

Lemma max_key_list_None l :
  foldr (fun kp best => match best with
                        | Some k => Some (Z.max k kp.1)
                        | None => Some kp.1
                        end) None l = None -> l = [].
Proof. destruct l as [|x l]; [done|]. cbn. destruct (foldr _ _ l); done. Qed.

Lemma max_key_list_Some l k :
  foldr (fun kp best => match best with
                        | Some k => Some (Z.max k kp.1)
                        | None => Some kp.1
                        end) None l = Some k ->
  forall y, y ∈ l -> y.1 <= k.
Proof.
  revert k. induction l as [|x l IH]; intros k; cbn; [done|].
  destruct (foldr _ _ l) as [b|] eqn:E.
  - intros [= <-] y [-> | Hy]%elem_of_cons; [lia|]. specialize (IH b eq_refl y Hy). lia.
  - apply max_key_list_None in E as ->. intros [= <-] y [-> | Hy]%elem_of_cons; [lia|].
    by apply elem_of_nil in Hy.
Qed.

End Order.

(** The rowid of an INSERT is above every rowid of the table and above
    sqlite_sequence. *)
Lemma next_rowid_fresh {A} (seq : Z) (m : gmap Z A) :
  seq < next_rowid seq m /\ forall j, is_Some (m !! j) -> j < next_rowid seq m.
Proof.
  unfold next_rowid. split; [lia|]. intros j [v Hj].
  unfold max_key. destruct (foldr _ _ _) as [k|] eqn:E.
  - pose proof (max_key_list_Some _ _ E (j, v)) as H. cbn in H.
    rewrite elem_of_map_to_list in H. specialize (H Hj). lia.
  - apply max_key_list_None in E. apply map_to_list_empty_iff in E. subst.
    rewrite lookup_empty in Hj. discriminate.
Qed.

(** ** create_payment, list_payments and confirm_last_payment together *)

(** What a create_payment that returns has done. *)
Lemma create_payment_Ok
      (now : str) (uid days seats amount : Z) (comment : option str) (d d1 : db)
      (seq seq1 pid : Z) :
  create_payment now uid days seats amount comment d seq = Ok (d1, seq1, pid) ->
  int64 uid = true /\ int64 days = true /\ int64 seats = true /\ int64 amount = true
  /\ int64 pid = true
  /\ pid = next_rowid seq (db_payments d) /\ seq1 = pid
  /\ d1 = {| db_users := db_users d;
             db_payments :=
               <[pid := {| payments.user_id := uid;
                           payments.days := days;
                           payments.seats := seats;
                           payments.amount := amount;
                           payments.status := py "pending";
                           payments.comment := comment;
                           payments.created_at := Some now |}]> (db_payments d) |}.
Proof.
  unfold create_payment, bind_int, bind_text.
  destruct (int64 uid); cbn [mbind result_bind]; [|discriminate].
  destruct (int64 days); cbn [mbind result_bind]; [|discriminate].
  destruct (int64 seats); cbn [mbind result_bind]; [|discriminate].
  destruct (int64 amount); cbn [mbind result_bind]; [|discriminate].
  assert (Hc : forall k : option str -> result (db * Z * Z),
             match comment with
             | Some t => encode t ≫= (fun _ => Ok (Some t))
             | None => Ok None
             end ≫= k = Ok (d1, seq1, pid) -> k comment = Ok (d1, seq1, pid)).
  { intros k. destruct comment as [t|]; [|exact id].
    destruct (encode t); cbn [mbind result_bind]; [exact id | discriminate]. }
  intros H%Hc. destruct (int64 (next_rowid seq (db_payments d))) eqn:Hpid; [|discriminate].
  injection H as <- <- <-. auto 10.
Qed.

(** X7: create_payment raises OverflowError when one of user_id, days,
    seats and amount is not of 64 bits, otherwise the encoding error of a
    comment that has no UTF-8 encoding, otherwise OperationalError when no
    rowid of 64 bits is left; in each case nothing is written. Otherwise it
    adds one pending payment under a payment_id above every existing one and
    above sqlite_sequence, with the values passed in; the other payments and
    the users are as before, and no row is made for the user. *)
Theorem create_payment_appends
        (now : str) (uid days seats amount : Z) (comment : option str) (d : db) (seq : Z) :
  let create := create_payment now uid days seats amount comment d seq in
  let ints := int64 uid && int64 days && int64 seats && int64 amount in
  let pid := next_rowid seq (db_payments d) in
  (ints = false -> create = Raise OverflowError)
  /\ (ints = true ->
      forall t e, comment = Some t -> encode t = Raise e -> create = Raise e)
  /\ (ints = true ->
      (forall t, comment = Some t -> exists b, encode t = Ok b) ->
      (int64 pid = false -> create = Raise OperationalError)
      /\ (int64 pid = true ->
          exists d',
            create = Ok (d', pid, pid)
            /\ seq < pid
            /\ (forall j, is_Some (db_payments d !! j) -> j < pid)
            /\ db_payments d' !! pid =
                 Some {| payments.user_id := uid;
                         payments.days := days;
                         payments.seats := seats;
                         payments.amount := amount;
                         payments.status := py "pending";
                         payments.comment := comment;
                         payments.created_at := Some now |}
            /\ (forall j, j <> pid -> db_payments d' !! j = db_payments d !! j)
            /\ db_users d' = db_users d)).
Proof.
  cbv zeta. unfold create_payment, bind_int. split; [|split].
  - destruct (int64 uid); cbn [mbind result_bind andb]; [|reflexivity].
    destruct (int64 days); cbn [mbind result_bind andb]; [|reflexivity].
    destruct (int64 seats); cbn [mbind result_bind andb]; [|reflexivity].
    intros ->. reflexivity.
  - intros (((-> & ->)%andb_true_iff & ->)%andb_true_iff & ->)%andb_true_iff t e -> He.
    cbn [mbind result_bind bind_text]. rewrite He. reflexivity.
  - intros (((-> & ->)%andb_true_iff & ->)%andb_true_iff & ->)%andb_true_iff Henc.
    cbn [mbind result_bind].
    assert (Hc : bind_text comment = Ok comment).
    { destruct comment as [t|]; [|reflexivity].
      destruct (Henc t eq_refl) as [b Hb]. cbn. rewrite Hb. reflexivity. }
    rewrite Hc. cbn [mbind result_bind].
    destruct (next_rowid_fresh seq (db_payments d)) as [Hseq Hfresh].
    split; intros ->; [reflexivity|].
    eexists. split; [reflexivity|]. cbn [db_payments db_users].
    split; [exact Hseq|]. split; [exact Hfresh|].
    split; [apply lookup_insert_eq|].
    split; [|reflexivity]. intros j Hj. apply lookup_insert_ne. congruence.
Qed.

(** A pending payment of the user stored under a key above all others is
    the one confirm_last_payment selects. *)
Lemma confirm_last_payment_inserted (uid pid : Z) (r : payments.row) (d : db) :
  payments.user_id r = uid ->
  payments.status r = py "pending" ->
  (forall j, is_Some (db_payments d !! j) -> j < pid) ->
  int64 uid = true -> int64 pid = true -> int64 (payments.days r) = true ->
  exists d',
    add_days uid (payments.days r) d = Ok d'
    /\ confirm_last_payment uid {| db_users := db_users d;
                                   db_payments := <[pid := r]> (db_payments d) |}
       = Ok ({| db_users := db_users d';
                db_payments :=
                  <[pid := payments.with_status (py "paid") r]> (db_payments d) |},
             true).
Proof.
  intros Huid Hstatus Hfresh Hu Hpid Hdays.
  set (d1 := {| db_users := db_users d; db_payments := <[pid := r]> (db_payments d) |}).
  pose proof (select_last_pending uid (db_payments d1)) as Hsel.
  unfold confirm_last_payment, add_days. bound.
  eexists. split; [reflexivity|].
  destruct (first_desc _) as [[pid' p']|].
  - destruct Hsel as (Hp & _ & _ & Hmax).
    assert (Hle : pid <= pid').
    { apply (Hmax pid r); [apply lookup_insert_eq | exact Huid | exact Hstatus]. }
    assert (pid' = pid) as ->.
    { destruct (decide (pid' = pid)) as [|Hne]; [assumption|]. exfalso.
      cbn in Hp. rewrite lookup_insert_ne in Hp by congruence.
      specialize (Hfresh pid' (mk_is_Some _ _ Hp)). lia. }
    cbn in Hp. rewrite lookup_insert_eq in Hp. injection Hp as <-.
    cbn [fst snd]. bound. f_equal. f_equal. cbn. f_equal.
    unfold mark_paid. rewrite alter_insert_eq. reflexivity.
  - exfalso. apply (Hsel pid r); [apply lookup_insert_eq | exact Huid | exact Hstatus].
Qed.

(** X8: confirming right after a create_payment that returned confirms the
    payment just created: it becomes paid and the users are those add_days
    with its days gives on the store before. *)
Theorem confirm_after_create
        (now : str) (uid days seats amount : Z) (comment : option str) (d d1 : db)
        (seq seq1 pid : Z) :
  create_payment now uid days seats amount comment d seq = Ok (d1, seq1, pid) ->
  exists d',
    add_days uid days d = Ok d'
    /\ confirm_last_payment uid d1
       = Ok ({| db_users := db_users d';
                db_payments :=
                  <[pid := {| payments.user_id := uid;
                              payments.days := days;
                              payments.seats := seats;
                              payments.amount := amount;
                              payments.status := py "paid";
                              payments.comment := comment;
                              payments.created_at := Some now |}]> (db_payments d) |},
             true).
Proof.
  intros (Hu & Hd & _ & _ & Hpid & -> & _ & ->)%create_payment_Ok.
  apply (confirm_last_payment_inserted
           uid _ {| payments.user_id := uid; payments.days := days |} d);
    [reflexivity | reflexivity | apply next_rowid_fresh | exact Hu | exact Hpid | exact Hd].
Qed.

(** X9: a user without a row can have a payment created and confirmed: the
    payment ends up paid, the answer is True, and no balance is credited. *)
Theorem confirm_after_create_without_row
        (now : str) (uid days seats amount : Z) (comment : option str) (d d1 : db)
        (seq seq1 pid : Z) :
  db_users d !! uid = None ->
  create_payment now uid days seats amount comment d seq = Ok (d1, seq1, pid) ->
  exists d2,
    confirm_last_payment uid d1 = Ok (d2, true)
    /\ payments.status <$> db_payments d2 !! pid = Some (py "paid")
    /\ db_users d2 = db_users d.
Proof.
  intros Hrow (Hu & Hd & _ & _ & Hpid & -> & _ & ->)%create_payment_Ok.
  destruct (confirm_last_payment_inserted
              uid (next_rowid seq (db_payments d))
              {| payments.user_id := uid; payments.days := days;
                 payments.seats := seats; payments.amount := amount;
                 payments.status := py "pending"; payments.comment := comment;
                 payments.created_at := Some now |} d)
    as (d' & Hadd & Hconfirm);
    [reflexivity | reflexivity | apply next_rowid_fresh | exact Hu | exact Hpid | exact Hd |].
  rewrite Hconfirm. eexists. split; [reflexivity|]. split.
  - cbn [db_payments]. rewrite lookup_insert_eq. reflexivity.
  - cbn [db_users payments.days] in *. unfold add_days in Hadd. revert Hadd. bound.
    rewrite update_days_left_without_row by exact Hrow. intros [= <-]. reflexivity.
Qed.

Lemma NoDup_fst_filter {A} (P : Z * A -> Prop) `{!forall x, Decision (P x)}
      (l : list (Z * A)) :
  NoDup l.*1 -> NoDup (filter P l).*1.
Proof.
  intros Hnd. eapply sublist_NoDup; [exact Hnd|].
  apply fmap_sublist, sublist_filter.
Qed.

(** X10: list_payments gives at most 50 items, all of them payments of the user,
    by strictly decreasing payment_id; a payment of the user that is left
    out is older than each of the 50 listed. *)
Theorem list_payments_newest_50 (uid : Z) (d : db) :
  (length (list_payments uid d) <= 50)%nat
  /\ StronglySorted (fun a b => item.payment_id b < item.payment_id a) (list_payments uid d)
  /\ (forall i, i ∈ list_payments uid d ->
        exists p, db_payments d !! item.payment_id i = Some p
                  /\ payments.user_id p = uid /\ i = item_of (item.payment_id i, p))
  /\ (forall pid p, db_payments d !! pid = Some p -> payments.user_id p = uid ->
        item_of (pid, p) ∉ list_payments uid d ->
        length (list_payments uid d) = 50%nat
        /\ forall i, i ∈ list_payments uid d -> pid < item.payment_id i).
Proof.
  unfold list_payments.
  set (rows := filter _ (map_to_list (db_payments d))).
  assert (Hnd : NoDup rows.*1) by apply NoDup_fst_filter, NoDup_fst_map_to_list.
  pose proof (order_desc_sorted rows Hnd) as Hs.
  pose proof (order_desc_perm rows) as Hp.
  assert (Hrows : forall kp, kp ∈ order_desc rows <->
            db_payments d !! kp.1 = Some kp.2 /\ payments.user_id kp.2 = uid).
  { intros [k p]. rewrite Hp. unfold rows.
    rewrite list_elem_of_filter, elem_of_map_to_list. cbn. tauto. }
  rewrite <- (take_drop 50 (order_desc rows)) in Hs.
  apply StronglySorted_app in Hs as (Hcross & Hs1 & _).
  split; [rewrite length_fmap, length_take; lia|].
  split; [eapply StronglySorted_fmap; [|exact Hs1]; cbn; auto|].
  split.
  - intros i (kp & -> & Hkp)%list_elem_of_fmap.
    apply subseteq_take in Hkp. apply Hrows in Hkp as [Hl Hu].
    exists kp.2. cbn. destruct kp; auto.
  - intros pid p Hl Hu Hout.
    assert (Hin : (pid, p) ∈ order_desc rows) by (apply Hrows; auto).
    rewrite <- (take_drop 50 (order_desc rows)) in Hin.
    apply elem_of_app in Hin as [Hin | Hin].
    { exfalso. apply Hout. apply list_elem_of_fmap. exists (pid, p). auto. }
    split.
    + rewrite length_fmap, length_take.
      destruct (decide (50 <= length (order_desc rows))%nat) as [|Hlt]; [lia|].
      rewrite drop_ge in Hin by lia. by apply elem_of_nil in Hin.
    + intros i (kp & -> & Hkp)%list_elem_of_fmap. cbn.
      exact (Hcross kp (pid, p) Hkp Hin).
Qed.

(** X11: after a create_payment that returned, the payment just created is
    the first item of the user's list, before the first 49 of the list as it
    was. *)
Theorem list_payments_after_create
        (now : str) (uid days seats amount : Z) (comment : option str) (d d1 : db)
        (seq seq1 pid : Z) :
  create_payment now uid days seats amount comment d seq = Ok (d1, seq1, pid) ->
  list_payments uid d1
  = {| item.payment_id := pid;
       item.days := days;
       item.seats := seats;
       item.amount := amount;
       item.status := py "pending";
       item.created_at := Some now |} :: take 49 (list_payments uid d).
Proof.
  intros (_ & _ & _ & _ & _ & -> & _ & ->)%create_payment_Ok.
  destruct (next_rowid_fresh seq (db_payments d)) as [_ Hfresh].
  set (pid := next_rowid seq (db_payments d)) in *.
  set (r := {| payments.user_id := uid; payments.days := days |}).
  assert (Hnone : db_payments d !! pid = None).
  { destruct (db_payments d !! pid) eqn:E; [|reflexivity].
    specialize (Hfresh pid (mk_is_Some _ _ E)). lia. }
  unfold list_payments. cbn [db_payments].
  set (P := fun kp : Z * payments.row => payments.user_id kp.2 = uid).
  assert (Hperm : filter P (map_to_list (<[pid := r]> (db_payments d)))
                  ≡ₚ (pid, r) :: filter P (map_to_list (db_payments d))).
  { rewrite (map_to_list_insert _ _ _ Hnone), filter_cons.
    destruct (decide (P (pid, r))) as [|Hn]; [done|]. destruct Hn. reflexivity. }
  rewrite (order_desc_unique _ _ Hperm)
    by apply NoDup_fst_filter, NoDup_fst_map_to_list.
  rewrite order_desc_cons_greatest.
  - cbn. f_equal. rewrite <- fmap_take. rewrite take_take. reflexivity.
  - intros [k p] [_ Hk%elem_of_map_to_list]%list_elem_of_filter. cbn.
    apply Hfresh. eauto.
Qed.

(** ** get_or_create_user and ensure_admin together *)



(** ** The routes *)

Section RouteProperties.

Variable BOT_TOKEN : str.
Variable json_loads : str -> result json.
Variable int_of_str : str -> result Z.
Variable isdigit : str -> bool.
Variable like : str -> option str -> result bool.

Abbreviation caller := (routes.caller BOT_TOKEN json_loads int_of_str).
Abbreviation admin := (routes.admin BOT_TOKEN json_loads int_of_str).

Lemma caller_verify_Raise (x_init : str) (e : exn) :
  verify_init_data BOT_TOKEN json_loads x_init = Raise e -> caller x_init = Raise e.
Proof. intros H. unfold routes.caller. rewrite H. reflexivity. Qed.

Lemma bind_Raise {A B} (r : result A) (k : A -> result B) (e : exn) :
  r = Raise e -> r ≫= k = Raise e.
Proof. intros ->. reflexivity. Qed.

(** X14: every route that reads the header fails as verify_init_data fails, with
    401 "no initData" on the empty default header in particular; nothing is
    written in that case since a failed route returns no store. *)
Theorem routes_fail_as_verify (x_init : str) (e : exn) :
  verify_init_data BOT_TOKEN json_loads x_init = Raise e ->
  (forall days seats, routes.calc BOT_TOKEN json_loads days seats x_init = Raise e)
  /\ (forall now days seats comment d seq,
        routes.payment_create BOT_TOKEN json_loads int_of_str
          now days seats comment x_init d seq = Raise e)
  /\ (forall d, routes.payments BOT_TOKEN json_loads int_of_str x_init d = Raise e)
  /\ (forall username comment d,
        routes.profile BOT_TOKEN json_loads int_of_str username comment x_init d = Raise e)
  /\ (forall d, admin x_init d = Raise e).
Proof.
  intros Hv. pose proof (caller_verify_Raise _ _ Hv) as Hc.
  repeat split; intros.
  - unfold routes.calc. rewrite Hv. reflexivity.
  - unfold routes.payment_create. rewrite Hc. reflexivity.
  - unfold routes.payments. rewrite Hc. reflexivity.
  - unfold routes.profile. rewrite Hc. reflexivity.
  - unfold routes.admin. rewrite Hc. reflexivity.
Qed.

(** X15: the administrator check of the routes passes exactly for a verified
    caller who has a row and is_admin = 1 there or is a bootstrap identity;
    when it fails, each administrator route fails with the same exception and
    returns no store. *)
Theorem admin_routes_gate (x_init : str) (d : db) :
  (admin x_init d = Ok tt <->
   exists uid row, caller x_init = Ok uid /\ db_users d !! uid = Some row
                   /\ (users.is_admin row = 1 \/ uid ∈ bootstrap_admins))
  /\ forall e, admin x_init d = Raise e ->
       (forall user_id days,
          routes.admin_add BOT_TOKEN json_loads int_of_str user_id days x_init d = Raise e
          /\ routes.admin_sub BOT_TOKEN json_loads int_of_str user_id days x_init d = Raise e
          /\ routes.admin_set BOT_TOKEN json_loads int_of_str user_id days x_init d = Raise e)
       /\ (forall user_id,
             routes.admin_confirm BOT_TOKEN json_loads int_of_str user_id x_init d = Raise e)
       /\ routes.admin_export BOT_TOKEN json_loads int_of_str x_init d = Raise e
       /\ (forall q,
             routes.admin_users BOT_TOKEN json_loads int_of_str isdigit like q x_init d
             = Raise e).
Proof.
  split.
  - unfold routes.admin, ensure_admin, get_user.
    destruct (caller x_init) as [uid|e]; cbn [mbind result_bind].
    + destruct (db_users d !! uid) as [row|] eqn:Hrow.
      * destruct (Z.eqb_spec (users.is_admin row) 1) as [H1|H1]; cbn [orb].
        -- split; [|reflexivity]. intros _. exists uid, row. auto.
        -- case_bool_decide as Hin; split; try reflexivity; try discriminate.
           ++ intros _. exists uid, row. auto.
           ++ intros (uid' & row' & [= <-] & Hr & Hor). rewrite Hrow in Hr.
              injection Hr as <-. tauto.
      * split; [discriminate|]. intros (uid' & row' & [= <-] & Hr & _).
        rewrite Hrow in Hr. discriminate.
    + split; [discriminate|]. intros (uid' & row' & H & _). discriminate.
  - intros e He. repeat split; intros;
      unfold routes.admin_add, routes.admin_sub, routes.admin_set, routes.admin_confirm,
        routes.admin_export, routes.admin_users;
      apply bind_Raise; exact He.
Qed.

(** X16: a successful administrator route did pass the check and applied exactly
    its one store operation, which succeeded. *)
Theorem admin_routes_apply (x_init : str) (d d' : db) (user_id days : Z) :
  (routes.admin_add BOT_TOKEN json_loads int_of_str user_id days x_init d = Ok d' ->
   admin x_init d = Ok tt /\ add_days user_id days d = Ok d')
  /\ (routes.admin_sub BOT_TOKEN json_loads int_of_str user_id days x_init d = Ok d' ->
      admin x_init d = Ok tt /\ sub_days user_id days d = Ok d')
  /\ (routes.admin_set BOT_TOKEN json_loads int_of_str user_id days x_init d = Ok d' ->
      admin x_init d = Ok tt /\ set_days user_id days d = Ok d')
  /\ (forall ok,
        routes.admin_confirm BOT_TOKEN json_loads int_of_str user_id x_init d = Ok (d', ok) ->
        admin x_init d = Ok tt /\ confirm_last_payment user_id d = Ok (d', ok)).
Proof.
  unfold routes.admin_add, routes.admin_sub, routes.admin_set, routes.admin_confirm.
  destruct (admin x_init d) as [[]|e]; cbn [mbind result_bind];
    repeat split; try discriminate; congruence.
Qed.

(** X17: payment_create stores the amount calc_amount gives for the days and
    seats of the request, as a pending payment of the verified caller under a
    new payment_id; it makes no row for the caller and changes no other
    payment. *)
Theorem payment_create_records_amount
        (now : str) (days seats : Z) (comment : option str) (x_init : str)
        (d d' : db) (seq seq' pid amount : Z) :
  routes.payment_create BOT_TOKEN json_loads int_of_str now days seats comment x_init d seq
    = Ok (d', seq', pid, amount) ->
  exists uid,
    caller x_init = Ok uid
    /\ calc_amount days seats = Ok amount
    /\ db_payments d !! pid = None
    /\ db_payments d' !! pid =
         Some {| payments.user_id := uid;
                 payments.days := days;
                 payments.seats := seats;
                 payments.amount := amount;
                 payments.status := py "pending";
                 payments.comment := comment;
                 payments.created_at := Some now |}
    /\ (forall j, j <> pid -> db_payments d' !! j = db_payments d !! j)
    /\ db_users d' = db_users d.
Proof.
  unfold routes.payment_create.
  destruct (caller x_init) as [uid|e]; cbn [mbind result_bind]; [|discriminate].
  destruct (calc_amount days seats) as [a|e]; cbn [mbind result_bind]; [|discriminate].
  intros ([[d1 seq1] pid1] & Hcreate & Hret)%bind_Ok. injection Hret as <- <- <- <-.
  apply create_payment_Ok in Hcreate as (_ & _ & _ & _ & _ & -> & _ & ->).
  destruct (next_rowid_fresh seq (db_payments d)) as [_ Hfresh].
  exists uid. cbn [db_payments db_users].
  split; [reflexivity|]. split; [reflexivity|]. split; [|split; [|split]].
  - destruct (db_payments d !! next_rowid seq (db_payments d)) eqn:E; [|reflexivity].
    specialize (Hfresh _ (mk_is_Some _ _ E)). lia.
  - apply lookup_insert_eq.
  - intros j Hj. apply lookup_insert_ne. congruence.
  - reflexivity.
Qed.

(** X18: a purchase by a verified caller followed by an administrator's
    confirmation for that caller pays the new payment and leaves the users
    add_days with the purchased days gives on the store before the
    purchase. *)
Theorem purchase_then_confirm
        (now : str) (days seats : Z) (comment : option str) (x_user x_admin : str)
        (d d1 : db) (seq seq1 pid amount uid : Z) :
  caller x_user = Ok uid ->
  routes.payment_create BOT_TOKEN json_loads int_of_str now days seats comment x_user d seq
    = Ok (d1, seq1, pid, amount) ->
  admin x_admin d1 = Ok tt ->
  exists d2 d3,
    routes.admin_confirm BOT_TOKEN json_loads int_of_str uid x_admin d1 = Ok (d2, true)
    /\ payments.status <$> db_payments d2 !! pid = Some (py "paid")
    /\ add_days uid days d = Ok d3
    /\ db_users d2 = db_users d3.
Proof.
  intros Hc Hp Ha. unfold routes.payment_create in Hp. rewrite Hc in Hp.
  cbn [mbind result_bind] in Hp.
  destruct (calc_amount days seats) as [a|e]; cbn [mbind result_bind] in Hp; [|discriminate].
  apply bind_Ok in Hp as ([[d1' seq1'] pid1] & Hcreate & Hret).
  injection Hret as <- <- <- <-.
  unfold routes.admin_confirm. rewrite Ha. cbn [mbind result_bind].
  apply create_payment_Ok in Hcreate as (Hu & Hd & _ & _ & Hpid & -> & _ & ->).
  destruct (confirm_last_payment_inserted
              uid (next_rowid seq (db_payments d))
              {| payments.user_id := uid; payments.days := days;
                 payments.seats := seats; payments.amount := a;
                 payments.status := py "pending"; payments.comment := comment;
                 payments.created_at := Some now |} d)
    as (d3 & Hadd & Hconfirm);
    [reflexivity | reflexivity | apply next_rowid_fresh | exact Hu | exact Hpid | exact Hd |].
  rewrite Hconfirm. eexists _, d3. split; [reflexivity|]. cbn [db_payments db_users].
  rewrite lookup_insert_eq. split; [reflexivity|]. split; [exact Hadd | reflexivity].
Qed.

(** The store a profile update that returns leaves. *)
Lemma update_profile_Ok (username comment : option str) (uid : Z) (d d' : db) :
  update_profile username comment uid d = Ok d' ->
  db_payments d' = db_payments d
  /\ db_users d'
     = alter (fun r =>
                {| users.username :=
                     match username with Some _ => username | None => users.username r end;
                   users.days_left := users.days_left r;
                   users.reminder_sent3 := users.reminder_sent3 r;
                   users.user_comment := comment;
                   users.seats_default := users.seats_default r;
                   users.expired_since := users.expired_since r;
                   users.is_admin := users.is_admin r;
                   users.created_at := users.created_at r;
                   users.updated_at := users.updated_at r |}) uid (db_users d).
Proof.
  unfold update_profile.
  intros (u & ->%bind_text_inv & (c & ->%bind_text_inv & (i & [-> _]%bind_int_inv & H)%bind_Ok)
            %bind_Ok)%bind_Ok.
  injection H as <-. split; reflexivity.
Qed.

(** X19: the profile route writes the caller's own username and comment only: a
    missing username keeps the stored one, the comment is replaced even by
    NULL, and days_left, is_admin, every other row and the payments stay. *)
Theorem profile_writes_own_text
        (username comment : option str) (x_init : str) (d d' : db) :
  routes.profile BOT_TOKEN json_loads int_of_str username comment x_init d = Ok d' ->
  exists uid,
    caller x_init = Ok uid
    /\ db_payments d' = db_payments d
    /\ (forall uid', uid' <> uid -> db_users d' !! uid' = db_users d !! uid')
    /\ (db_users d !! uid = None -> d' = d)
    /\ forall row, db_users d !! uid = Some row ->
         exists row', db_users d' !! uid = Some row'
           /\ users.username row'
              = match username with Some _ => username | None => users.username row end
           /\ users.user_comment row' = comment
           /\ users.days_left row' = users.days_left row
           /\ users.is_admin row' = users.is_admin row.
Proof.
  unfold routes.profile.
  destruct (caller x_init) as [uid|e]; cbn [mbind result_bind]; [|discriminate].
  intros [Hpay Husers]%update_profile_Ok. exists uid. rewrite Husers.
  split; [reflexivity|]. split; [exact Hpay|]. split; [|split].
  - intros uid' Hne. apply lookup_alter_ne. congruence.
  - intros Hnone. apply db_eq; [|exact Hpay]. rewrite Husers.
    apply alter_missing. exact Hnone.
  - intros row Hrow. rewrite lookup_alter_eq, Hrow. eexists. repeat split.
Qed.

End RouteProperties.

(** ** export_users_csv *)

Lemma split_no_sep (sep : N) (cur s : str) :
  sep ∉ s -> Urllib.split sep cur s = [rev cur ++ s].
Proof.
  revert cur. induction s as [|c s IH]; intros cur Hs; cbn.
  - rewrite app_nil_r. reflexivity.
  - rewrite not_elem_of_cons in Hs. destruct Hs as [Hc Hs].
    destruct (N.eqb_spec c sep) as [->|_]; [done|].
    rewrite IH by exact Hs. cbn. rewrite <- app_assoc. reflexivity.
Qed.

Lemma split_app_no_sep (sep : N) (cur a b : str) :
  sep ∉ a ->
  Urllib.split sep cur (a ++ sep :: b) = (rev cur ++ a) :: Urllib.split sep [] b.
Proof.
  revert cur. induction a as [|c a IH]; intros cur Ha; cbn.
  - rewrite N.eqb_refl, app_nil_r. reflexivity.
  - rewrite not_elem_of_cons in Ha. destruct Ha as [Hc Ha].
    destruct (N.eqb_spec c sep) as [->|_]; [done|].
    rewrite IH by exact Ha. cbn. rewrite <- app_assoc. reflexivity.
Qed.

(** Splitting at the separator undoes join when no part holds it. *)
Lemma split_join (sep : N) (parts : list str) :
  parts <> [] -> Forall (fun p => sep ∉ p) parts ->
  Urllib.split sep [] (join [sep] parts) = parts.
Proof.
  induction parts as [|p parts IH]; [done|]. intros _ Hall.
  apply Forall_cons in Hall as [Hp Hall].
  destruct parts as [|p' parts].
  - cbn. apply (split_no_sep sep [] p Hp).
  - change (join [sep] (p :: p' :: parts)) with (p ++ sep :: join [sep] (p' :: parts)).
    rewrite split_app_no_sep by exact Hp. cbn [rev app]. f_equal.
    apply IH; [done | exact Hall].
Qed.

Lemma string_of_uint_chars (c : N) (u : Decimal.uint) :
  c ∈ py (NilEmpty.string_of_uint u) -> (48 <= c <= 57)%N.
Proof.
  induction u; cbn; intros H; try (by apply elem_of_nil in H);
    apply elem_of_cons in H as [-> | H]; try lia; auto.
Qed.

(** str(n) is made of digits and `-`. *)
Lemma str_of_int_chars (c : N) (n : Z) : c ∈ str_of_int n -> c = 45%N \/ (48 <= c <= 57)%N.
Proof.
  unfold str_of_int, NilZero.string_of_int, NilZero.string_of_uint.
  destruct (Z.to_int n) as [u|u].
  - destruct u; cbn -[NilEmpty.string_of_uint];
      try (intros H; right; eapply string_of_uint_chars; exact H).
    intros [-> | H]%elem_of_cons; [right; lia | by apply elem_of_nil in H].
  - destruct u; cbn -[NilEmpty.string_of_uint];
      intros [-> | H]%elem_of_cons; auto;
      try (right; eapply string_of_uint_chars; exact H).
    apply elem_of_cons in H as [-> | H]; [right; lia | by apply elem_of_nil in H].
Qed.

(** The text of a float holds no comma and no newline. *)
Lemma Forall_rstrip0 (P : N -> Prop) (l : str) : Forall P l -> Forall P (Repr.rstrip0 l).
Proof.
  induction 1 as [|c l Hc Hl IH]; cbn; [constructor|].
  destruct (c =? 48)%N; [exact IH | constructor; assumption].
Qed.

Lemma of_float_chars (x : spec_float) :
  Forall (fun c => c <> 44%N /\ c <> 10%N) (Repr.of_float x).
Proof.
  set (P := fun c : N => c <> 44%N /\ c <> 10%N).
  assert (Hlit : forall s : str, forallb (fun c => negb (c =? 44)%N && negb (c =? 10)%N) s = true ->
                                 Forall P s).
  { intros s H. apply Forall_forall. intros c Hc%list_elem_of_In.
    rewrite forallb_forall in H. specialize (H c Hc).
    apply andb_true_iff in H as [H1%negb_true_iff%N.eqb_neq H2%negb_true_iff%N.eqb_neq].
    split; assumption. }
  assert (Hint : forall n, Forall P (str_of_int n)).
  { intros n. apply Forall_forall. intros c [-> | H]%str_of_int_chars; split; (discriminate || lia). }
  assert (Hzeros : forall n, Forall P (Repr.zeros n)).
  { intros n. apply Forall_replicate. split; discriminate. }
  destruct x as [[]|[]| |s m e]; try (apply Hlit; reflexivity).
  unfold Repr.of_float. apply Forall_app_2; [destruct s; [apply Hlit; reflexivity | constructor]|].
  unfold Repr.of_finite.
  destruct (Repr.shortest _ _ _ _ _ _) as [[c k]|]; [|constructor].
  cbv zeta.
  assert (Hds : Forall P (rev (Repr.rstrip0 (rev (str_of_int c))))).
  { apply Forall_rev, Forall_rstrip0, Forall_rev, Hint. }
  set (ds := rev (Repr.rstrip0 (rev (str_of_int c)))) in *.
  repeat match goal with
         | |- Forall P (if ?b then _ else _) => destruct b
         | |- Forall P (match ?l with [] => _ | _ :: _ => _ end) => destruct l eqn:?
         | |- Forall P (_ ++ _) => apply Forall_app_2
         | |- Forall P (take _ _) => apply Forall_take
         | |- Forall P (drop _ _) => apply Forall_drop
         | |- Forall P (py _) => apply Hlit; reflexivity
         | |- Forall P [] => constructor
         | |- Forall P (str_of_int _) => apply Hint
         | |- Forall P (Repr.zeros _) => apply Hzeros
         | |- Forall P ds => exact Hds
         end.
  match goal with H : drop 1 ds = _ |- _ => rewrite <- H end.
  apply Forall_drop, Hds.
Qed.

Lemma str_of_value_chars (c : N) (v : value) :
  c ∈ str_of_value v -> c <> 44%N /\ c <> 10%N.
Proof.
  destruct v as [z|x]; cbn.
  - intros [-> | H]%str_of_int_chars; split; (discriminate || lia).
  - revert c. apply Forall_forall, of_float_chars.
Qed.

Lemma replace_commas_no_comma (s : str) : 44%N ∉ replace_commas s.
Proof.
  unfold replace_commas. intros (c & Hc & _)%list_elem_of_In%in_map_iff.
  destruct (N.eqb_spec c 44); [discriminate | congruence].
Qed.

Lemma replace_commas_newline (s : str) : 10%N ∈ replace_commas s -> 10%N ∈ s.
Proof.
  unfold replace_commas. intros (c & Hc & Hin)%list_elem_of_In%in_map_iff.
  destruct (N.eqb_spec c 44); [discriminate|]. subst. by apply list_elem_of_In.
Qed.

Lemma csv_line_fields (kp : Z * users.row) :
  Urllib.split 44 [] (csv_line kp) = csv_fields kp.
Proof.
  unfold csv_line, csv_fields.
  change (?a ++ py "," ++ ?b ++ py "," ++ ?c) with (join [44%N] [a; b; c]).
  apply split_join; [done|]. repeat constructor.
  - intros [H | H]%str_of_int_chars; [discriminate | lia].
  - apply replace_commas_no_comma.
  - intros [H _]%str_of_value_chars. congruence.
Qed.

(** X20: read back by splitting at newlines and commas, the export is the header
    followed by one record of exactly three fields per user, by strictly
    increasing user_id, provided no username holds a newline (commas in a
    username were replaced, newlines are not); the balance is written as str
    writes an int or, for a REAL balance, a float. *)
Theorem export_users_csv_read_back (d : db) :
  (forall uid row name, db_users d !! uid = Some row ->
                        users.username row = Some name -> 10%N ∉ name) ->
  let rows := order_asc (map_to_list (db_users d)) in
  map (Urllib.split 44 []) (Urllib.split 10 [] (export_users_csv d))
    = [py "user_id"; py "username"; py "days_left"] :: map csv_fields rows
  /\ rows ≡ₚ map_to_list (db_users d)
  /\ StronglySorted (fun a b => a.1 < b.1) rows.
Proof.
  intros Hnl rows. split; [|split].
  - unfold export_users_csv. fold rows. rewrite split_join.
    + cbn [map]. f_equal. rewrite map_map. apply map_ext. apply csv_line_fields.
    + done.
    + constructor; [apply (bool_decide_unpack (10%N ∉ csv_header)); vm_compute; exact I|].
      apply Forall_forall. intros line (kp & <- & Hkp)%list_elem_of_In%in_map_iff.
      apply list_elem_of_In in Hkp. unfold rows in Hkp. rewrite order_asc_perm in Hkp.
      destruct kp as [uid row]. apply elem_of_map_to_list in Hkp.
      unfold csv_line. cbn [fst snd]. rewrite !elem_of_app.
      intros [H | [H | [H | [H | H]]]].
      * apply str_of_int_chars in H as [H | H]; [discriminate | lia].
      * apply list_elem_of_In in H. destruct H as [H | []]. discriminate.
      * apply replace_commas_newline in H.
        destruct (users.username row) as [name|] eqn:En; [|by apply elem_of_nil in H].
        exact (Hnl uid row name Hkp En H).
      * apply list_elem_of_In in H. destruct H as [H | []]. discriminate.
      * apply str_of_value_chars in H as [_ H]. congruence.
  - apply order_asc_perm.
  - apply order_asc_sorted, NoDup_fst_map_to_list.
Qed.

(** ** search_users *)

Section SearchProperties.

Variable isdigit : str -> bool.
Variable int_of_str : str -> result Z.
Variable like : str -> option str -> result bool.

Abbreviation search := (search_users isdigit int_of_str like).

Lemma limit_of_nonneg (n : Z) : 0 <= n -> limit_of n = Some (Z.to_nat n).
Proof. intros H. unfold limit_of. destruct (Z.ltb_spec n 0); [lia | reflexivity]. Qed.

(** X21: without a query (None or the empty string) search_users gives the users
    by strictly decreasing user_id, cut after limit rows for a limit that is
    not negative and whole for a negative one; a user left out has a
    smaller user_id than each one given. str.isdigit, int() and LIKE play no
    part. *)
Theorem search_users_no_query (limit : Z) (d : db) :
  exists res,
    search None limit d = Ok res /\ search (Some []) limit d = Ok res
    /\ StronglySorted (fun a b => b.1 < a.1) res
    /\ (forall kp, kp ∈ res -> db_users d !! kp.1 = Some kp.2)
    /\ length res = (if limit <? 0 then size (db_users d)
                     else Nat.min (Z.to_nat limit) (size (db_users d)))
    /\ (forall uid row, db_users d !! uid = Some row -> (uid, row) ∉ res ->
          forall kp, kp ∈ res -> uid < kp.1).
Proof.
  unfold search_users.
  set (all := order_desc (map_to_list (db_users d))).
  pose proof (order_desc_sorted _ (NoDup_fst_map_to_list (db_users d))) as Hs.
  pose proof (order_desc_perm (map_to_list (db_users d))) as Hp.
  fold all in Hs, Hp.
  assert (Hlen : length all = size (db_users d)).
  { rewrite Hp. apply length_map_to_list. }
  assert (Hin : forall kp, kp ∈ all <-> db_users d !! kp.1 = Some kp.2).
  { intros [k r]. rewrite Hp. apply elem_of_map_to_list. }
  eexists. split; [reflexivity|]. split; [reflexivity|].
  unfold limit_of. destruct (Z.ltb_spec limit 0) as [Hneg|Hpos].
  - split; [exact Hs|]. split; [intros kp; apply Hin|]. split; [exact Hlen|].
    intros uid row Hrow Hout. destruct Hout. apply Hin. exact Hrow.
  - rewrite <- (take_drop (Z.to_nat limit) all) in Hs.
    apply StronglySorted_app in Hs as (Hcross & Hs1 & _).
    split; [exact Hs1|].
    split; [intros kp Hkp%subseteq_take; apply Hin, Hkp|].
    split; [rewrite length_take, Hlen; reflexivity|].
    intros uid row Hrow Hout kp Hkp.
    assert (Hall : (uid, row) ∈ all) by (apply Hin; exact Hrow).
    rewrite <- (take_drop (Z.to_nat limit) all) in Hall.
    apply elem_of_app in Hall as [Hall | Hall]; [contradiction|].
    exact (Hcross kp (uid, row) Hkp Hall).
Qed.

Lemma StronglySorted_sublist {A} (R : relation A) (l1 l2 : list A) :
  l1 `sublist_of` l2 -> StronglySorted R l2 -> StronglySorted R l1.
Proof.
  induction 1 as [|x l1 l2 Hsub IH|x l1 l2 Hsub IH]; intros Hs; [constructor| |].
  - apply StronglySorted_inv in Hs as [Hs Hx]. constructor; [auto|].
    eapply Forall_forall. intros y Hy. eapply Forall_forall in Hx; [exact Hx|].
    eapply elem_of_sublist; eassumption.
  - apply StronglySorted_inv in Hs as [Hs _]. auto.
Qed.

Lemma select_like_spec (pattern : str) (n : option nat) (rows res : list (Z * users.row)) :
  select_like like pattern n rows = Ok res ->
  res `sublist_of` rows
  /\ Forall (fun kp => like pattern (users.username kp.2) = Ok true) res
  /\ forall k, n = Some k -> (length res <= k)%nat.
Proof.
  revert n res. induction rows as [|kp rows IH]; intros n res; cbn [select_like].
  - intros [= <-]. split; [apply sublist_nil_l|]. split; [constructor|]. intros; cbn; lia.
  - destruct (limit_reached n) eqn:Hn.
    { intros [= <-]. split; [apply sublist_nil_l|]. split; [constructor|].
      intros; cbn; lia. }
    destruct (like pattern (users.username kp.2)) as [[]|e] eqn:Hl;
      cbn [mbind result_bind]; [| |discriminate].
    + destruct (select_like like pattern (Nat.pred <$> n) rows) as [rest|e] eqn:Hr;
        cbn [mbind result_bind]; [|discriminate].
      intros [= <-]. destruct (IH _ _ Hr) as (Hsub & Hall & Hlen).
      split; [by apply sublist_skip|]. split; [by constructor|].
      intros k ->. cbn. destruct k as [|k]; [discriminate Hn|].
      specialize (Hlen k eq_refl). lia.
    + intros Hr. destruct (IH _ _ Hr) as (Hsub & Hall & Hlen).
      split; [by apply sublist_cons|]. split; assumption.
Qed.

(** When LIKE raises on no row, the rows given are the matching ones cut
    after the limit. *)
Lemma select_like_total (pattern : str) (n : option nat) (rows : list (Z * users.row)) :
  (forall kp, kp ∈ rows -> exists b, like pattern (users.username kp.2) = Ok b) ->
  select_like like pattern n rows
  = Ok (let found :=
          filter (fun kp => match like pattern (users.username kp.2) with
                            | Ok b => b
                            | Raise _ => false
                            end = true) rows in
        match n with Some k => take k found | None => found end).
Proof.
  revert n. induction rows as [|kp rows IH]; intros n Htot; cbn [select_like].
  - cbv zeta. rewrite filter_nil. destruct n as [k|]; [rewrite take_nil|]; reflexivity.
  - destruct (limit_reached n) eqn:Hn.
    { destruct n as [[|k]|]; try discriminate. reflexivity. }
    destruct (Htot kp ltac:(left)) as [b Hb]. rewrite Hb. cbn [mbind result_bind].
    rewrite filter_cons.
    assert (Htl : forall kq, kq ∈ rows -> exists b, like pattern (users.username kq.2) = Ok b)
      by (intros kq Hq; apply Htot; right; exact Hq).
    destruct b.
    + rewrite decide_True by (rewrite Hb; reflexivity).
      rewrite IH by exact Htl. cbn [mbind result_bind].
      destruct n as [[|k]|]; try discriminate; reflexivity.
    + rewrite decide_False by (rewrite Hb; discriminate). apply IH. exact Htl.
Qed.

(** X22: a text query returns users, by strictly decreasing user_id and no more
    than a non-negative limit, whose username LIKE accepts against
    `%` + query without its leading `@` + `%`; a digit query returns the one
    row with that user_id, or nothing, whatever the limit. *)
Theorem search_users_query (q : str) (limit : Z) (d : db) (res : list (Z * users.row)) :
  q <> [] ->
  search (Some q) limit d = Ok res ->
  (forall kp, kp ∈ res -> db_users d !! kp.1 = Some kp.2)
  /\ StronglySorted (fun a b => b.1 < a.1) res
  /\ (isdigit (lstrip_at q) = true ->
      exists uid, int_of_str (lstrip_at q) = Ok uid
        /\ res = match db_users d !! uid with Some r => [(uid, r)] | None => [] end)
  /\ (isdigit (lstrip_at q) = false ->
      Forall (fun kp => like (py "%" ++ lstrip_at q ++ py "%") (users.username kp.2) = Ok true)
             res
      /\ (0 <= limit -> (length res <= Z.to_nat limit)%nat)).
Proof.
  intros Hq. unfold search_users. destruct q as [|c q]; [done|].
  set (s := lstrip_at (c :: q)).
  destruct (isdigit s).
  - destruct (int_of_str s) as [uid|e]; cbn [mbind result_bind]; [|discriminate].
    unfold bind_int. destruct (int64 uid); cbn [mbind result_bind]; [|discriminate].
    intros [= <-]. repeat split; try discriminate.
    + intros kp. destruct (db_users d !! uid) as [r|] eqn:Hr.
      * intros ->%list_elem_of_singleton. exact Hr.
      * intros H. by apply elem_of_nil in H.
    + destruct (db_users d !! uid); repeat constructor.
    + intros _. exists uid. auto.
  - intros Hsel. apply select_like_spec in Hsel as (Hsub & Hall & Hlen).
    pose proof (order_desc_sorted _ (NoDup_fst_map_to_list (db_users d))) as Hs.
    repeat split; try discriminate; try assumption.
    + intros [k r] Hkp. eapply elem_of_sublist in Hkp; [|exact Hsub].
      rewrite order_desc_perm in Hkp. by apply elem_of_map_to_list.
    + eapply StronglySorted_sublist; eassumption.
    + intros Hl. apply Hlen, limit_of_nonneg, Hl.
Qed.

(** X23: one leading `@` more or less does not change the answer to a query that
    has something after it. *)
Theorem search_users_at_prefix (q : str) (limit : Z) (d : db) :
  q <> [] -> search (Some (64%N :: q)) limit d = search (Some q) limit d.
Proof.
  intros Hq. unfold search_users. destruct q as [|c q]; [done|]. reflexivity.
Qed.

End SearchProperties.

(** ** What every write preserves *)

Lemma payment_evolves_refl (p : payments.row) : payment_evolves p p.
Proof. unfold payment_evolves. tauto. Qed.

Lemma payment_evolves_trans (p1 p2 p3 : payments.row) :
  payment_evolves p1 p2 -> payment_evolves p2 p3 -> payment_evolves p1 p3.
Proof.
  unfold payment_evolves.
  intros (-> & -> & -> & -> & -> & -> & H1) (-> & -> & -> & -> & -> & -> & H2).
  repeat split.
  destruct H1 as [<- | [Hp Hq]]; [exact H2|].
  destruct H2 as [-> | [H2 _]]; [auto|].
  rewrite Hq in H2. discriminate H2.
Qed.

(** The store a balance operation that returns leaves. *)
Lemma days_Ok (uid days : Z) (d d' : db) :
  add_days uid days d = Ok d' \/ sub_days uid days d = Ok d' \/ set_days uid days d = Ok d' ->
  exists f, d' = update_days_left f uid d.
Proof.
  unfold add_days, sub_days, set_days.
  intros [H | [H | H]];
    apply bind_Ok in H as (n & [-> _]%bind_int_inv & H);
    apply bind_Ok in H as (u & [-> _]%bind_int_inv & H);
    injection H as <-; eauto.
Qed.

(** What a confirm_last_payment that returns has done. *)
Lemma confirm_last_payment_Ok (uid : Z) (d d' : db) (ok : bool) :
  confirm_last_payment uid d = Ok (d', ok) ->
  d' = d
  \/ exists pid p f,
       db_payments d !! pid = Some p /\ payments.status p = py "pending"
       /\ d' = update_days_left f uid {| db_users := db_users d;
                                         db_payments := mark_paid pid (db_payments d) |}.
Proof.
  unfold confirm_last_payment.
  intros (u & [-> _]%bind_int_inv & H)%bind_Ok.
  pose proof (select_last_pending uid (db_payments d)) as Hsel.
  destruct (first_desc _) as [[pid p]|]; [|injection H as <- <-; auto].
  destruct Hsel as (Hp & _ & Hs & _). cbn [fst snd] in H.
  apply bind_Ok in H as (i & [-> _]%bind_int_inv & H).
  apply bind_Ok in H as (n & [-> _]%bind_int_inv & H).
  apply bind_Ok in H as (u & [-> _]%bind_int_inv & H).
  injection H as <- <-. right. eauto 10.
Qed.

Lemma run_payment (w : write) (s : db * Z) (pid : Z) (p : payments.row) :
  db_payments s.1 !! pid = Some p ->
  exists p', db_payments (run w s).1 !! pid = Some p' /\ payment_evolves p p'.
Proof.
  intros Hp.
  assert (Hsame : exists p', db_payments s.1 !! pid = Some p' /\ payment_evolves p p')
    by (exists p; split; [exact Hp | apply payment_evolves_refl]).
  assert (Hdays : forall r, (forall d', r = Ok d' -> exists f uid, d' = update_days_left f uid s.1) ->
            exists p', db_payments (committed r s).1 !! pid = Some p' /\ payment_evolves p p').
  { intros [d'|e] H; cbn [committed fst]; [|exact Hsame].
    destruct (H d' eq_refl) as (f & uid & ->). exact Hsame. }
  destruct w; cbn [run fst]; try exact Hsame.
  - apply Hdays. intros d' H. destruct (days_Ok uid days s.1 d') as [f ->]; eauto.
  - apply Hdays. intros d' H. destruct (days_Ok uid days s.1 d') as [f ->]; eauto.
  - apply Hdays. intros d' H. destruct (days_Ok uid days s.1 d') as [f ->]; eauto.
  - (* the profile update *)
    destruct (update_profile _ _ _ _) as [d'|e] eqn:E; cbn [committed fst]; [|exact Hsame].
    apply update_profile_Ok in E as [-> _]. exact Hsame.
  - (* create_payment *)
    destruct (create_payment _ _ _ _ _ _ _ _) as [[[d' seq'] pid']|e] eqn:E; [|exact Hsame].
    apply create_payment_Ok in E as (_ & _ & _ & _ & _ & -> & _ & ->). cbn [fst db_payments].
    destruct (next_rowid_fresh s.2 (db_payments s.1)) as [_ Hfresh].
    exists p. split; [|apply payment_evolves_refl].
    rewrite lookup_insert_ne; [exact Hp|].
    specialize (Hfresh pid (mk_is_Some _ _ Hp)). lia.
  - (* confirm_last_payment *)
    destruct (confirm_last_payment _ _) as [[d' ok]|e] eqn:E; [|exact Hsame].
    apply confirm_last_payment_Ok in E as [-> | (pid' & q & f & Hq & Hs & ->)];
      [exact Hsame|].
    cbn [fst db_payments update_days_left]. unfold mark_paid.
    destruct (decide (pid' = pid)) as [-> | Hne].
    + rewrite lookup_alter_eq, Hp. eexists. split; [reflexivity|].
      rewrite Hp in Hq. injection Hq as <-.
      unfold payment_evolves. cbn. repeat split. right. auto.
    + rewrite lookup_alter_ne by exact Hne.
      exists p. split; [exact Hp | apply payment_evolves_refl].
Qed.

(** X24: whatever the writes, in any number and order, a payment stays in the
    ledger with its user_id, days, seats, amount, comment and created_at, and
    its status stays or goes from `pending` to `paid`: no payment is removed,
    repriced, or set back to pending. *)
Theorem payments_only_get_paid (ws : list write) (s : db * Z) (pid : Z) (p : payments.row) :
  db_payments s.1 !! pid = Some p ->
  exists p', db_payments (foldl (fun s w => run w s) s ws).1 !! pid = Some p'
             /\ payment_evolves p p'.
Proof.
  revert s p. induction ws as [|w ws IH]; intros s p Hp; cbn [foldl].
  - exists p. split; [exact Hp | apply payment_evolves_refl].
  - destruct (run_payment w s pid p Hp) as (p1 & H1 & E1).
    destruct (IH (run w s) p1 H1) as (p2 & H2 & E2).
    exists p2. split; [exact H2 | eapply payment_evolves_trans; eassumption].
Qed.

(** The users a write leaves: those before, or some rows altered by a
    function that keeps is_admin, or the row of get_or_create_user put in. *)
Lemma run_users (w : write) (s : db * Z) :
  (exists (f : users.row -> users.row) k,
     (forall r, users.is_admin (f r) = users.is_admin r)
     /\ db_users (run w s).1 = alter f k (db_users s.1))
  \/ db_users (run w s).1 = db_users s.1
  \/ exists now uid username,
       w = GetOrCreateUser now uid username
       /\ (run w s).1 = get_or_create_user now uid username s.1.
Proof.
  assert (Hdays : forall r uid,
            (forall d', r = Ok d' -> exists f, d' = update_days_left f uid s.1) ->
            (exists (f : users.row -> users.row) k,
               (forall r, users.is_admin (f r) = users.is_admin r)
               /\ db_users (committed r s).1 = alter f k (db_users s.1))
            \/ db_users (committed r s).1 = db_users s.1).
  { intros [d'|e] uid H; cbn [committed fst]; [|auto].
    destruct (H d' eq_refl) as (f & ->). left. eexists _, uid. split; [|reflexivity].
    reflexivity. }
  destruct w; cbn [run fst].
  - right. right. eauto.
  - destruct (Hdays (add_days uid days s.1) uid) as [H | H]; auto.
    intros d' H. apply (days_Ok uid days). auto.
  - destruct (Hdays (sub_days uid days s.1) uid) as [H | H]; auto.
    intros d' H. apply (days_Ok uid days). auto.
  - destruct (Hdays (set_days uid days s.1) uid) as [H | H]; auto.
    intros d' H. apply (days_Ok uid days). auto.
  - destruct (update_profile _ _ _ _) as [d'|e] eqn:E; cbn [committed fst]; [|auto].
    apply update_profile_Ok in E as [_ ->]. left. eexists _, uid. split; [|reflexivity].
    reflexivity.
  - destruct (create_payment _ _ _ _ _ _ _ _) as [[[d' seq'] pid']|e] eqn:E; [|auto].
    apply create_payment_Ok in E as (_ & _ & _ & _ & _ & _ & _ & ->). auto.
  - destruct (confirm_last_payment _ _) as [[d' ok]|e] eqn:E; [|auto].
    apply confirm_last_payment_Ok in E as [-> | (pid' & q & f & _ & _ & ->)]; [auto|].
    left. eexists _, uid. split; [|reflexivity]. reflexivity.
Qed.

Lemma run_user (w : write) (s : db * Z) (uid : Z) (row : users.row) :
  db_users s.1 !! uid = Some row ->
  exists row', db_users (run w s).1 !! uid = Some row'
               /\ users.is_admin row' = users.is_admin row.
Proof.
  intros Hrow.
  destruct (run_users w s) as [(f & k & Hf & ->) | [-> | (now & u & name & -> & ->)]].
  - rewrite lookup_alter. case_decide as E.
    + subst. rewrite Hrow. eexists. split; [reflexivity | apply Hf].
    + eauto.
  - eauto.
  - unfold get_or_create_user. cbn [db_users].
    destruct (decide (u = uid)) as [-> | Hne].
    + rewrite lookup_insert_eq, Hrow. eexists. split; reflexivity.
    + rewrite lookup_insert_ne by exact Hne. eauto.
Qed.

Lemma run_new_user (w : write) (s : db * Z) (uid : Z) (row' : users.row) :
  db_users s.1 !! uid = None ->
  db_users (run w s).1 !! uid = Some row' -> users.is_admin row' = 0.
Proof.
  intros Hnone.
  destruct (run_users w s) as [(f & k & Hf & ->) | [-> | (now & u & name & -> & ->)]].
  - rewrite lookup_alter. case_decide as E; [subst|]; rewrite Hnone; discriminate.
  - rewrite Hnone. discriminate.
  - unfold get_or_create_user. cbn [db_users].
    destruct (decide (u = uid)) as [-> | Hne].
    + rewrite lookup_insert_eq, Hnone. intros [= <-]. reflexivity.
    + rewrite lookup_insert_ne, Hnone by exact Hne. discriminate.
Qed.

(** No write makes the first row with is_admin = 1. *)
Lemma run_no_admin (w : write) (s : db * Z) :
  (forall u row, db_users s.1 !! u = Some row -> users.is_admin row <> 1) ->
  forall u row, db_users (run w s).1 !! u = Some row -> users.is_admin row <> 1.
Proof.
  intros Hno u row' Hrow'. destruct (db_users s.1 !! u) as [row|] eqn:Hrow.
  - destruct (run_user w s u row Hrow) as (r & Hr & E).
    rewrite Hrow' in Hr. injection Hr as <-. rewrite E. exact (Hno u row Hrow).
  - rewrite (run_new_user w s u row' Hrow Hrow'). discriminate.
Qed.

(** X25: no write grants or withdraws the administrator flag, and none removes a
    user: after any writes a user's row is still there with the is_admin it
    had, and a row made on the way has is_admin = 0. *)
Theorem writes_keep_is_admin (ws : list write) (s : db * Z) (uid : Z) :
  let s' := foldl (fun s w => run w s) s ws in
  (forall row, db_users s.1 !! uid = Some row ->
     exists row', db_users s'.1 !! uid = Some row'
                  /\ users.is_admin row' = users.is_admin row)
  /\ (db_users s.1 !! uid = None ->
      forall row', db_users s'.1 !! uid = Some row' -> users.is_admin row' = 0).
Proof.
  cbv zeta. revert s. induction ws as [|w ws IH]; intros s; cbn [foldl].
  - split; [eauto|]. intros -> row' H. discriminate H.
  - destruct (IH (run w s)) as [IH1 IH2]. split.
    + intros row Hrow. destruct (run_user w s uid row Hrow) as (r1 & H1 & E1).
      destruct (IH1 r1 H1) as (r2 & H2 & E2). exists r2. split; [exact H2 | congruence].
    + intros Hnone row' Hrow'.
      destruct (db_users (run w s).1 !! uid) as [r1|] eqn:H1.
      * destruct (IH1 r1 eq_refl) as (r2 & H2 & E2).
        rewrite Hrow' in H2. injection H2 as <-.
        rewrite E2. exact (run_new_user w s uid r1 Hnone H1).
      * exact (IH2 eq_refl row' Hrow').
Qed.

(** X26: the writes make no administrator: from a store where no row has
    is_admin = 1, whatever is written, ensure_admin passes for bootstrap
    identities only. *)
Theorem writes_make_no_admin (ws : list write) (s : db * Z) (uid : Z) :
  (forall u row, db_users s.1 !! u = Some row -> users.is_admin row <> 1) ->
  ensure_admin uid (foldl (fun s w => run w s) s ws).1 = Ok tt ->
  uid ∈ bootstrap_admins.
Proof.
  revert s. induction ws as [|w ws IH]; intros s Hno; cbn [foldl].
  - unfold ensure_admin, get_user.
    destruct (db_users s.1 !! uid) as [row|] eqn:Hrow; [|discriminate].
    destruct (Z.eqb_spec (users.is_admin row) 1) as [H1|_]; cbn [orb].
    + exfalso. exact (Hno uid row Hrow H1).
    + case_bool_decide as Hin; [auto | discriminate].
  - apply IH. apply run_no_admin. exact Hno.
Qed.

(** ** Instances on the sample data *)

Lemma verify_Ok_signed_witness :
  exists token msg,
    encode Examples.default_token = Ok token
    /\ encode (data_check_string
                 (delete (py "hash") (dict (Urllib.parse_qsl Examples.signed)))) = Ok msg
    /\ dict (Urllib.parse_qsl Examples.signed) !! py "hash" = Some (calc_hash token msg)
    /\ Examples.json_loads
         (user_text (delete (py "hash") (dict (Urllib.parse_qsl Examples.signed))))
       = Ok Examples.alice.
Proof.
  apply (verify_Ok_signed Examples.default_token Examples.json_loads
                          Examples.signed Examples.alice).
  vm_compute. reflexivity.
Defined.

Lemma verify_field_order_witness :
  verify_init_data Examples.default_token Examples.json_loads
                   (Samples.signed_hash_field ++ py "&" ++ Samples.signed_fields)
  = Ok Examples.alice.
Proof.
  rewrite <- (verify_field_order Examples.default_token Examples.json_loads
                                 Samples.signed_fields Samples.signed_hash_field).
  - vm_compute. reflexivity.
  - replace (dict (Urllib.parse_qsl Samples.signed_hash_field))
      with ({[ py "hash" := Examples.signed_hash ]} : gmap str str)
      by (vm_compute; reflexivity).
    apply map_disjoint_singleton_r_2. vm_compute. reflexivity.
Defined.

Lemma days_operations_without_row_witness :
  (add_days 8 10 Examples.store = Ok Examples.store
   /\ sub_days 8 10 Examples.store = Ok Examples.store
   /\ set_days 8 10 Examples.store = Ok Examples.store)
  /\ (add_days 7 (2 ^ 63) Examples.store = Raise OverflowError
      /\ sub_days 7 (2 ^ 63) Examples.store = Raise OverflowError
      /\ set_days 7 (2 ^ 63) Examples.store = Raise OverflowError).
Proof.
  split.
  - apply (proj2 (days_operations_without_row 8 10 Examples.store)).
    + reflexivity.
    + vm_compute. reflexivity.
  - apply (proj1 (days_operations_without_row 7 (2 ^ 63) Examples.store)). reflexivity.
Defined.

Lemma add_days_after_sub_days_witness :
  exists d1 d2 row2,
    sub_days 7 3 Examples.store = Ok d1
    /\ add_days 7 3 d1 = Ok d2
    /\ db_users d2 !! 7 = Some row2
    /\ users.days_left row2 = INTEGER 3.
Proof.
  destruct (add_days_after_sub_days 7 3 (-5) Examples.store Examples.user7)
    as (d1 & d2 & row2 & Hsub & Hadd & Hrow2 & Hbal & _).
  - vm_compute. reflexivity.
  - reflexivity.
  - reflexivity.
  - reflexivity.
  - reflexivity.
  - vm_compute. reflexivity.
  - exists d1, d2, row2. auto.
Defined.

Lemma set_days_overwrites_witness :
  exists d1 row1 d2 row2,
    set_days 7 (2 ^ 63 - 1) Examples.store = Ok d1
    /\ db_users d1 !! 7 = Some row1
    /\ users.days_left row1 = INTEGER (2 ^ 63 - 1)
    /\ add_days 7 1 d1 = Ok d2
    /\ db_users d2 !! 7 = Some row2
    /\ users.days_left row2 = REAL (S754_finite false 4503599627370496 11).
Proof.
  destruct (proj2 (set_days_overwrites 7 (2 ^ 63 - 1) 1 (fun v => v)
                                       Examples.store Examples.user7
                                       ltac:(vm_compute; reflexivity)
                                       eq_refl eq_refl eq_refl))
    as (d1 & row1 & d2 & row2 & Hset & Hrow1 & Hbal1 & _ & _ & _ & _ & _ & _ & _ & _
        & Hadd & Hrow2 & _ & _ & Hreal).
  exists d1, row1, d2, row2. repeat split; try assumption.
  apply Hreal; reflexivity.
Defined.

Lemma create_payment_appends_witness :
  create_payment Samples.now 8 30 1 (2 ^ 63) None Examples.store 4 = Raise OverflowError
  /\ create_payment Samples.now 8 30 1 75 None Examples.store (2 ^ 63 - 1)
     = Raise OperationalError
  /\ exists d', create_payment Samples.now 8 30 1 75 None Examples.store 4 = Ok (d', 5, 5)
                /\ db_users d' = db_users Examples.store.
Proof.
  split; [|split].
  - apply (proj1 (create_payment_appends Samples.now 8 30 1 (2 ^ 63) None Examples.store 4)).
    reflexivity.
  - apply (proj2 (proj2 (create_payment_appends Samples.now 8 30 1 75 None
                                                Examples.store (2 ^ 63 - 1)))).
    + reflexivity.
    + discriminate.
    + vm_compute. reflexivity.
  - destruct (proj2 (proj2 (create_payment_appends Samples.now 8 30 1 75 None
                                                   Examples.store 4)) eq_refl)
      as [_ Hok].
    + discriminate.
    + destruct (Hok ltac:(vm_compute; reflexivity)) as (d' & Hcreate & _ & _ & _ & _ & Hu).
      exists d'. split; [|exact Hu]. rewrite Hcreate. vm_compute. reflexivity.
Defined.

Lemma confirm_after_create_witness :
  exists d1 d' d2,
    create_payment Samples.now 7 30 1 75 None Examples.store 4 = Ok (d1, 5, 5)
    /\ add_days 7 30 Examples.store = Ok d'
    /\ confirm_last_payment 7 d1 = Ok (d2, true)
    /\ db_users d2 = db_users d'
    /\ payments.status <$> db_payments d2 !! 5 = Some (py "paid").
Proof.
  assert (exists d1, create_payment Samples.now 7 30 1 75 None Examples.store 4
                     = Ok (d1, 5, 5)) as [d1 Hcreate]
    by (eexists; vm_compute; reflexivity).
  destruct (confirm_after_create _ _ _ _ _ _ _ _ _ _ _ Hcreate) as (d' & Hadd & Hconfirm).
  exists d1, d'. eexists. split; [exact Hcreate|]. split; [exact Hadd|].
  split; [exact Hconfirm|]. split; [reflexivity|].
  cbn [db_payments]. rewrite lookup_insert_eq. reflexivity.
Defined.

Lemma confirm_after_create_without_row_witness :
  exists d1 d2,
    create_payment Samples.now 8 30 1 75 None Examples.store 4 = Ok (d1, 5, 5)
    /\ confirm_last_payment 8 d1 = Ok (d2, true)
    /\ payments.status <$> db_payments d2 !! 5 = Some (py "paid")
    /\ db_users d2 = db_users Examples.store.
Proof.
  assert (exists d1, create_payment Samples.now 8 30 1 75 None Examples.store 4
                     = Ok (d1, 5, 5)) as [d1 Hcreate]
    by (eexists; vm_compute; reflexivity).
  destruct (confirm_after_create_without_row
              Samples.now 8 30 1 75 None Examples.store d1 4 5 5)
    as (d2 & Hconfirm & Hpaid & Husers).
  - vm_compute. reflexivity.
  - exact Hcreate.
  - exists d1, d2. auto.
Defined.

Lemma list_payments_after_create_witness :
  exists d1,
    create_payment Samples.now 7 30 1 75 None Examples.store 4 = Ok (d1, 5, 5)
    /\ item.payment_id <$> list_payments 7 d1 = [5; 3; 2; 1].
Proof.
  eexists. split; [vm_compute; reflexivity|].
  rewrite (list_payments_after_create Samples.now 7 30 1 75 None Examples.store _ 4 5 5).
  - vm_compute. reflexivity.
  - vm_compute. reflexivity.
Defined.

Lemma routes_fail_as_verify_witness :
  routes.calc Examples.default_token Examples.json_loads 30 1 []
    = Raise (HTTPException 401 "no initData")
  /\ routes.payments Examples.default_token Examples.json_loads Samples.int_of_str
       [] Samples.store = Raise (HTTPException 401 "no initData")
  /\ routes.admin Examples.default_token Examples.json_loads Samples.int_of_str
       [] Samples.store = Raise (HTTPException 401 "no initData").
Proof.
  destruct (routes_fail_as_verify Examples.default_token Examples.json_loads
              Samples.int_of_str [] (HTTPException 401 "no initData"))
    as (Hcalc & _ & Hpayments & _ & Hadmin).
  - vm_compute. reflexivity.
  - split; [apply Hcalc | split; [apply Hpayments | apply Hadmin]].
Defined.

Lemma admin_routes_gate_witness :
  exists uid row,
    routes.caller Examples.default_token Examples.json_loads Samples.int_of_str
                  Examples.signed = Ok uid
    /\ db_users Samples.store !! uid = Some row
    /\ (users.is_admin row = 1 \/ uid ∈ bootstrap_admins).
Proof.
  apply (proj1 (proj1 (admin_routes_gate Examples.default_token Examples.json_loads
                         Samples.int_of_str Samples.isdigit Samples.like
                         Examples.signed Samples.store))).
  vm_compute. reflexivity.
Defined.

Lemma admin_routes_apply_witness :
  exists d',
    routes.admin_add Examples.default_token Examples.json_loads Samples.int_of_str
                     7 10 Examples.signed Samples.store = Ok d'
    /\ routes.admin Examples.default_token Examples.json_loads Samples.int_of_str
                    Examples.signed Samples.store = Ok tt
    /\ add_days 7 10 Samples.store = Ok d'.
Proof.
  eexists. split; [vm_compute; reflexivity|].
  refine (proj1 (admin_routes_apply Examples.default_token Examples.json_loads
                   Samples.int_of_str Examples.signed Samples.store _ 7 10) _).
  vm_compute. reflexivity.
Defined.

Lemma payment_create_records_amount_witness :
  exists d' uid,
    routes.payment_create Examples.default_token Examples.json_loads Samples.int_of_str
      Samples.now 60 2 None Examples.signed Samples.store 4 = Ok (d', 5, 5, 285)
    /\ routes.caller Examples.default_token Examples.json_loads Samples.int_of_str
                     Examples.signed = Ok uid
    /\ calc_amount 60 2 = Ok 285
    /\ db_payments Samples.store !! 5 = None.
Proof.
  assert (exists d',
            routes.payment_create Examples.default_token Examples.json_loads
              Samples.int_of_str Samples.now 60 2 None Examples.signed Samples.store 4
            = Ok (d', 5, 5, 285)) as [d' Hcreate]
    by (eexists; vm_compute; reflexivity).
  destruct (payment_create_records_amount _ _ _ _ _ _ _ _ _ _ _ _ _ _ Hcreate)
    as (uid & Hcaller & Hamount & Hnew & _).
  exists d', uid. auto.
Defined.

Lemma purchase_then_confirm_witness :
  exists d1 d2 d3,
    routes.payment_create Examples.default_token Examples.json_loads Samples.int_of_str
      Samples.now 60 2 None Examples.signed Samples.store 4 = Ok (d1, 5, 5, 285)
    /\ routes.admin_confirm Examples.default_token Examples.json_loads Samples.int_of_str
         42 Examples.signed d1 = Ok (d2, true)
    /\ payments.status <$> db_payments d2 !! 5 = Some (py "paid")
    /\ add_days 42 60 Samples.store = Ok d3
    /\ db_users d2 = db_users d3.
Proof.
  assert (exists d1,
            routes.payment_create Examples.default_token Examples.json_loads
              Samples.int_of_str Samples.now 60 2 None Examples.signed Samples.store 4
            = Ok (d1, 5, 5, 285)) as [d1 Hcreate]
    by (eexists; vm_compute; reflexivity).
  destruct (purchase_then_confirm
              Examples.default_token Examples.json_loads Samples.int_of_str
              Samples.now 60 2 None Examples.signed Examples.signed Samples.store
              d1 4 5 5 285 42) as (d2 & d3 & Hconfirm & Hpaid & Hadd & Husers).
  - vm_compute. reflexivity.
  - exact Hcreate.
  - revert Hcreate. vm_compute. intros [= <-]. reflexivity.
  - exists d1, d2, d3. auto.
Defined.

Lemma profile_writes_own_text_witness :
  exists d' uid,
    routes.profile Examples.default_token Examples.json_loads Samples.int_of_str
                   None (Some (py "hello")) Examples.signed Samples.store = Ok d'
    /\ routes.caller Examples.default_token Examples.json_loads Samples.int_of_str
                     Examples.signed = Ok uid
    /\ db_payments d' = db_payments Samples.store.
Proof.
  assert (exists d',
            routes.profile Examples.default_token Examples.json_loads Samples.int_of_str
                           None (Some (py "hello")) Examples.signed Samples.store = Ok d')
    as [d' Hprofile] by (eexists; vm_compute; reflexivity).
  destruct (profile_writes_own_text _ _ _ _ _ _ _ _ Hprofile)
    as (uid & Hcaller & Hpayments & _).
  exists d', uid. auto.
Defined.

Lemma export_users_csv_read_back_witness :
  map (Urllib.split 44 []) (Urllib.split 10 [] (export_users_csv Samples.store))
  = [py "user_id"; py "username"; py "days_left"]
      :: map csv_fields (order_asc (map_to_list (db_users Samples.store))).
Proof.
  apply (export_users_csv_read_back Samples.store).
  intros uid row name Hrow Hname.
  assert (Hall : map_Forall (fun _ r => 10%N ∉ default [] (users.username r))
                            (db_users Samples.store)).
  { apply (bool_decide_unpack
             (map_Forall (fun _ r => 10%N ∉ default [] (users.username r))
                         (db_users Samples.store))).
    vm_compute. exact I. }
  specialize (Hall uid row Hrow). cbn beta in Hall. rewrite Hname in Hall. exact Hall.
Defined.

Lemma search_users_query_witness :
  Forall (fun kp => Samples.like (py "%" ++ lstrip_at (py "@ali") ++ py "%")
                                 (users.username kp.2) = Ok true)
         [(42, Samples.user42); (7, Examples.user7)].
Proof.
  destruct (search_users_query Samples.isdigit Samples.int_of_str Samples.like
              (py "@ali") 20 Samples.store [(42, Samples.user42); (7, Examples.user7)])
    as (_ & _ & _ & Htext).
  - discriminate.
  - vm_compute. reflexivity.
  - apply Htext. reflexivity.
Defined.

Lemma search_users_at_prefix_witness :
  search_users Samples.isdigit Samples.int_of_str Samples.like
               (Some (64%N :: py "@ali")) 20 Samples.store
  = search_users Samples.isdigit Samples.int_of_str Samples.like
                 (Some (py "@ali")) 20 Samples.store.
Proof.
  apply (search_users_at_prefix Samples.isdigit Samples.int_of_str Samples.like
                                (py "@ali") 20 Samples.store).
  discriminate.
Defined.

Lemma payments_only_get_paid_witness :
  exists p',
    db_payments
      (foldl (fun s w => run w s) (Examples.store, 4)
             [CreatePayment Samples.now 7 30 1 75 None; ConfirmLastPayment 7;
              SetDays 7 0; ConfirmLastPayment 7; ConfirmLastPayment 7]).1 !! 2 = Some p'
    /\ payment_evolves (Examples.payment 7 60 142 "pending") p'.
Proof.
  apply (payments_only_get_paid
           [CreatePayment Samples.now 7 30 1 75 None; ConfirmLastPayment 7;
            SetDays 7 0; ConfirmLastPayment 7; ConfirmLastPayment 7]
           (Examples.store, 4) 2 (Examples.payment 7 60 142 "pending")).
  vm_compute. reflexivity.
Defined.

Lemma writes_keep_is_admin_witness :
  exists row',
    db_users
      (foldl (fun s w => run w s) (Samples.store, 4)
             [UpdateProfile (Some (py "root")) None 42;
              GetOrCreateUser Samples.now 42 None; SetDays 42 9]).1 !! 42 = Some row'
    /\ users.is_admin row' = 1.
Proof.
  apply (proj1 (writes_keep_is_admin
                  [UpdateProfile (Some (py "root")) None 42;
                   GetOrCreateUser Samples.now 42 None; SetDays 42 9]
                  (Samples.store, 4) 42) Samples.user42).
  vm_compute. reflexivity.
Defined.

Lemma writes_make_no_admin_witness : 251385778 ∈ bootstrap_admins.
Proof.
  apply (writes_make_no_admin
           [GetOrCreateUser Samples.now 251385778 None; AddDays 251385778 30]
           (Examples.store, 4) 251385778).
  - intros u row Hrow.
    assert (Hall : map_Forall (fun _ r => users.is_admin r <> 1) (db_users Examples.store)).
    { apply (bool_decide_unpack
               (map_Forall (fun _ r => users.is_admin r <> 1) (db_users Examples.store))).
      vm_compute. exact I. }
    exact (Hall u row Hrow).
  - vm_compute. reflexivity.
Defined.
